(** * AudioWaveViwer: the renderer's audio pipeline, embedded and verified

    renderer.js keeps its whole state in module-level variables and mutates
    them from event handlers.  The embedding turns those variables into one
    record (grouped by concern), every handler into a function on that
    record, and what the handlers ask of the browser (connect, disconnect,
    start, stop, setInterval, media streams) into updates of an explicit
    platform component of the record.

    - JavaScript numbers are read as real numbers: rounding of doubles and
      of the single-precision audio parameters is outside the model, as are
      NaN and the infinities.  Clamping of an audio parameter to its
      nominal range is not modelled either (the cutoffs the script writes
      come from the frequency axis, 0 to 10000 Hz, well inside it).
    - A handler that throws keeps the assignments made before the throw;
      functions whose calls can raise return an [outcome].
    - The two [async] handlers (Start, file chosen) run in one step, with
      the result of the promise they await given by the event.
    - The restart that seekToPosition schedules with [setTimeout] arrives
      as a later playFile event.
    - Only the variables the verified properties read are kept: status
      texts, CSS classes, canvas drawing and the loading modal are left
      out.  The text of the currentTime label is kept, as the string
      formatTime builds. *)

From Stdlib Require Import Reals Lra Lia List Bool Arith PeanoNat ZArith.
From Stdlib Require String Ascii DecimalString.
Import String.StringSyntax Ascii.AsciiSyntax.
Import ListNotations.

Delimit Scope string_scope with string.
Delimit Scope char_scope with char.

Open Scope R_scope.

(** ** Comparisons of JavaScript numbers, as booleans *)

Definition Rleb (x y : R) : bool := if Rle_dec x y then true else false.
Definition Rltb (x y : R) : bool := if Rlt_dec x y then true else false.
Definition Reqb (x y : R) : bool := if Req_dec_T x y then true else false.

(** ** FrequencyMap: Hz <-> plot coordinate (renderer.js, lines 635-712) *)

Module FrequencyMap.

(** [FREQUENCY_CONFIG.values] *)
Definition values : list R :=
  [0; 50; 100; 200; 300; 400; 500; 600; 700; 800; 900; 1000; 2000; 5000; 10000].

(** [Math.log10] and [Math.pow(10, _)] *)
Definition log10 (f : R) : R := ln f / ln 10.
Definition pow10 (y : R) : R := Rpower 10 y.

(** [FREQUENCY_CACHE.logFreqs], as [initFrequencyModule] fills it *)
Definition logFreqs : list R :=
  map (fun f => if Reqb f 0 then 0 else log10 f) values.

(** The [for] loop of [hzToCanvasX]: [k] iterations remain, [i] is the loop
    variable; falling out of the loop returns 0. *)
Fixpoint hz_for (k i : nat) (logHz width : R) : R :=
  match k with
  | O => 0
  | S k' =>
      let f1 := nth i logFreqs 0 in
      let f2 := nth (i + 1) logFreqs 0 in
      if Rleb f1 logHz && Rleb logHz f2 then
        let ratio := (logHz - f1) / (f2 - f1) in
        let x1 := (INR i / INR (length logFreqs - 1)) * width in
        let x2 := (INR (i + 1) / INR (length logFreqs - 1)) * width in
        x1 + ratio * (x2 - x1)
      else hz_for k' (S i) logHz width
  end.

Definition hzToCanvasX (hz width : R) : R :=
  if Rleb hz (nth 0 values 0) then 0
  else if Rleb (nth (length values - 1) values 0) hz then width
  else
    let logHz := if Reqb hz 0 then 0 else log10 hz in
    hz_for (length logFreqs - 1) 0 logHz width.

(** The [for] loop of [canvasXToHz]; falling out returns [values[0]]. *)
Fixpoint x_for (k i : nat) (x width : R) : R :=
  match k with
  | O => nth 0 values 0
  | S k' =>
      let x1 := (INR i / INR (length logFreqs - 1)) * width in
      let x2 := (INR (i + 1) / INR (length logFreqs - 1)) * width in
      if Rleb x1 x && Rleb x x2 then
        let ratio := (x - x1) / (x2 - x1) in
        let logF1 := nth i logFreqs 0 in
        let logF2 := nth (i + 1) logFreqs 0 in
        let logHz := logF1 + ratio * (logF2 - logF1) in
        if Reqb logHz 0 then 0 else pow10 logHz
      else x_for k' (S i) x width
  end.

Definition canvasXToHz (x width : R) : R :=
  if Rleb x 0 then nth 0 values 0
  else if Rleb width x then nth (length values - 1) values 0
  else x_for (length logFreqs - 1) 0 x width.

End FrequencyMap.

(** ** The audio graph and the platform objects behind it *)

(** Upstream source nodes: [createMediaStreamSource] and
    [createBufferSource] results, told apart by the id of the object. *)
Inductive SrcNode : Type :=
| MicSource (id : nat)
| BufferSource (id : nat).

Inductive Node : Type :=
| Src (n : SrcNode)
| Highpass
| Lowpass
| GainOut
| Analyser
| Destination.

(** [inputMode]: 'none', 'realtime', 'file' *)
Inductive Mode : Type := ModeNone | ModeRealtime | ModeFile.

(** [selectedBandHz] = {lo, hi} and [selectedBandPixels] = {x1, x2} *)
Record BandHz : Type := mkBandHz { lo : R; hi : R }.
Record BandPixels : Type := mkBandPixels { x1 : R; x2 : R }.

Definition SrcNode_eqb (a b : SrcNode) : bool :=
  match a, b with
  | MicSource i, MicSource j => Nat.eqb i j
  | BufferSource i, BufferSource j => Nat.eqb i j
  | _, _ => false
  end.

Definition Node_eqb (a b : Node) : bool :=
  match a, b with
  | Src m, Src n => SrcNode_eqb m n
  | Highpass, Highpass | Lowpass, Lowpass | GainOut, GainOut
  | Analyser, Analyser | Destination, Destination => true
  | _, _ => false
  end.

Definition Mode_eqb (a b : Mode) : bool :=
  match a, b with
  | ModeNone, ModeNone | ModeRealtime, ModeRealtime | ModeFile, ModeFile => true
  | _, _ => false
  end.

Definition Edge : Type := (Node * Node)%type.

Definition Edge_eqb (e f : Edge) : bool :=
  Node_eqb (fst e) (fst f) && Node_eqb (snd e) (snd f).

(** [a.connect(b)]: one more connection, unless it is there already. *)
Definition add_edge (a b : Node) (es : list Edge) : list Edge :=
  if existsb (Edge_eqb (a, b)) es then es else es ++ [(a, b)].

(** [a.disconnect()]: every outgoing connection of [a] goes; connections
    into [a] stay. *)
Definition drop_edges (a : Node) (es : list Edge) : list Edge :=
  filter (fun e => negb (Node_eqb (fst e) a)) es.

Definition has_edge (a b : Node) (es : list Edge) : bool :=
  existsb (Edge_eqb (a, b)) es.

(** The processing nodes the script creates once and keeps
    ([gainOut], [highpass], [lowpass], [visualAnalyser]) with the one
    parameter of each the script reads or writes, and the connections. *)
Record Graph : Type := mkGraph {
  g_gainOut : option R;          (* gainOut.gain.value *)
  g_highpass : option R;         (* highpass.frequency.value *)
  g_lowpass : option R;          (* lowpass.frequency.value *)
  g_visualAnalyser : option nat; (* visualAnalyser.fftSize *)
  g_edges : list Edge
}.

(** What the browser holds for the script: ids handed out so far, buffer
    sources that were started (with their offset in the buffer) and
    stopped, buffer sources carrying the [onended] handler, media streams
    whose tracks were stopped, and the live [setInterval] timers. *)
Record Platform : Type := mkPlatform {
  p_nextId : nat;
  p_started : list (nat * R);
  p_stopped : list nat;
  p_onended : list nat;
  p_endedStreams : list nat;
  p_intervals : list nat
}.

Record Sources : Type := mkSources {
  s_audioCtx : bool;
  s_mediaStream : option nat;
  s_currentSourceNode : option SrcNode;
  s_realtimeSourceNode : option nat;
  s_fileSourceNode : option nat;
  s_inputMode : Mode;
  s_isRealtimeActive : bool;
  s_fileBuffer : option R;        (* the decoded buffer, by its duration *)
  s_fileDuration : R
}.

Record Transport : Type := mkTransport {
  t_isPlaying : bool;
  t_isRepeating : bool;
  t_currentTimelineProgress : R;
  t_timeUpdateInterval : option nat;
  t_playStartTime : R;
  t_pausedTime : R;
  t_btnPlay_disabled : bool;
  t_btnPause_disabled : bool;
  t_btnStop_disabled : bool;
  t_currentTime : String.string   (* text of the currentTime label *)
}.

Record Band : Type := mkBand {
  b_dragging : bool;
  b_dragStartX : option R;
  b_dragEndX : option R;
  b_selectedBandHz : option BandHz;
  b_selectedBandPixels : option BandPixels
}.

Record Output : Type := mkOutput {
  o_outputEnabled : bool;
  o_volumeLevel : R;
  o_peakBins : option (list R)
}.

(** The module-level variables of renderer.js, grouped. *)
Record Session : Type := mkSession {
  graph : Graph;
  platform : Platform;
  sources : Sources;
  transport : Transport;
  band : Band;
  output : Output
}.

(** Reading a variable. *)

Definition gainOut (s : Session) := g_gainOut (graph s).
Definition highpass (s : Session) := g_highpass (graph s).
Definition lowpass (s : Session) := g_lowpass (graph s).
Definition visualAnalyser (s : Session) := g_visualAnalyser (graph s).
Definition edges (s : Session) := g_edges (graph s).
Definition nextId (s : Session) := p_nextId (platform s).
Definition started (s : Session) := p_started (platform s).
Definition stopped (s : Session) := p_stopped (platform s).
Definition onended (s : Session) := p_onended (platform s).
Definition endedStreams (s : Session) := p_endedStreams (platform s).
Definition intervals (s : Session) := p_intervals (platform s).
Definition audioCtx (s : Session) := s_audioCtx (sources s).
Definition mediaStream (s : Session) := s_mediaStream (sources s).
Definition currentSourceNode (s : Session) := s_currentSourceNode (sources s).
Definition realtimeSourceNode (s : Session) := s_realtimeSourceNode (sources s).
Definition fileSourceNode (s : Session) := s_fileSourceNode (sources s).
Definition inputMode (s : Session) := s_inputMode (sources s).
Definition isRealtimeActive (s : Session) := s_isRealtimeActive (sources s).
Definition fileBuffer (s : Session) := s_fileBuffer (sources s).
Definition fileDuration (s : Session) := s_fileDuration (sources s).
Definition isPlaying (s : Session) := t_isPlaying (transport s).
Definition isRepeating (s : Session) := t_isRepeating (transport s).
Definition currentTimelineProgress (s : Session) := t_currentTimelineProgress (transport s).
Definition timeUpdateInterval (s : Session) := t_timeUpdateInterval (transport s).
Definition playStartTime (s : Session) := t_playStartTime (transport s).
Definition pausedTime (s : Session) := t_pausedTime (transport s).
Definition btnPlay_disabled (s : Session) := t_btnPlay_disabled (transport s).
Definition btnPause_disabled (s : Session) := t_btnPause_disabled (transport s).
Definition btnStop_disabled (s : Session) := t_btnStop_disabled (transport s).
Definition currentTime (s : Session) := t_currentTime (transport s).
Definition dragging (s : Session) := b_dragging (band s).
Definition dragStartX (s : Session) := b_dragStartX (band s).
Definition dragEndX (s : Session) := b_dragEndX (band s).
Definition selectedBandHz (s : Session) := b_selectedBandHz (band s).
Definition selectedBandPixels (s : Session) := b_selectedBandPixels (band s).
Definition outputEnabled (s : Session) := o_outputEnabled (output s).
Definition volumeLevel (s : Session) := o_volumeLevel (output s).
Definition peakBins (s : Session) := o_peakBins (output s).

(** Replacing one component of the session. *)

Definition upd_graph (f : Graph -> Graph) (s : Session) : Session :=
  mkSession (f (graph s)) (platform s) (sources s) (transport s) (band s) (output s).
Definition upd_platform (f : Platform -> Platform) (s : Session) : Session :=
  mkSession (graph s) (f (platform s)) (sources s) (transport s) (band s) (output s).
Definition upd_sources (f : Sources -> Sources) (s : Session) : Session :=
  mkSession (graph s) (platform s) (f (sources s)) (transport s) (band s) (output s).
Definition upd_transport (f : Transport -> Transport) (s : Session) : Session :=
  mkSession (graph s) (platform s) (sources s) (f (transport s)) (band s) (output s).
Definition upd_band (f : Band -> Band) (s : Session) : Session :=
  mkSession (graph s) (platform s) (sources s) (transport s) (f (band s)) (output s).
Definition upd_output (f : Output -> Output) (s : Session) : Session :=
  mkSession (graph s) (platform s) (sources s) (transport s) (band s) (f (output s)).

(** Assigning to a variable. *)

Definition set_gainOut v (s : Session) : Session :=
  upd_graph (fun c => mkGraph v (g_highpass c) (g_lowpass c) (g_visualAnalyser c) (g_edges c)) s.
Definition set_highpass v (s : Session) : Session :=
  upd_graph (fun c => mkGraph (g_gainOut c) v (g_lowpass c) (g_visualAnalyser c) (g_edges c)) s.
Definition set_lowpass v (s : Session) : Session :=
  upd_graph (fun c => mkGraph (g_gainOut c) (g_highpass c) v (g_visualAnalyser c) (g_edges c)) s.
Definition set_visualAnalyser v (s : Session) : Session :=
  upd_graph (fun c => mkGraph (g_gainOut c) (g_highpass c) (g_lowpass c) v (g_edges c)) s.
Definition set_edges v (s : Session) : Session :=
  upd_graph (fun c => mkGraph (g_gainOut c) (g_highpass c) (g_lowpass c) (g_visualAnalyser c) v) s.
Definition set_nextId v (s : Session) : Session :=
  upd_platform (fun c => mkPlatform v (p_started c) (p_stopped c) (p_onended c) (p_endedStreams c) (p_intervals c)) s.
Definition set_started v (s : Session) : Session :=
  upd_platform (fun c => mkPlatform (p_nextId c) v (p_stopped c) (p_onended c) (p_endedStreams c) (p_intervals c)) s.
Definition set_stopped v (s : Session) : Session :=
  upd_platform (fun c => mkPlatform (p_nextId c) (p_started c) v (p_onended c) (p_endedStreams c) (p_intervals c)) s.
Definition set_onended v (s : Session) : Session :=
  upd_platform (fun c => mkPlatform (p_nextId c) (p_started c) (p_stopped c) v (p_endedStreams c) (p_intervals c)) s.
Definition set_endedStreams v (s : Session) : Session :=
  upd_platform (fun c => mkPlatform (p_nextId c) (p_started c) (p_stopped c) (p_onended c) v (p_intervals c)) s.
Definition set_intervals v (s : Session) : Session :=
  upd_platform (fun c => mkPlatform (p_nextId c) (p_started c) (p_stopped c) (p_onended c) (p_endedStreams c) v) s.
Definition set_audioCtx v (s : Session) : Session :=
  upd_sources (fun c => mkSources v (s_mediaStream c) (s_currentSourceNode c) (s_realtimeSourceNode c) (s_fileSourceNode c) (s_inputMode c) (s_isRealtimeActive c) (s_fileBuffer c) (s_fileDuration c)) s.
Definition set_mediaStream v (s : Session) : Session :=
  upd_sources (fun c => mkSources (s_audioCtx c) v (s_currentSourceNode c) (s_realtimeSourceNode c) (s_fileSourceNode c) (s_inputMode c) (s_isRealtimeActive c) (s_fileBuffer c) (s_fileDuration c)) s.
Definition set_currentSourceNode v (s : Session) : Session :=
  upd_sources (fun c => mkSources (s_audioCtx c) (s_mediaStream c) v (s_realtimeSourceNode c) (s_fileSourceNode c) (s_inputMode c) (s_isRealtimeActive c) (s_fileBuffer c) (s_fileDuration c)) s.
Definition set_realtimeSourceNode v (s : Session) : Session :=
  upd_sources (fun c => mkSources (s_audioCtx c) (s_mediaStream c) (s_currentSourceNode c) v (s_fileSourceNode c) (s_inputMode c) (s_isRealtimeActive c) (s_fileBuffer c) (s_fileDuration c)) s.
Definition set_fileSourceNode v (s : Session) : Session :=
  upd_sources (fun c => mkSources (s_audioCtx c) (s_mediaStream c) (s_currentSourceNode c) (s_realtimeSourceNode c) v (s_inputMode c) (s_isRealtimeActive c) (s_fileBuffer c) (s_fileDuration c)) s.
Definition set_inputMode v (s : Session) : Session :=
  upd_sources (fun c => mkSources (s_audioCtx c) (s_mediaStream c) (s_currentSourceNode c) (s_realtimeSourceNode c) (s_fileSourceNode c) v (s_isRealtimeActive c) (s_fileBuffer c) (s_fileDuration c)) s.
Definition set_isRealtimeActive v (s : Session) : Session :=
  upd_sources (fun c => mkSources (s_audioCtx c) (s_mediaStream c) (s_currentSourceNode c) (s_realtimeSourceNode c) (s_fileSourceNode c) (s_inputMode c) v (s_fileBuffer c) (s_fileDuration c)) s.
Definition set_fileBuffer v (s : Session) : Session :=
  upd_sources (fun c => mkSources (s_audioCtx c) (s_mediaStream c) (s_currentSourceNode c) (s_realtimeSourceNode c) (s_fileSourceNode c) (s_inputMode c) (s_isRealtimeActive c) v (s_fileDuration c)) s.
Definition set_fileDuration v (s : Session) : Session :=
  upd_sources (fun c => mkSources (s_audioCtx c) (s_mediaStream c) (s_currentSourceNode c) (s_realtimeSourceNode c) (s_fileSourceNode c) (s_inputMode c) (s_isRealtimeActive c) (s_fileBuffer c) v) s.
Definition set_isPlaying v (s : Session) : Session :=
  upd_transport (fun c => mkTransport v (t_isRepeating c) (t_currentTimelineProgress c) (t_timeUpdateInterval c) (t_playStartTime c) (t_pausedTime c) (t_btnPlay_disabled c) (t_btnPause_disabled c) (t_btnStop_disabled c) (t_currentTime c)) s.
Definition set_isRepeating v (s : Session) : Session :=
  upd_transport (fun c => mkTransport (t_isPlaying c) v (t_currentTimelineProgress c) (t_timeUpdateInterval c) (t_playStartTime c) (t_pausedTime c) (t_btnPlay_disabled c) (t_btnPause_disabled c) (t_btnStop_disabled c) (t_currentTime c)) s.
Definition set_currentTimelineProgress v (s : Session) : Session :=
  upd_transport (fun c => mkTransport (t_isPlaying c) (t_isRepeating c) v (t_timeUpdateInterval c) (t_playStartTime c) (t_pausedTime c) (t_btnPlay_disabled c) (t_btnPause_disabled c) (t_btnStop_disabled c) (t_currentTime c)) s.
Definition set_timeUpdateInterval v (s : Session) : Session :=
  upd_transport (fun c => mkTransport (t_isPlaying c) (t_isRepeating c) (t_currentTimelineProgress c) v (t_playStartTime c) (t_pausedTime c) (t_btnPlay_disabled c) (t_btnPause_disabled c) (t_btnStop_disabled c) (t_currentTime c)) s.
Definition set_playStartTime v (s : Session) : Session :=
  upd_transport (fun c => mkTransport (t_isPlaying c) (t_isRepeating c) (t_currentTimelineProgress c) (t_timeUpdateInterval c) v (t_pausedTime c) (t_btnPlay_disabled c) (t_btnPause_disabled c) (t_btnStop_disabled c) (t_currentTime c)) s.
Definition set_pausedTime v (s : Session) : Session :=
  upd_transport (fun c => mkTransport (t_isPlaying c) (t_isRepeating c) (t_currentTimelineProgress c) (t_timeUpdateInterval c) (t_playStartTime c) v (t_btnPlay_disabled c) (t_btnPause_disabled c) (t_btnStop_disabled c) (t_currentTime c)) s.
Definition set_btnPlay_disabled v (s : Session) : Session :=
  upd_transport (fun c => mkTransport (t_isPlaying c) (t_isRepeating c) (t_currentTimelineProgress c) (t_timeUpdateInterval c) (t_playStartTime c) (t_pausedTime c) v (t_btnPause_disabled c) (t_btnStop_disabled c) (t_currentTime c)) s.
Definition set_btnPause_disabled v (s : Session) : Session :=
  upd_transport (fun c => mkTransport (t_isPlaying c) (t_isRepeating c) (t_currentTimelineProgress c) (t_timeUpdateInterval c) (t_playStartTime c) (t_pausedTime c) (t_btnPlay_disabled c) v (t_btnStop_disabled c) (t_currentTime c)) s.
Definition set_btnStop_disabled v (s : Session) : Session :=
  upd_transport (fun c => mkTransport (t_isPlaying c) (t_isRepeating c) (t_currentTimelineProgress c) (t_timeUpdateInterval c) (t_playStartTime c) (t_pausedTime c) (t_btnPlay_disabled c) (t_btnPause_disabled c) v (t_currentTime c)) s.
Definition set_currentTime v (s : Session) : Session :=
  upd_transport (fun c => mkTransport (t_isPlaying c) (t_isRepeating c) (t_currentTimelineProgress c) (t_timeUpdateInterval c) (t_playStartTime c) (t_pausedTime c) (t_btnPlay_disabled c) (t_btnPause_disabled c) (t_btnStop_disabled c) v) s.
Definition set_dragging v (s : Session) : Session :=
  upd_band (fun c => mkBand v (b_dragStartX c) (b_dragEndX c) (b_selectedBandHz c) (b_selectedBandPixels c)) s.
Definition set_dragStartX v (s : Session) : Session :=
  upd_band (fun c => mkBand (b_dragging c) v (b_dragEndX c) (b_selectedBandHz c) (b_selectedBandPixels c)) s.
Definition set_dragEndX v (s : Session) : Session :=
  upd_band (fun c => mkBand (b_dragging c) (b_dragStartX c) v (b_selectedBandHz c) (b_selectedBandPixels c)) s.
Definition set_selectedBandHz v (s : Session) : Session :=
  upd_band (fun c => mkBand (b_dragging c) (b_dragStartX c) (b_dragEndX c) v (b_selectedBandPixels c)) s.
Definition set_selectedBandPixels v (s : Session) : Session :=
  upd_band (fun c => mkBand (b_dragging c) (b_dragStartX c) (b_dragEndX c) (b_selectedBandHz c) v) s.
Definition set_outputEnabled v (s : Session) : Session :=
  upd_output (fun c => mkOutput v (o_volumeLevel c) (o_peakBins c)) s.
Definition set_volumeLevel v (s : Session) : Session :=
  upd_output (fun c => mkOutput (o_outputEnabled c) v (o_peakBins c)) s.
Definition set_peakBins v (s : Session) : Session :=
  upd_output (fun c => mkOutput (o_outputEnabled c) (o_volumeLevel c) v) s.

(** ** Exceptions

    A handler that throws keeps every assignment it made before the throw.
    [Done s] is normal completion in state [s], [Threw s] an exception
    raised in state [s]. *)
Inductive outcome : Type :=
| Done (s : Session)
| Threw (s : Session).

Definition bind (m : outcome) (k : Session -> outcome) : outcome :=
  match m with
  | Done s => k s
  | Threw s => Threw s
  end.

(** [try { m } catch (e) { h }] *)
Definition try_catch (m : outcome) (h : Session -> outcome) : outcome :=
  match m with
  | Done s => Done s
  | Threw s => h s
  end.

(** The state an event handler leaves behind, whether or not it threw. *)
Definition state_of (m : outcome) : Session :=
  match m with
  | Done s => s
  | Threw s => s
  end.

Definition threw (m : outcome) : bool :=
  match m with
  | Done _ => false
  | Threw _ => true
  end.

Notation "m >>= k" := (bind m k) (at level 50, left associativity).
Notation "'do' s <- m ; k" := (bind m (fun s => k))
  (at level 10, s name, m at level 100, k at level 200).

(** ** What the script cannot see from its own text

    [timelineSlider] is read by [startTimeUpdate] but declared nowhere in
    the script: [None] is the identifier not resolving (a ReferenceError),
    [Some v] an element of that id whose [value] is [v].
    [stopThrows id] tells whether the browser raises on [stop()] of buffer
    source [id] beyond the case the Web Audio specification fixes (a source
    that was never started). *)
Record Env : Type := mkEnv {
  timelineSlider : option R;
  stopThrows : nat -> bool
}.

Definition FFT_SIZE : nat := 2048.

(** [visualAnalyser.frequencyBinCount] is half the FFT size. *)
Definition frequencyBinCount (fftSize : nat) : nat := Nat.div fftSize 2.

(** ** Web Audio calls

    [connect] and the argument-less [disconnect] never raise; [start] and
    [stop] can. *)

Definition connect (a b : Node) (s : Session) : Session :=
  set_edges (add_edge a b (edges s)) s.

Definition disconnect (a : Node) (s : Session) : Session :=
  set_edges (drop_edges a (edges s)) s.

Definition was_started (id : nat) (s : Session) : bool :=
  existsb (fun p => Nat.eqb (fst p) id) (started s).

(** [node.start(0, offset)]: RangeError on a negative offset,
    InvalidStateError on a second start. *)
Definition start (id : nat) (offset : R) (s : Session) : outcome :=
  if Rltb offset 0 then Threw s
  else if was_started id s then Threw s
  else Done (set_started (started s ++ [(id, offset)]) s).

(** [node.stop()]: InvalidStateError when the source was never started. *)
Definition stop (E : Env) (id : nat) (s : Session) : outcome :=
  if negb (was_started id s) || stopThrows E id then Threw s
  else Done (set_stopped (id :: stopped s) s).

(** A fresh object id. *)
Definition fresh (s : Session) : nat * Session :=
  (nextId s, set_nextId (S (nextId s)) s).

(** ** initializeAudioNodes (lines 195-226) *)

Definition gainFor (s : Session) : R :=
  if outputEnabled s then volumeLevel s else 0.

Definition initializeAudioNodes (s : Session) : Session :=
  let s := match gainOut s with
           | None => set_gainOut (Some (gainFor s)) s
           | Some _ => s
           end in
  let s := match highpass s with
           | None => set_highpass (Some 20) s
           | Some _ => s
           end in
  let s := match lowpass s with
           | None => set_lowpass (Some 20000) s
           | Some _ => s
           end in
  match visualAnalyser s with
  | None => set_visualAnalyser (Some FFT_SIZE) s
  | Some _ => s
  end.

(** ** connectAudioPipeline (lines 229-262)

    Writing the frequency of a filter that does not exist is a TypeError. *)
Definition connectAudioPipeline (s : Session) : outcome :=
  match currentSourceNode s, gainOut s, visualAnalyser s with
  | Some src, Some _, Some _ =>
      let s := match highpass s with Some _ => disconnect Highpass s | None => s end in
      let s := match lowpass s with Some _ => disconnect Lowpass s | None => s end in
      let s := disconnect GainOut s in
      let s := disconnect Analyser s in
      let s := disconnect (Src src) s in
      do s <- match selectedBandHz s with
              | Some b =>
                  match highpass s with
                  | None => Threw s
                  | Some _ =>
                      let s := set_highpass (Some (Rmax 10 (lo b))) s in
                      match lowpass s, highpass s with
                      | Some _, Some hp =>
                          let s := set_lowpass (Some (Rmax (hp + 10) (hi b))) s in
                          let s := connect (Src src) Highpass s in
                          let s := connect Highpass Lowpass s in
                          Done (connect Lowpass GainOut s)
                      | _, _ => Threw s
                      end
                  end
              | None => Done (connect (Src src) GainOut s)
              end;
      let s := set_gainOut (Some (gainFor s)) s in
      let s := connect GainOut Destination s in
      Done (connect (Src src) Analyser s)
  | _, _, _ => Done s
  end.

Definition connectGraph (s : Session) : outcome := connectAudioPipeline s.

(** ** Timeline gauge (lines 378-420)

    The gauge canvas and its 2d context are taken to exist: the script
    dereferences [timelineGauge] when it loads. *)

Definition drawTimelineGauge (progressPercent : R) (s : Session) : Session :=
  set_currentTimelineProgress progressPercent s.

Definition getCurrentTimelineProgress (s : Session) : R :=
  currentTimelineProgress s.

(** ** stopTimeUpdate (lines 1245-1250) *)

Definition stopTimeUpdate (s : Session) : Session :=
  match timeUpdateInterval s with
  | Some id =>
      let s := set_intervals (filter (fun j => negb (Nat.eqb j id)) (intervals s)) s in
      set_timeUpdateInterval None s
  | None => s
  end.

(** ** stopCurrentInput (lines 422-443) *)

Definition stopCurrentInput (E : Env) (s : Session) : outcome :=
  do s <- match inputMode s, realtimeSourceNode s, fileSourceNode s with
          | ModeRealtime, Some _, _ =>
              let s := match mediaStream s with
                       | Some m => set_endedStreams (m :: endedStreams s) s
                       | None => s
                       end in
              Done (set_realtimeSourceNode None s)
          | ModeFile, _, Some n =>
              let s := disconnect (Src (BufferSource n)) s in
              do s <- stop E n s;
              let s := set_fileSourceNode None s in
              Done (set_isPlaying false s)
          | _, _, _ => Done s
          end;
  let s := set_currentSourceNode None s in
  Done (set_inputMode ModeNone s).

(** ** stopAudio (lines 446-458) *)

Definition stopAudio (E : Env) (s : Session) : outcome :=
  do s <- match inputMode s with
          | ModeRealtime => stopCurrentInput E s
          | _ => Done s
          end;
  Done (set_isRealtimeActive false s).

(** ** switchToRealtimeMode (lines 270-307) *)

Definition switchToRealtimeMode (E : Env) (s : Session) : outcome :=
  let s :=
    if isPlaying s && Mode_eqb (inputMode s) ModeFile then
      let s := match fileSourceNode s with
               | Some n =>
                   let s := state_of (stop E n (disconnect (Src (BufferSource n)) s)) in
                   set_fileSourceNode None s
               | None => s
               end in
      stopTimeUpdate (set_isPlaying false s)
    else s in
  do s <- (if negb (Mode_eqb (inputMode s) ModeRealtime) then
             do s <- stopCurrentInput E s;
             let s := set_inputMode ModeRealtime s in
             Done (set_currentSourceNode (option_map MicSource (realtimeSourceNode s)) s)
           else Done s);
  match gainOut s with
  | Some _ => Done (set_gainOut (Some (gainFor s)) s)
  | None => Done s
  end.

(** ** switchToFileMode (lines 309-347) *)

Definition switchToFileMode (E : Env) (s : Session) : outcome :=
  do s <- (if isRealtimeActive s && Mode_eqb (inputMode s) ModeRealtime
           then stopAudio E s else Done s);
  match fileBuffer s with
  | None =>
      let s := set_btnPlay_disabled true s in
      let s := set_btnPause_disabled true s in
      Done (set_btnStop_disabled true s)
  | Some _ =>
      do s <- (if negb (Mode_eqb (inputMode s) ModeFile) then
                 do s <- stopCurrentInput E s;
                 let s := set_inputMode ModeFile s in
                 Done (set_currentSourceNode (option_map BufferSource (fileSourceNode s)) s)
               else Done s);
      let s := set_btnPlay_disabled false s in
      let s := set_btnPause_disabled true s in
      let s := set_btnStop_disabled true s in
      match gainOut s with
      | Some _ => Done (set_gainOut (Some (gainFor s)) s)
      | None => Done s
      end
  end.

Definition switchToRealtimeInput := switchToRealtimeMode.
Definition switchToFileInput := switchToFileMode.

(** ** updateCurrentVolume (lines 370-375) *)

Definition updateCurrentVolume (s : Session) : Session :=
  match gainOut s, currentSourceNode s with
  | Some _, Some _ => set_gainOut (Some (gainFor s)) s
  | _, _ => s
  end.

(** ** startAudio (lines 128-192)

    [granted] is the outcome of [getUserMedia]: the stream arrives or the
    promise is rejected.  The stream and the source node made from it share
    one id. *)
Definition startAudio (E : Env) (granted : bool) (s : Session) : outcome :=
  try_catch
    (do s <- stopCurrentInput E s;
     if granted then
       let (id, s) := fresh s in
       let s := set_mediaStream (Some id) s in
       let s := set_audioCtx true s in
       let s := initializeAudioNodes s in
       let s := set_realtimeSourceNode (Some id) s in
       let s := set_currentSourceNode (option_map MicSource (realtimeSourceNode s)) s in
       let s := set_inputMode ModeRealtime s in
       do s <- connectAudioPipeline s;
       do s <- switchToRealtimeInput E s;
       Done (set_isRealtimeActive true s)
     else Threw s)
    (fun s => stopCurrentInput E s).

(** ** formatTime (lines 1255-1259)

    [Math.floor]; the [%] of JavaScript numbers, whose result takes the
    sign of the dividend; [toString] of an integral number, in decimal
    (the exponent notation JavaScript switches to from 10^21 on is outside
    the model); [padStart] with a one-character filler. *)

Definition floor (x : R) : Z := Int_part x.

Definition trunc (x : R) : Z :=
  if Rleb 0 x then Int_part x else (- Int_part (- x))%Z.

Definition remainder (x m : R) : R := x - m * IZR (trunc (x / m)).

Definition toString (z : Z) : String.string :=
  DecimalString.NilZero.string_of_int (Z.to_int z).

Fixpoint padding (n : nat) (c : Ascii.ascii) : String.string :=
  match n with
  | O => String.EmptyString
  | S k => String.String c (padding k c)
  end.

Definition padStart (n : nat) (c : Ascii.ascii) (s : String.string) : String.string :=
  String.append (padding (n - String.length s) c) s.

Definition formatTime (seconds : R) : String.string :=
  let minutes := floor (seconds / 60) in
  let secs := floor (remainder seconds 60) in
  String.append (padStart 2 "0"%char (toString minutes))
    (String.append ":"%string (padStart 2 "0"%char (toString secs))).

Arguments formatTime : simpl never.

(** ** File transport (lines 1105-1329) *)

(** pauseFile (lines 1163-1181) *)
Definition pauseFile (E : Env) (s : Session) : Session :=
  match fileSourceNode s with
  | Some n =>
      if isPlaying s then
        let s := state_of (stop E n (disconnect (Src (BufferSource n)) s)) in
        let s := set_fileSourceNode None s in
        let s := set_isPlaying false s in
        let s := set_btnPlay_disabled false s in
        let s := set_btnPause_disabled true s in
        stopTimeUpdate s
      else s
  | None => s
  end.

(** stopFile (lines 1184-1208) *)
Definition stopFile (E : Env) (s : Session) : Session :=
  let s := match fileSourceNode s with
           | Some n =>
               let s := state_of (stop E n (disconnect (Src (BufferSource n)) s)) in
               set_fileSourceNode None s
           | None => s
           end in
  let s := set_isPlaying false s in
  let s := set_btnPlay_disabled false s in
  let s := set_btnPause_disabled true s in
  let s := set_btnStop_disabled true s in
  let s := drawTimelineGauge 0 s in
  let s := set_currentTime "00:00"%string s in
  stopTimeUpdate s.

(** startTimeUpdate (lines 1225-1243): the anchor is taken, then the
    slider is read, then the poller is installed.  [now] is
    [audioCtx.currentTime]. *)
Definition startTimeUpdate (E : Env) (now : R) (s : Session) : outcome :=
  let s := set_playStartTime now s in
  match timelineSlider E with
  | None => Threw s
  | Some v =>
      let s := set_pausedTime ((v / 100) * fileDuration s) s in
      let (id, s) := fresh s in
      let s := set_intervals (id :: intervals s) s in
      Done (set_timeUpdateInterval (Some id) s)
  end.

(** The callback given to [setInterval] (lines 1229-1242). *)
Definition timeUpdateTick (E : Env) (now : R) (s : Session) : Session :=
  if isPlaying s && audioCtx s then
    let elapsed := now - playStartTime s + pausedTime s in
    let progress := Rmin (elapsed / fileDuration s) 1 * 100 in
    let s := drawTimelineGauge progress s in
    let s := set_currentTime (formatTime elapsed) s in
    if Rleb (fileDuration s) elapsed && negb (isRepeating s)
    then stopFile E s else s
  else s.

(** The [onended] handler playFile installs (lines 1147-1151). *)
Definition onendedHandler (E : Env) (s : Session) : Session :=
  if negb (isRepeating s) then pauseFile E s else s.

(** playFile (lines 1105-1160).  The whole body sits in one [try]; the
    handler of its [catch] only reports. *)
Definition playFile (E : Env) (now : R) (s : Session) : Session :=
  match fileBuffer s, audioCtx s with
  | Some _, true =>
      state_of
        (let s := match fileSourceNode s with
                  | Some n =>
                      let s := state_of (stop E n (disconnect (Src (BufferSource n)) s)) in
                      set_fileSourceNode None s
                  | None => s
                  end in
         let (id, s) := fresh s in
         let s := set_fileSourceNode (Some id) s in
         let s := set_currentSourceNode (option_map BufferSource (fileSourceNode s)) s in
         do s <- connectAudioPipeline s;
         let currentProgress := getCurrentTimelineProgress s in
         let startTime := (currentProgress / 100) * fileDuration s in
         do s <- start id startTime s;
         let s := set_isPlaying true s in
         let s := set_btnPlay_disabled true s in
         let s := set_btnPause_disabled false s in
         let s := set_btnStop_disabled false s in
         do s <- startTimeUpdate E now s;
         Done (set_onended (id :: onended s) s))
  | _, _ => s
  end.

(** toggleRepeat (lines 1262-1272) *)
Definition toggleRepeat (s : Session) : Session :=
  set_isRepeating (negb (isRepeating s)) s.

(** seekToPosition (lines 1308-1329).  The restart it schedules with
    [setTimeout] arrives later as a playFile call of its own. *)
Definition seekToPosition (E : Env) (progressPercent : R) (s : Session) : Session :=
  match inputMode s, fileBuffer s with
  | ModeFile, Some _ =>
      let s := if isPlaying s then pauseFile E s else s in
      let seekTime := (progressPercent / 100) * fileDuration s in
      let s := set_currentTime (formatTime seekTime) s in
      drawTimelineGauge progressPercent s
  | _, _ => s
  end.

(** Click on the timeline gauge (lines 1285-1305). *)
Definition timelineClick (E : Env) (clickX rectWidth : R) (s : Session) : Session :=
  if Mode_eqb (inputMode s) ModeFile && Rltb 0 (fileDuration s) then
    let progress := (clickX / rectWidth) * 100 in
    let clampedProgress := Rmax 0 (Rmin 100 progress) in
    let seekTime := (clampedProgress / 100) * fileDuration s in
    let s := set_currentTime (formatTime seekTime) s in
    let s := drawTimelineGauge clampedProgress s in
    seekToPosition E clampedProgress s
  else s.

(** The [change] handler of the file input (lines 1038-1100).  [decoded]
    is the outcome of [decodeAudioData]: the duration of the buffer, or a
    rejection. *)
Definition loadFile (E : Env) (decoded : option R) (s : Session) : Session :=
  state_of
    (do s <- stopCurrentInput E s;
     let s := set_audioCtx true s in
     match decoded with
     | None => Threw s
     | Some d =>
         let s := set_fileBuffer (Some d) s in
         let s := set_fileDuration d s in
         let s := initializeAudioNodes s in
         do s <- switchToFileMode E s;
         let s := set_currentTime "00:00"%string s in
         let s := drawTimelineGauge 0 s in
         let s := set_btnPlay_disabled false s in
         let s := set_btnPause_disabled true s in
         Done (set_btnStop_disabled true s)
     end).

(** ** Output toggle and volume (lines 728-736, 939-951) *)

Definition outputClick (s : Session) : Session :=
  let s := set_outputEnabled (negb (outputEnabled s)) s in
  updateCurrentVolume s.

Definition updateVolume (volumePercent : R) (s : Session) : Session :=
  let s := set_volumeLevel (volumePercent / 100) s in
  updateCurrentVolume s.

(** ** Peak hold (lines 513-539, 820-827) *)

Definition floorDb : R := -120.

(** [a[i] = v] on a typed array: nothing happens out of range. *)
Fixpoint store (i : nat) (v : R) (a : list R) : list R :=
  match a, i with
  | [], _ => []
  | _ :: t, O => v :: t
  | h :: t, S i' => h :: store i' v t
  end.

(** The update loop: [k] iterations remain, [i] is the loop variable. *)
Fixpoint peak_for (k i n : nat) (freqData peakBins : list R) : list R :=
  match k with
  | O => peakBins
  | S k' =>
      let cur := nth i freqData 0 in
      let peakBins := match nth_error peakBins i with
                      | None => repeat floorDb n
                      | Some _ => peakBins
                      end in
      let peakBins := store i (Rmax cur (nth i peakBins 0)) peakBins in
      peak_for k' (S i) n freqData peakBins
  end.

Arguments frequencyBinCount : simpl never.

(** The part of drawSpectrum that keeps the peaks; [snapshot] is what
    [getFloatFrequencyData] writes, by bin. *)
Definition drawSpectrum (snapshot : nat -> R) (s : Session) : Session :=
  match visualAnalyser s with
  | None => s
  | Some fftSize =>
      let n := frequencyBinCount fftSize in
      let freqData := map snapshot (seq 0 n) in
      let peaks := match peakBins s with
                   | Some p => if Nat.eqb (length p) n then p else repeat floorDb n
                   | None => repeat floorDb n
                   end in
      set_peakBins (Some (peak_for n 0 n freqData peaks)) s
  end.

(** drawLoop (lines 461-483) gives up when there is no context or no
    analyser. *)
Definition drawLoop (snapshot : nat -> R) (s : Session) : Session :=
  if audioCtx s then
    match visualAnalyser s with
    | Some _ => drawSpectrum snapshot s
    | None => s
    end
  else s.

Definition resetMaxPeaks (s : Session) : Session :=
  match peakBins s with
  | Some p => set_peakBins (Some (map (fun _ => floorDb) p)) s
  | None => s
  end.

(** ** Band selection (lines 743-836) *)

Definition clearBand (s : Session) : outcome :=
  let s := set_selectedBandHz None s in
  let s := set_selectedBandPixels None s in
  let s := set_dragStartX None s in
  let s := set_dragEndX None s in
  connectGraph s.

(** The plot area of the spectrum canvas: padding left 0, right 10. *)
Definition plotX : R := 0.
Definition plotWidth (rectWidth : R) : R := rectWidth - 0 - 10.

Inductive MouseButton : Type := LeftButton | MiddleButton | RightButton.

Definition mousedown (mouseX rectWidth : R) (button : MouseButton) (s : Session) : Session :=
  if Rleb plotX mouseX && Rleb mouseX (plotX + plotWidth rectWidth) then
    match button with
    | LeftButton =>
        let s := set_dragging true s in
        let s := set_dragStartX (Some mouseX) s in
        set_dragEndX (Some mouseX) s
    | RightButton => resetMaxPeaks s
    | MiddleButton => s
    end
  else s.

Definition mousemove (mouseX rectWidth : R) (s : Session) : Session :=
  if dragging s then
    set_dragEndX (Some (Rmax plotX (Rmin (plotX + plotWidth rectWidth) mouseX))) s
  else s.

Definition mouseup (rectWidth : R) (s : Session) : outcome :=
  if dragging s then
    let s := set_dragging false s in
    do s <- match dragStartX s, dragEndX s with
            | Some a, Some b =>
                let x1 := Rmin a b in
                let x2 := Rmax a b in
                if Rleb plotX x1 && Rleb x2 (plotX + plotWidth rectWidth)
                   && Rleb 5 (x2 - x1) then
                  let s := set_selectedBandPixels (Some (mkBandPixels x1 x2)) s in
                  let plotX1 := x1 - plotX in
                  let plotX2 := x2 - plotX in
                  let lo := FrequencyMap.canvasXToHz plotX1 (plotWidth rectWidth) in
                  let hi := FrequencyMap.canvasXToHz plotX2 (plotWidth rectWidth) in
                  let s := set_selectedBandHz (Some (mkBandHz lo hi)) s in
                  connectGraph s
                else clearBand s
            | _, _ => Done s
            end;
    let s := set_dragStartX None s in
    Done (set_dragEndX None s)
  else Done s.

(** ** Events

    Everything that reaches the script: button clicks, mouse events on the
    spectrum, the promises it awaits, timer ticks, [ended] events and
    animation frames. *)
Inductive event : Type :=
| StartClick (granted : bool)
| StopRealtimeClick
| ModeRealtimeClick
| ModeFileClick
| FileChosen (decoded : option R)
| PlayClick (now : R)
| PauseClick
| StopClick
| RepeatClick
| TimelineClick (clickX rectWidth : R)
| IntervalTick (id : nat) (now : R)
| EndedEvent (id : nat)
| OutputClick
| VolumeSet (volumePercent : R)
| ClearClick
| MouseDown (mouseX rectWidth : R) (button : MouseButton)
| MouseMove (mouseX rectWidth : R)
| MouseUp (rectWidth : R)
| AnimationFrame (snapshot : nat -> R).

Definition step (E : Env) (s : Session) (e : event) : Session :=
  match e with
  | StartClick granted => state_of (startAudio E granted s)
  | StopRealtimeClick => state_of (stopAudio E s)
  | ModeRealtimeClick => state_of (switchToRealtimeMode E s)
  | ModeFileClick => state_of (switchToFileMode E s)
  | FileChosen decoded => loadFile E decoded s
  | PlayClick now => playFile E now s
  | PauseClick => pauseFile E s
  | StopClick => stopFile E s
  | RepeatClick => toggleRepeat s
  | TimelineClick clickX rectWidth => timelineClick E clickX rectWidth s
  | IntervalTick id now =>
      if existsb (Nat.eqb id) (intervals s) then timeUpdateTick E now s else s
  | EndedEvent id =>
      if existsb (Nat.eqb id) (onended s) then onendedHandler E s else s
  | OutputClick => outputClick s
  | VolumeSet volumePercent => updateVolume volumePercent s
  | ClearClick => state_of (clearBand s)
  | MouseDown mouseX rectWidth button => mousedown mouseX rectWidth button s
  | MouseMove mouseX rectWidth => mousemove mouseX rectWidth s
  | MouseUp rectWidth => state_of (mouseup rectWidth s)
  | AnimationFrame snapshot => drawLoop snapshot s
  end.

Definition run (E : Env) (s : Session) (es : list event) : Session :=
  fold_left (step E) es s.

(** The script as loaded: every variable at its initialiser, after the
    [updateVolume(100)] of [init]; the currentTime label is taken to read
    00:00, the text every reset of the transport writes. *)
Definition initial : Session :=
  mkSession
    (mkGraph None None None None [])
    (mkPlatform 1 [] [] [] [] [])
    (mkSources false None None None None ModeNone false None 0)
    (mkTransport false false 0 None 0 0 false false false "00:00"%string)
    (mkBand false None None None None)
    (mkOutput false 1 None).

(** ** Vocabulary of the properties *)

(** Left edge of segment [i] of the frequency axis on a plot of the given
    width. *)
Definition edge (i : nat) (width : R) : R := (INR i / INR 14) * width.

(** What the gain and peak invariants look at.

    [gobs] collects the parameters of the processing nodes and the output
    settings; together with [currentSourceNode] these are the only
    variables the invariants below read. *)

Definition gobs (s : Session) :=
  (gainOut s, highpass s, lowpass s, visualAnalyser s, output s).


(** The processing nodes are created together by [initializeAudioNodes],
    the analyser always with [FFT_SIZE]. *)
Definition nodes_ok (s : Session) : Prop :=
  (gainOut s = None /\ highpass s = None /\ lowpass s = None /\
   visualAnalyser s = None) \/
  (gainOut s <> None /\ highpass s <> None /\ lowpass s <> None /\
   visualAnalyser s = Some FFT_SIZE).

(** The peak array, once it exists, has one entry per analyser bin. *)
Definition peaks_ok (s : Session) : Prop :=
  forall p, peakBins s = Some p ->
    visualAnalyser s = Some FFT_SIZE /\ length p = frequencyBinCount FFT_SIZE.

(** While a current source is set, the gain node carries
    [outputEnabled ? volumeLevel : 0]. *)
Definition gain_ok (s : Session) : Prop :=
  forall g src, gainOut s = Some g -> currentSourceNode s = Some src ->
    g = gainFor s.

(** [P] is whatever else is to be carried along about the peak array:
    nothing at all ([any_peaks]), or that it is a given array. *)
Definition wired_ok (P : option (list R) -> Prop) (s : Session) : Prop :=
  nodes_ok s /\ peaks_ok s /\ P (peakBins s).

Definition session_ok (P : option (list R) -> Prop) (s : Session) : Prop :=
  wired_ok P s /\ gain_ok s.

Definition any_peaks : option (list R) -> Prop := fun _ => True.

(** [quiet s s']: going from [s] to [s'] left the node parameters and the
    output settings alone and did not install a new current source. *)
Definition quiet (s s' : Session) : Prop :=
  gobs s' = gobs s /\
  (currentSourceNode s' = currentSourceNode s \/ currentSourceNode s' = None).

(** Every entry of the peak array [p] is still there in [q] and has not
    gone down. *)
Definition peaks_le (p q : option (list R)) : Prop :=
  forall l i v, p = Some l -> nth_error l i = Some v ->
    exists l' v', q = Some l' /\ nth_error l' i = Some v' /\ v <= v'.

(** The right-button press inside the plot area is the reset gesture. *)
Definition is_reset (e : event) : bool :=
  match e with
  | MouseDown _ _ RightButton => true
  | _ => false
  end.

Definition peaks_kept (s s' : Session) : Prop := peakBins s' = peakBins s.

(** The graph connectAudioPipeline leaves when it gets past its guard:
    the managed nodes and the source lose their outgoing connections, then
    the audible chain (through the filters when a band is selected) and the
    analysis tap are connected. *)
Definition cleared (src : SrcNode) (es : list Edge) : list Edge :=
  drop_edges (Src src)
    (drop_edges Analyser
       (drop_edges GainOut (drop_edges Lowpass (drop_edges Highpass es)))).

Definition rewired (src : SrcNode) (s : Session) : Session :=
  match selectedBandHz s with
  | Some b =>
      let hp := Rmax 10 (lo b) in
      let lp := Rmax (hp + 10) (hi b) in
      set_edges
        (add_edge (Src src) Analyser
           (add_edge GainOut Destination
              (add_edge Lowpass GainOut
                 (add_edge Highpass Lowpass
                    (add_edge (Src src) Highpass (cleared src (edges s)))))))
        (set_gainOut (Some (gainFor s))
           (set_lowpass (Some lp) (set_highpass (Some hp) s)))
  | None =>
      set_edges
        (add_edge (Src src) Analyser
           (add_edge GainOut Destination
              (add_edge (Src src) GainOut (cleared src (edges s)))))
        (set_gainOut (Some (gainFor s)) s)
  end.

(** Sources with a connection into the audible chain (a filter or the
    gain node), each listed once. *)
Fixpoint upstream_sources (es : list Edge) : list SrcNode :=
  match es with
  | [] => []
  | (Src n, b) :: t =>
      let rest := upstream_sources t in
      if (Node_eqb b GainOut || Node_eqb b Highpass)
         && negb (existsb (SrcNode_eqb n) rest)
      then n :: rest else rest
  | _ :: t => upstream_sources t
  end.

(** The three transport states, read off the variables the transport
    keeps: playing; otherwise stopped when the Stop button is disabled (as
    stopFile and a fresh load leave it), paused when it is still enabled. *)
Inductive TransportState : Type := Stopped | Playing | Paused.

Definition transportState (s : Session) : TransportState :=
  if isPlaying s then Playing
  else if btnStop_disabled s then Stopped else Paused.

(** The position the timeline reports, in seconds. *)
Definition reportedPosition (s : Session) : R :=
  (currentTimelineProgress s / 100) * fileDuration s.

(** *** Browsers to evaluate the script in *)

(** A browser in which [timelineSlider] resolves to an element whose value
    stays 0 and [stop()] only fails as the specification says. *)
Definition sliderEnv : Env := mkEnv (Some 0) (fun _ => false).

(** A browser in which [timelineSlider] does not resolve. *)
Definition bareEnv : Env := mkEnv None (fun _ => false).

(** A browser that raises on every [stop()]. *)
Definition stopFailsEnv : Env := mkEnv (Some 0) (fun _ => true).


(** ** More of renderer.js

    Pure helpers of the drawing and gauge code. *)

(** dbToY (lines 593-598) *)
Definition dbToY (db height : R) : R :=
  let minDb := -120 in
  let maxDb := 0 in
  let norm := (db - minDb) / (maxDb - minDb) in
  height - Rmax 0 (Rmin 1 norm) * height.

(** hzToCanvasXFromBin (lines 715-719).  [sampleRate] is
    [audioCtx.sampleRate] when a context exists. *)
Definition nyquist (sampleRate : option R) : R :=
  (match sampleRate with Some r => r | None => 48000 end) / 2.

Definition hzToCanvasXFromBin (sampleRate : option R)
    (binIndex totalBins : nat) (width : R) : R :=
  let ny := nyquist sampleRate in
  let freq := (INR binIndex / INR totalBins) * ny in
  FrequencyMap.hzToCanvasX freq width.

(** getGridFrequencyValues (lines 722-725) *)
Definition getGridFrequencyValues (sampleRate : option R) : list R :=
  let ny := nyquist sampleRate in
  filter (fun f => Rleb f ny) FrequencyMap.values.

(** The fill height drawVolumeGauge computes (lines 853-866). *)
Definition gaugeFillHeight (volumePercent height : R) : R :=
  if Rleb volumePercent 100 then
    (volumePercent / 100) * (height / 2)
  else if Rleb volumePercent 500 then
    let progress := (volumePercent - 100) / 400 in
    (height / 2) + progress * (height / 4)
  else
    let progress := (volumePercent - 500) / 500 in
    (height * 3 / 4) + progress * (height / 4).

(** calculateVolumeFromY (lines 980-995) *)
Definition calculateVolumeFromY (y height : R) : R :=
  let normalizedY := 1 - (y / height) in
  if Rleb normalizedY 0.5 then
    Rmax 0 (Rmin 100 (normalizedY * 2 * 100))
  else if Rleb normalizedY 0.75 then
    let progress := (normalizedY - 0.5) / 0.25 in
    Rmax 100 (Rmin 500 (100 + progress * 400))
  else
    let progress := (normalizedY - 0.75) / 0.25 in
    Rmax 500 (Rmin 1000 (500 + progress * 500)).

(** No entry of the peak array is below the floor. *)
Definition floored (o : option (list R)) : Prop :=
  forall p, o = Some p -> Forall (fun v => floorDb <= v) p.

(** ** Runs the browser can produce

    What the events carry comes from the browser: a decoded buffer has a
    positive duration, the width of the timeline gauge is positive, and
    [audioCtx.currentTime] never runs backwards.  [receivable t es] says
    so of the events [es], [t] being the last clock reading before them. *)
Fixpoint receivable (t : R) (es : list event) : Prop :=
  match es with
  | [] => True
  | PlayClick now :: es' => t <= now /\ receivable now es'
  | IntervalTick _ now :: es' => t <= now /\ receivable now es'
  | FileChosen (Some d) :: es' => 0 < d /\ receivable t es'
  | TimelineClick _ w :: es' => 0 < w /\ receivable t es'
  | _ :: es' => receivable t es'
  end.

(** A browser whose [stop()] raises only where the Web Audio
    specification says so (on a source that was never started), and whose
    [timelineSlider], if the identifier resolves at all, is a range input
    with a value from 0 to 100. *)
Definition conforming (E : Env) : Prop :=
  (forall id, stopThrows E id = false) /\
  (forall v, timelineSlider E = Some v -> 0 <= v <= 100).

(** The recorded file source has been started; ids handed out so far are
    below the next one; the timeline position, the duration and the
    anchors of the poller are not negative, the anchor not after the
    clock reading [t]. *)
Definition well_timed (t : R) (s : Session) : Prop :=
  (forall n, fileSourceNode s = Some n -> was_started n s = true) /\
  (forall p, In p (started s) -> (fst p < nextId s)%nat) /\
  0 <= currentTimelineProgress s /\ 0 <= fileDuration s /\
  playStartTime s <= t /\ 0 <= pausedTime s.

(** [steady s s']: going from [s] to [s'] started no source, forgot the
    file source or kept it, and left the timeline position and the
    duration alone or not negative. *)
Definition steady (s s' : Session) : Prop :=
  started s' = started s /\ (nextId s <= nextId s')%nat /\
  (fileSourceNode s' = fileSourceNode s \/ fileSourceNode s' = None) /\
  (currentTimelineProgress s' = currentTimelineProgress s \/
   0 <= currentTimelineProgress s') /\
  (fileDuration s' = fileDuration s \/ 0 <= fileDuration s') /\
  playStartTime s' = playStartTime s /\ pausedTime s' = pausedTime s.
(* ================================================================== *)
(** * Properties                                                       *)
(* ================================================================== *)

(** ** Number comparisons *)

Lemma Rleb_true x y : x <= y -> Rleb x y = true.
Proof. intros H; unfold Rleb; destruct (Rle_dec x y); [reflexivity | contradiction]. Qed.

Lemma Rleb_false x y : y < x -> Rleb x y = false.
Proof. intros H; unfold Rleb; destruct (Rle_dec x y); [lra | reflexivity]. Qed.

Lemma Rltb_true x y : x < y -> Rltb x y = true.
Proof. intros H; unfold Rltb; destruct (Rlt_dec x y); [reflexivity | contradiction]. Qed.

Lemma Rltb_false x y : y <= x -> Rltb x y = false.
Proof. intros H; unfold Rltb; destruct (Rlt_dec x y); [lra | reflexivity]. Qed.

Lemma Reqb_true x y : x = y -> Reqb x y = true.
Proof. intros H; unfold Reqb; destruct (Req_dec_T x y); [reflexivity | contradiction]. Qed.

Lemma Reqb_false x y : x <> y -> Reqb x y = false.
Proof. intros H; unfold Reqb; destruct (Req_dec_T x y); [contradiction | reflexivity]. Qed.

Lemma Rleb_spec x y : Rleb x y = true <-> x <= y.
Proof. unfold Rleb; destruct (Rle_dec x y); split; intros; try easy. Qed.

(** ** FrequencyMap *)

Section FrequencyMapFacts.
Import FrequencyMap.

Lemma ln10_pos : 0 < ln 10.
Proof. rewrite <- ln_1. apply ln_increasing; lra. Qed.

Lemma log10_incr a b : 0 < a -> a < b -> log10 a < log10 b.
Proof.
  intros Ha Hab. unfold log10, Rdiv.
  apply Rmult_lt_compat_r.
  - apply Rinv_0_lt_compat, ln10_pos.
  - now apply ln_increasing.
Qed.

Lemma log10_pow10 y : log10 (pow10 y) = y.
Proof.
  unfold log10, pow10, Rpower. rewrite ln_exp. field.
  pose proof ln10_pos; lra.
Qed.

Lemma log10_1 : log10 1 = 0.
Proof. unfold log10. rewrite ln_1. unfold Rdiv. ring. Qed.

Lemma segments : (length logFreqs - 1 = 14)%nat.
Proof. reflexivity. Qed.

Ltac breakpoint :=
  cbn [logFreqs values map nth];
  repeat (rewrite Reqb_true by reflexivity);
  repeat (rewrite Reqb_false by lra).

Lemma logFreqs_incr i :
  (i < 14)%nat -> nth i logFreqs 0 < nth (S i) logFreqs 0.
Proof.
  intros Hi.
  destruct i as [|i].
  { breakpoint. rewrite <- log10_1. apply log10_incr; lra. }
  do 13 (destruct i as [|i]; [breakpoint; apply log10_incr; lra|]).
  lia.
Qed.

Lemma logFreqs_mono i j :
  (i <= j)%nat -> (j <= 14)%nat -> nth i logFreqs 0 <= nth j logFreqs 0.
Proof.
  induction 1 as [|j Hij IH]; intros Hj.
  - lra.
  - pose proof (logFreqs_incr j ltac:(lia)). specialize (IH ltac:(lia)). lra.
Qed.

Lemma logFreqs_first : nth 0 logFreqs 0 = 0.
Proof. breakpoint. reflexivity. Qed.

Lemma logFreqs_last : nth 14 logFreqs 0 = log10 10000.
Proof. breakpoint. reflexivity. Qed.


Lemma edge_0 w : edge 0 w = 0.
Proof. unfold edge. simpl. lra. Qed.

Lemma edge_14 w : edge 14 w = w.
Proof. unfold edge. simpl. field. Qed.

Lemma edge_S i w : 0 < w -> edge i w < edge (i + 1) w.
Proof.
  intros Hw. unfold edge.
  assert (H14 : INR 14 = 14) by (simpl; lra). rewrite H14.
  rewrite Nat.add_1_r, S_INR. lra.
Qed.

Lemma x_for_spec k : forall i x w,
  0 < w -> (i + k = 14)%nat -> edge i w < x -> x < w ->
  exists j, (i <= j < 14)%nat /\ edge j w < x <= edge (j + 1) w /\
    x_for k i x w =
      (let logHz := nth j logFreqs 0 +
                    (x - edge j w) / (edge (j + 1) w - edge j w) *
                    (nth (j + 1) logFreqs 0 - nth j logFreqs 0) in
       if Reqb logHz 0 then 0 else pow10 logHz).
Proof.
  induction k as [|k IH]; intros i x w Hw Hik Hlo Hhi.
  - replace i with 14%nat in Hlo by lia. rewrite edge_14 in Hlo. lra.
  - cbn [x_for]. rewrite segments. fold (edge i w). fold (edge (i + 1) w).
    rewrite (Rleb_true (edge i w) x) by lra. cbn [andb].
    destruct (Rle_dec x (edge (i + 1) w)) as [Hle|Hgt].
    + rewrite Rleb_true by assumption.
      exists i. repeat split; try lia; try lra.
    + rewrite Rleb_false by lra.
      destruct (IH (S i) x w Hw ltac:(lia)) as (j & Hj & Hx & Heq).
      * rewrite <- Nat.add_1_r. lra.
      * assumption.
      * exists j. repeat split; try lia; try tauto.
Qed.

Lemma hz_for_spec k : forall i j l w,
  (i + k = 14)%nat -> (i <= j < 14)%nat ->
  nth j logFreqs 0 < l <= nth (j + 1) logFreqs 0 ->
  hz_for k i l w =
    edge j w + (l - nth j logFreqs 0) / (nth (j + 1) logFreqs 0 - nth j logFreqs 0) *
               (edge (j + 1) w - edge j w).
Proof.
  induction k as [|k IH]; intros i j l w Hik Hij Hl.
  - lia.
  - cbn [hz_for]. rewrite segments. fold (edge i w). fold (edge (i + 1) w).
    destruct (Nat.eq_dec i j) as [->|Hne].
    + rewrite !Rleb_true by lra. reflexivity.
    + pose proof (logFreqs_mono (i + 1) j ltac:(lia) ltac:(lia)).
      rewrite (Rleb_false l) by lra. rewrite andb_false_r.
      apply IH; [lia | lia | assumption].
Qed.

Lemma pow10_below_last l : l < nth 14 logFreqs 0 -> pow10 l < 10000.
Proof.
  rewrite logFreqs_last. unfold log10. intros Hl.
  apply ln_lt_inv; [apply exp_pos | lra |].
  unfold pow10, Rpower. rewrite ln_exp.
  pose proof ln10_pos as H10.
  apply (Rmult_lt_compat_r (ln 10)) in Hl; [|assumption].
  replace (ln 10000 / ln 10 * ln 10) with (ln 10000) in Hl by (field; lra).
  assumption.
Qed.

Lemma canvasXToHz_interior x w :
  0 < w -> 0 < x < w ->
  exists j r, (j < 14)%nat /\ 0 < r <= 1 /\
    x = edge j w + r * (edge (j + 1) w - edge j w) /\
    (r < 1 \/ (j + 1 < 14)%nat) /\
    canvasXToHz x w =
      pow10 (nth j logFreqs 0 + r * (nth (j + 1) logFreqs 0 - nth j logFreqs 0)).
Proof.
  intros Hw [Hx0 Hxw].
  unfold canvasXToHz. rewrite !Rleb_false by lra. rewrite segments.
  destruct (x_for_spec 14 0 x w Hw eq_refl) as (j & Hj & Hx & Heq);
    [rewrite edge_0; lra | lra |].
  pose proof (edge_S j w Hw) as Hd.
  set (d := edge (j + 1) w - edge j w) in *.
  set (r := (x - edge j w) / d) in *.
  assert (Hrd : r * d = x - edge j w) by (unfold r; field; unfold d; lra).
  assert (Hd0 : 0 < d) by (unfold d; lra).
  assert (Hxd : 0 < x - edge j w <= d) by (unfold d; lra).
  assert (Hr : 0 < r <= 1).
  { split.
    - unfold r. apply Rdiv_lt_0_compat; lra.
    - destruct (Rle_dec r 1) as [|Hn]; [assumption|]. exfalso.
      assert (Hr1 : 1 < r) by lra.
      apply Rmult_lt_compat_r with (r := d) in Hr1; lra. }
  pose proof (logFreqs_incr j ltac:(lia)) as Hinc.
  rewrite <- Nat.add_1_r in Hinc.
  pose proof (logFreqs_mono 0 j ltac:(lia) ltac:(lia)) as H0j.
  rewrite logFreqs_first in H0j.
  exists j, r.
  split; [lia|]. split; [exact Hr|]. split; [fold d; lra|]. split.
  - destruct (Nat.eq_dec j 13) as [->|Hne]; [left | right; lia].
    assert (He : edge (13 + 1) w = w) by (apply edge_14).
    unfold d in Hrd. nra.
  - rewrite Heq. cbv zeta. rewrite Reqb_false; [reflexivity | nra].
Qed.

End FrequencyMapFacts.

(** C5. Over the reals the two maps are exact inverses on the interior of
    the plot: for every width W > 0 and every x with 0 < x < W,
    hzToCanvasX (canvasXToHz x W) W = x (so they agree within any rounding
    tolerance); and out-of-range inputs clamp: a frequency at or below the
    first breakpoint (0 Hz) maps to 0, one at or above the last breakpoint
    (10000 Hz) maps to W. *)
Theorem frequency_map_roundtrip_and_clamp (w : R) :
  0 < w ->
  (forall x, 0 < x < w ->
     FrequencyMap.hzToCanvasX (FrequencyMap.canvasXToHz x w) w = x) /\
  (forall hz, hz <= 0 -> FrequencyMap.hzToCanvasX hz w = 0) /\
  (forall hz, 10000 <= hz -> FrequencyMap.hzToCanvasX hz w = w).
Proof.
  intros Hw. split; [|split].
  - intros x Hx.
    destruct (canvasXToHz_interior x w Hw Hx)
      as (j & r & Hj & Hr & Hxe & Hlast & ->).
    pose proof (logFreqs_incr j Hj) as Hinc. rewrite <- Nat.add_1_r in Hinc.
    pose proof (logFreqs_mono 0 j ltac:(lia) ltac:(lia)) as H0j.
    rewrite logFreqs_first in H0j.
    set (l := nth j FrequencyMap.logFreqs 0 +
              r * (nth (j + 1) FrequencyMap.logFreqs 0 - nth j FrequencyMap.logFreqs 0)).
    assert (Hl : nth j FrequencyMap.logFreqs 0 < l <= nth (j + 1) FrequencyMap.logFreqs 0)
      by (unfold l; split; nra).
    assert (Hl14 : l < nth 14 FrequencyMap.logFreqs 0).
    { destruct Hlast as [Hr1|Hj1].
      - pose proof (logFreqs_mono (j + 1) 14 ltac:(lia) ltac:(lia)). unfold l. nra.
      - pose proof (logFreqs_mono (j + 1) 13 ltac:(lia) ltac:(lia)).
        pose proof (logFreqs_incr 13 ltac:(lia)). lra. }
    pose proof (pow10_below_last l Hl14) as Hhi.
    assert (Hpos : 0 < FrequencyMap.pow10 l) by apply exp_pos.
    unfold FrequencyMap.hzToCanvasX.
    cbn [FrequencyMap.values nth length Nat.sub].
    rewrite !Rleb_false by lra. rewrite Reqb_false by lra.
    rewrite log10_pow10, segments.
    rewrite (hz_for_spec 14 0 j l w eq_refl ltac:(lia) Hl).
    rewrite Hxe. unfold l. field. lra.
  - intros hz Hhz. unfold FrequencyMap.hzToCanvasX.
    cbn [FrequencyMap.values nth]. now rewrite Rleb_true.
  - intros hz Hhz. unfold FrequencyMap.hzToCanvasX.
    cbn [FrequencyMap.values nth length Nat.sub].
    rewrite Rleb_false by lra. now rewrite Rleb_true.
Qed.

Lemma frequency_map_roundtrip_witness :
  0 < 14 /\ 0 < 1 < 14 /\
  FrequencyMap.hzToCanvasX (FrequencyMap.canvasXToHz 1 14) 14 = 1.
Proof.
  assert (H : 0 < 14) by lra.
  split; [exact H | split; [lra |]].
  apply (proj1 (frequency_map_roundtrip_and_clamp 14 H)). lra.
Defined.

Ltac explode s :=
  destruct s as [[? ? ? ? ?] [? ? ? ? ? ?] [? ? ? ? ? ? ? ? ?]
                 [? ? ? ? ? ? ? ? ? ?] [? ? ? ? ?] [? ? ?]].

Ltac unfold_ok :=
  unfold session_ok, wired_ok, nodes_ok, peaks_ok, gain_ok, quiet, gobs, gainFor in *.

Section Preservation.
Variable P : option (list R) -> Prop.

Lemma quiet_refl s : quiet s s.
Proof. split; auto. Qed.

Lemma quiet_trans s1 s2 s3 : quiet s1 s2 -> quiet s2 s3 -> quiet s1 s3.
Proof.
  intros [G1 C1] [G2 C2]. split; [congruence|].
  destruct C2 as [C2|C2]; [rewrite C2; exact C1 | right; exact C2].
Qed.

Lemma gobs_wired s s' : gobs s' = gobs s -> wired_ok P s -> wired_ok P s'.
Proof.
  unfold_ok. intros H [HN [HP HQ]]. injection H as H1 H2 H3 H4 H5.
  unfold peakBins in *. rewrite H1, H2, H3, H4, H5. auto.
Qed.

Lemma quiet_wired s s' : quiet s s' -> wired_ok P s -> wired_ok P s'.
Proof. intros [H _]. now apply gobs_wired. Qed.

Lemma quiet_ok s s' : quiet s s' -> session_ok P s -> session_ok P s'.
Proof.
  intros Hq [HW HG]. split; [now apply (quiet_wired s)|].
  destruct Hq as [H C]. unfold gain_ok, gainFor, gobs in *.
  injection H as H1 H2 H3 H4 H5.
  unfold outputEnabled, volumeLevel in *. rewrite H1, H5.
  intros g src Hg Hc. destruct C as [C|C]; [|congruence].
  rewrite C in Hc. eauto.
Qed.

(** *** Primitive steps are quiet *)

Lemma quiet_connect a b s : quiet s (connect a b s).
Proof. split; auto. Qed.

Lemma quiet_disconnect a s : quiet s (disconnect a s).
Proof. split; auto. Qed.

Lemma quiet_start id off s : quiet s (state_of (start id off s)).
Proof.
  unfold start. destruct (Rltb off 0); [apply quiet_refl|].
  destruct (was_started id s); [apply quiet_refl | split; auto].
Qed.

Lemma quiet_stop E id s : quiet s (state_of (stop E id s)).
Proof.
  unfold stop. destruct (negb (was_started id s) || stopThrows E id);
    [apply quiet_refl | split; auto].
Qed.

Lemma quiet_stopTimeUpdate s : quiet s (stopTimeUpdate s).
Proof.
  unfold stopTimeUpdate. destruct (timeUpdateInterval s);
    [split; auto | apply quiet_refl].
Qed.

Lemma quiet_startTimeUpdate E now s : quiet s (state_of (startTimeUpdate E now s)).
Proof.
  unfold startTimeUpdate. destruct (timelineSlider E); split; auto.
Qed.

Lemma quiet_stopCurrentInput E s : quiet s (state_of (stopCurrentInput E s)).
Proof.
  unfold stopCurrentInput.
  destruct (inputMode s); cbn [bind state_of]; try (split; auto; fail).
  - destruct (realtimeSourceNode s); cbn [bind state_of]; [|split; auto].
    destruct (mediaStream s); split; auto.
  - destruct (fileSourceNode s) as [n|]; cbn [bind state_of].
    + destruct (realtimeSourceNode s);
        (destruct (stop E n (disconnect (Src (BufferSource n)) s)) as [s1|s1] eqn:Hs;
         pose proof (quiet_stop E n (disconnect (Src (BufferSource n)) s)) as Hq;
         rewrite Hs in Hq; cbn [bind state_of] in *;
         [ apply (quiet_trans _ s1); [exact Hq | split; auto]
         | exact Hq ]).
    + destruct (realtimeSourceNode s); split; auto.
Qed.

(** *** Handlers that never touch the gain or the peaks *)

Lemma quiet_teardown E n s :
  quiet s (set_fileSourceNode None
             (state_of (stop E n (disconnect (Src (BufferSource n)) s)))).
Proof.
  apply (quiet_trans _ (state_of (stop E n (disconnect (Src (BufferSource n)) s)))).
  - apply (quiet_trans _ (disconnect (Src (BufferSource n)) s));
      [apply quiet_disconnect | apply quiet_stop].
  - split; auto.
Qed.

Lemma quiet_pauseFile E s : quiet s (pauseFile E s).
Proof.
  unfold pauseFile. destruct (fileSourceNode s) as [n|]; [|apply quiet_refl].
  destruct (isPlaying s); [|apply quiet_refl].
  eapply quiet_trans; [apply (quiet_teardown E n)|].
  eapply quiet_trans; [|apply quiet_stopTimeUpdate]. split; auto.
Qed.

Lemma quiet_stopFile E s : quiet s (stopFile E s).
Proof.
  unfold stopFile.
  eapply quiet_trans; [|apply quiet_stopTimeUpdate].
  destruct (fileSourceNode s) as [n|].
  - eapply quiet_trans; [apply (quiet_teardown E n)|]. split; auto.
  - split; auto.
Qed.

Lemma quiet_timeUpdateTick E now s : quiet s (timeUpdateTick E now s).
Proof.
  unfold timeUpdateTick. destruct (isPlaying s && audioCtx s); [|apply quiet_refl].
  match goal with |- context [if ?c then _ else _] => destruct c end.
  - eapply quiet_trans; [|apply quiet_stopFile]. split; auto.
  - split; auto.
Qed.

Lemma quiet_onendedHandler E s : quiet s (onendedHandler E s).
Proof.
  unfold onendedHandler. destruct (negb (isRepeating s));
    [apply quiet_pauseFile | apply quiet_refl].
Qed.

Lemma quiet_seekToPosition E p s : quiet s (seekToPosition E p s).
Proof.
  unfold seekToPosition.
  destruct (inputMode s); try apply quiet_refl.
  destruct (fileBuffer s); [|apply quiet_refl].
  destruct (isPlaying s).
  - eapply quiet_trans; [apply (quiet_pauseFile E)|]. split; auto.
  - split; auto.
Qed.

Lemma quiet_timelineClick E x w s : quiet s (timelineClick E x w s).
Proof.
  unfold timelineClick.
  match goal with |- context [if ?c then _ else _] => destruct c end;
    [|apply quiet_refl].
  eapply quiet_trans; [|apply quiet_seekToPosition]. split; auto.
Qed.

Lemma quiet_stopAudio E s : quiet s (state_of (stopAudio E s)).
Proof.
  unfold stopAudio.
  destruct (inputMode s); cbn [bind state_of]; try (split; auto; fail).
  destruct (stopCurrentInput E s) as [s1|s1] eqn:Hs;
    pose proof (quiet_stopCurrentInput E s) as Hq; rewrite Hs in Hq;
    cbn [bind state_of] in *; [|exact Hq].
  eapply quiet_trans; [exact Hq | split; auto].
Qed.

Lemma quiet_mousemove x w s : quiet s (mousemove x w s).
Proof. unfold mousemove. destruct (dragging s); split; auto. Qed.

(** *** Steps that write the gain *)

Ltac peaks_hyp :=
  match goal with
  | HP : (forall p, _ = Some p -> _), H : _ = Some _ |- _ =>
      destruct (HP _ H); first [congruence | tauto | assumption]
  end.

Ltac nodes_hyp :=
  match goal with
  | HN : _ \/ _ |- _ =>
      destruct HN as [(?&?&?&?)|(?&?&?&?)];
      first [congruence | right; repeat split; congruence]
  end.

Ltac ok_solve :=
  repeat split; intros; try congruence; auto;
  try (right; repeat split; congruence);
  try peaks_hyp; try nodes_hyp;
  try (match goal with HG : forall g src, _ -> _ -> _ |- _ => eapply HG; eassumption end).

Lemma initializeAudioNodes_ok s :
  session_ok P s -> session_ok P (initializeAudioNodes s).
Proof.
  explode s. unfold initializeAudioNodes. unfold_ok. cbn.
  intros [[HN [HP HQ]] HG].
  destruct g_gainOut0, g_highpass0, g_lowpass0, g_visualAnalyser0; cbn; ok_solve.
Qed.

Lemma initializeAudioNodes_wired s :
  wired_ok P s -> wired_ok P (initializeAudioNodes s) /\
                gainOut (initializeAudioNodes s) <> None /\
                currentSourceNode (initializeAudioNodes s) = currentSourceNode s.
Proof.
  explode s. unfold initializeAudioNodes. unfold_ok. cbn.
  intros [HN [HP HQ]].
  destruct g_gainOut0, g_highpass0, g_lowpass0, g_visualAnalyser0; cbn; ok_solve.
Qed.

Lemma connectAudioPipeline_ok s :
  wired_ok P s ->
  exists s', connectAudioPipeline s = Done s' /\ session_ok P s' /\
             currentSourceNode s' = currentSourceNode s /\
             output s' = output s.
Proof.
  explode s. unfold connectAudioPipeline, connectGraph. unfold_ok. cbn.
  intros [HN [HP HQ]].
  destruct HN as [(->&->&->&->)|(Hg&Hh&Hl&->)].
  - destruct s_currentSourceNode0; eexists; (split; [reflexivity|]); cbn; ok_solve.
  - destruct g_gainOut0 as [g|]; [|congruence].
    destruct g_highpass0 as [h|]; [|congruence].
    destruct g_lowpass0 as [l|]; [|congruence].
    destruct s_currentSourceNode0 as [src|];
      [|eexists; (split; [reflexivity|]); cbn; ok_solve].
    destruct b_selectedBandHz0 as [b|]; cbn;
      eexists; (split; [reflexivity|]); cbn; ok_solve.
Qed.

Lemma syncGain_ok s :
  wired_ok P s ->
  session_ok P (match gainOut s with
              | Some _ => set_gainOut (Some (gainFor s)) s
              | None => s
              end).
Proof.
  explode s. unfold_ok. cbn. intros [HN [HP HQ]].
  destruct g_gainOut0; cbn; ok_solve.
Qed.

Lemma updateCurrentVolume_ok s :
  wired_ok P s -> session_ok P (updateCurrentVolume s).
Proof.
  explode s. unfold updateCurrentVolume. unfold_ok. cbn. intros [HN [HP HQ]].
  destruct g_gainOut0, s_currentSourceNode0; cbn; ok_solve.
Qed.

Lemma syncGain_done_ok s :
  wired_ok P s ->
  session_ok P (state_of (match gainOut s with
                        | Some _ => Done (set_gainOut (Some (gainFor s)) s)
                        | None => Done s
                        end)).
Proof.
  intros Hw. pose proof (syncGain_ok s Hw) as H.
  destruct (gainOut s); exact H.
Qed.

(** *** Handlers that rewire or resynchronise *)

Ltac case_outcome m Hq :=
  let s1 := fresh "s1" in
  let Hs := fresh "Hs" in
  destruct m as [s1|s1] eqn:Hs; try rewrite Hs in Hq;
  cbn [bind state_of try_catch] in *.

Lemma switchToRealtimeMode_ok E s :
  session_ok P s -> session_ok P (state_of (switchToRealtimeMode E s)).
Proof.
  intros Hok. unfold switchToRealtimeMode.
  match goal with |- context [bind (if _ then _ else _)] => idtac end.
  set (s0 := if isPlaying s && Mode_eqb (inputMode s) ModeFile then _ else s).
  assert (Hq0 : quiet s s0).
  { subst s0. destruct (isPlaying s && Mode_eqb (inputMode s) ModeFile);
      [|apply quiet_refl].
    eapply quiet_trans; [|apply quiet_stopTimeUpdate].
    destruct (fileSourceNode s) as [n|].
    - eapply quiet_trans; [apply (quiet_teardown E n)|]. split; auto.
    - split; auto. }
  assert (Hok0 : session_ok P s0) by (apply (quiet_ok s); assumption).
  clearbody s0. clear Hq0 Hok s.
  destruct (negb (Mode_eqb (inputMode s0) ModeRealtime)); cbn [bind].
  - pose proof (quiet_stopCurrentInput E s0) as Hq.
    case_outcome (stopCurrentInput E s0) Hq.
    + apply syncGain_done_ok. apply (gobs_wired s1); [reflexivity|].
      apply (quiet_wired s0); [assumption | apply Hok0].
    + apply (quiet_ok s0); assumption.
  - apply syncGain_done_ok, Hok0.
Qed.

Lemma stopAudio_ok E s : session_ok P s -> session_ok P (state_of (stopAudio E s)).
Proof. apply quiet_ok, quiet_stopAudio. Qed.

Lemma stopCurrentInput_ok E s :
  session_ok P s -> session_ok P (state_of (stopCurrentInput E s)).
Proof. apply quiet_ok, quiet_stopCurrentInput. Qed.

Lemma buttons_ok a b c s :
  session_ok P s ->
  session_ok P (set_btnStop_disabled c (set_btnPause_disabled b (set_btnPlay_disabled a s))).
Proof. apply quiet_ok. split; auto. Qed.

Lemma switchToFileMode_ok E s :
  session_ok P s -> session_ok P (state_of (switchToFileMode E s)).
Proof.
  intros Hok. unfold switchToFileMode.
  set (m0 := if isRealtimeActive s && Mode_eqb (inputMode s) ModeRealtime
             then stopAudio E s else Done s).
  assert (Hok0 : session_ok P (state_of m0)).
  { subst m0. destruct (isRealtimeActive s && Mode_eqb (inputMode s) ModeRealtime);
      [now apply stopAudio_ok | assumption]. }
  clearbody m0. destruct m0 as [s0|s0]; cbn [bind state_of] in *; [|assumption].
  clear Hok s.
  destruct (fileBuffer s0).
  - destruct (negb (Mode_eqb (inputMode s0) ModeFile)); cbn [bind].
    + pose proof (quiet_stopCurrentInput E s0) as Hq.
      case_outcome (stopCurrentInput E s0) Hq.
      * apply syncGain_done_ok. apply (gobs_wired s1); [reflexivity|].
        apply (quiet_wired s0); [assumption | apply Hok0].
      * apply (quiet_ok s0); assumption.
    + apply syncGain_done_ok. apply (gobs_wired s0); [reflexivity | apply Hok0].
  - cbn [state_of]. now apply buttons_ok.
Qed.

Lemma startAudio_ok E granted s :
  session_ok P s -> session_ok P (state_of (startAudio E granted s)).
Proof.
  intros Hok. unfold startAudio.
  pose proof (quiet_stopCurrentInput E s) as Hq.
  case_outcome (stopCurrentInput E s) Hq.
  2:{ apply stopCurrentInput_ok. apply (quiet_ok s); assumption. }
  assert (Hok1 : session_ok P s1) by (apply (quiet_ok s); assumption).
  clear Hq Hs Hok s.
  destruct granted.
  2:{ cbn [try_catch]. now apply stopCurrentInput_ok. }
  cbn [fresh].
  match goal with
  | |- context [connectAudioPipeline ?x] => set (s2 := x)
  end.
  assert (Hw2 : wired_ok P s2).
  { subst s2.
    eapply gobs_wired; [reflexivity|].
    eapply gobs_wired; [reflexivity|].
    eapply gobs_wired; [reflexivity|].
    apply initializeAudioNodes_wired.
    eapply gobs_wired; [reflexivity|]. apply Hok1. }
  destruct (connectAudioPipeline_ok s2 Hw2) as (s3 & -> & Hok3 & _).
  cbn [bind]. unfold switchToRealtimeInput.
  pose proof (switchToRealtimeMode_ok E s3 Hok3) as Hok4.
  destruct (switchToRealtimeMode E s3) as [s4|s4]; cbn [bind try_catch state_of] in *.
  - apply (quiet_ok s4); [split; auto | assumption].
  - now apply stopCurrentInput_ok.
Qed.

Lemma loadFile_ok E decoded s : session_ok P s -> session_ok P (loadFile E decoded s).
Proof.
  intros Hok. unfold loadFile.
  pose proof (quiet_stopCurrentInput E s) as Hq.
  case_outcome (stopCurrentInput E s) Hq.
  2:{ apply (quiet_ok s); assumption. }
  assert (Hok1 : session_ok P s1) by (apply (quiet_ok s); assumption).
  clear Hq Hs Hok s.
  destruct decoded as [d|]; cbn [state_of].
  2:{ apply (quiet_ok s1); [split; auto | assumption]. }
  match goal with
  | |- context [switchToFileMode E ?x] => set (s2 := x)
  end.
  assert (Hok2 : session_ok P s2).
  { subst s2. apply initializeAudioNodes_ok.
    apply (quiet_ok s1); [split; auto | assumption]. }
  pose proof (switchToFileMode_ok E s2 Hok2) as Hok3.
  destruct (switchToFileMode E s2) as [s3|s3]; cbn [bind state_of] in *.
  - apply (quiet_ok s3); [split; auto | assumption].
  - assumption.
Qed.

Lemma playFile_ok E now s : session_ok P s -> session_ok P (playFile E now s).
Proof.
  intros Hok. unfold playFile.
  destruct (fileBuffer s); [|assumption].
  destruct (audioCtx s); [|assumption].
  cbn [fresh].
  match goal with
  | |- context [connectAudioPipeline ?x] => set (s2 := x)
  end.
  assert (Hw2 : wired_ok P s2).
  { subst s2.
    match goal with
    | |- context [set_nextId _ ?x] => set (s' := x)
    end.
    assert (Hw' : wired_ok P s').
    { subst s'. destruct (fileSourceNode s) as [n|]; [|apply Hok].
      apply (quiet_wired s); [apply (quiet_teardown E n) | apply Hok]. }
    apply (gobs_wired s'); [reflexivity | assumption]. }
  destruct (connectAudioPipeline_ok s2 Hw2) as (s3 & -> & Hok3 & _).
  cbn [bind].
  match goal with
  | |- context [start ?i ?o s3] =>
      pose proof (quiet_start i o s3) as Hq; case_outcome (start i o s3) Hq
  end.
  2:{ apply (quiet_ok s3); assumption. }
  match goal with
  | |- context [startTimeUpdate E now ?x] =>
      pose proof (quiet_startTimeUpdate E now x) as Hq2;
      assert (Hokx : session_ok P x)
        by (apply (quiet_ok s1); [split; auto | apply (quiet_ok s3); assumption]);
      case_outcome (startTimeUpdate E now x) Hq2
  end.
  - apply (quiet_ok s0); [split; auto|]. eapply quiet_ok; eassumption.
  - eapply quiet_ok; eassumption.
Qed.

Lemma outputClick_ok s : session_ok P s -> session_ok P (outputClick s).
Proof.
  intros [[HN [HP HQ]] _]. unfold outputClick. apply updateCurrentVolume_ok.
  split; [exact HN | split; [exact HP | exact HQ]].
Qed.

Lemma updateVolume_ok v s : session_ok P s -> session_ok P (updateVolume v s).
Proof.
  intros [[HN [HP HQ]] _]. unfold updateVolume. apply updateCurrentVolume_ok.
  split; [exact HN | split; [exact HP | exact HQ]].
Qed.

Lemma clearBand_ok s : session_ok P s -> session_ok P (state_of (clearBand s)).
Proof.
  intros Hok. unfold clearBand, connectGraph.
  match goal with
  | |- context [connectAudioPipeline ?x] =>
      destruct (connectAudioPipeline_ok x) as (s3 & -> & Hok3 & _)
  end; [|assumption].
  eapply gobs_wired; [reflexivity | apply Hok].
Qed.

Lemma mouseup_ok w s : session_ok P s -> session_ok P (state_of (mouseup w s)).
Proof.
  intros Hok. unfold mouseup.
  destruct (dragging s); [|assumption].
  assert (Hok1 : session_ok P (set_dragging false s))
    by (apply (quiet_ok s); [split; auto | assumption]).
  destruct (dragStartX (set_dragging false s)) as [a|];
    [destruct (dragEndX (set_dragging false s)) as [b|]|]; cbn [bind state_of];
    try (solve [apply (quiet_ok (set_dragging false s)); [split; auto | assumption]]).
  match goal with |- context [if ?c then _ else _] => destruct c end.
  - unfold connectGraph.
    match goal with
    | |- context [connectAudioPipeline ?x] =>
        destruct (connectAudioPipeline_ok x) as (s3 & -> & Hok3 & _)
    end.
    + eapply gobs_wired; [reflexivity | apply Hok1].
    + cbn [bind state_of]. apply (quiet_ok s3); [split; auto | assumption].
  - pose proof (clearBand_ok _ Hok1) as Hc.
    destruct (clearBand (set_dragging false s)) as [s3|s3]; cbn [bind state_of] in *.
    + apply (quiet_ok s3); [split; auto | assumption].
    + assumption.
Qed.

Lemma mousedown_left_ok x w b s :
  b <> RightButton -> session_ok P s -> session_ok P (mousedown x w b s).
Proof.
  intros Hb Hok. unfold mousedown.
  match goal with |- context [if ?c then _ else _] => destruct c end;
    [|assumption].
  destruct b; [|assumption|congruence].
  apply (quiet_ok s); [split; auto | assumption].
Qed.

(** Every event other than an animation frame and the reset gesture keeps
    the invariant, whatever [P] says about the peak array. *)
Lemma step_keeps E s e :
  is_reset e = false -> (forall f, e <> AnimationFrame f) ->
  session_ok P s -> session_ok P (step E s e).
Proof.
  intros Hr Hf Hok. destruct e; cbn [step].
  - now apply startAudio_ok.
  - now apply stopAudio_ok.
  - now apply switchToRealtimeMode_ok.
  - now apply switchToFileMode_ok.
  - now apply loadFile_ok.
  - now apply playFile_ok.
  - apply (quiet_ok s); [apply quiet_pauseFile | assumption].
  - apply (quiet_ok s); [apply quiet_stopFile | assumption].
  - apply (quiet_ok s); [split; auto | assumption].
  - apply (quiet_ok s); [apply quiet_timelineClick | assumption].
  - destruct (existsb (Nat.eqb id) (intervals s)); [|assumption].
    apply (quiet_ok s); [apply quiet_timeUpdateTick | assumption].
  - destruct (existsb (Nat.eqb id) (onended s)); [|assumption].
    apply (quiet_ok s); [apply quiet_onendedHandler | assumption].
  - now apply outputClick_ok.
  - now apply updateVolume_ok.
  - now apply clearBand_ok.
  - apply mousedown_left_ok; [|assumption].
    intros ->. discriminate.
  - apply (quiet_ok s); [apply quiet_mousemove | assumption].
  - now apply mouseup_ok.
  - exfalso. now apply (Hf snapshot).
Qed.

End Preservation.

(** ** PeakTracker *)

Lemma store_length i v a : length (store i v a) = length a.
Proof.
  revert i; induction a as [|h t IH]; intros [|i]; cbn; auto.
Qed.

Lemma nth_error_store_eq i v a :
  (i < length a)%nat -> nth_error (store i v a) i = Some v.
Proof.
  revert i; induction a as [|h t IH]; intros [|i] Hi; cbn in *; try lia; auto.
  apply IH. lia.
Qed.

Lemma nth_error_store_neq i j v a :
  j <> i -> nth_error (store i v a) j = nth_error a j.
Proof.
  revert i j; induction a as [|h t IH]; intros [|i] [|j] Hij; cbn; auto;
    try congruence.
Qed.

Lemma nth_error_nth_R (a : list R) i v : nth_error a i = Some v -> nth i a 0 = v.
Proof. intros H. now apply nth_error_nth. Qed.

Lemma peak_for_length k : forall i n fd p,
  length p = n -> length (peak_for k i n fd p) = n.
Proof.
  induction k as [|k IH]; intros i n fd p Hp; cbn [peak_for]; [assumption|].
  apply IH. rewrite store_length.
  destruct (nth_error p i); [assumption | apply repeat_length].
Qed.

Lemma peak_for_ge k : forall i n fd p,
  length p = n -> (i + k <= n)%nat ->
  forall j v, nth_error p j = Some v ->
    exists v', nth_error (peak_for k i n fd p) j = Some v' /\ v <= v'.
Proof.
  induction k as [|k IH]; intros i n fd p Hp Hik j v Hj; cbn [peak_for].
  - exists v. split; [assumption | lra].
  - destruct (nth_error p i) as [vi|] eqn:Hi.
    2:{ apply nth_error_None in Hi. lia. }
    set (p2 := store i (Rmax (nth i fd 0) (nth i p 0)) p).
    assert (Hp2 : length p2 = n) by (subst p2; now rewrite store_length).
    assert (Hj2 : exists v2, nth_error p2 j = Some v2 /\ v <= v2).
    { subst p2. destruct (Nat.eq_dec j i) as [->|Hne].
      - rewrite nth_error_store_eq by lia.
        eexists; split; [reflexivity|].
        rewrite (nth_error_nth_R p i v Hj). apply Rmax_r.
      - rewrite nth_error_store_neq by assumption.
        exists v. split; [assumption | lra]. }
    destruct Hj2 as (v2 & Hv2 & Hle).
    destruct (IH (S i) n fd p2 Hp2 ltac:(lia) j v2 Hv2) as (v' & Hv' & Hle').
    exists v'. split; [assumption | lra].
Qed.

(** The value the loop leaves in a bin it visits is the larger of the
    sample and the old peak. *)
Lemma peak_for_max k : forall i n fd p,
  length p = n -> (i + k <= n)%nat ->
  forall j v, (i <= j < i + k)%nat -> nth_error p j = Some v ->
    nth_error (peak_for k i n fd p) j = Some (Rmax (nth j fd 0) v).
Proof.
  induction k as [|k IH]; intros i n fd p Hp Hik j v Hij Hj; cbn [peak_for].
  - lia.
  - destruct (nth_error p i) as [vi|] eqn:Hi.
    2:{ apply nth_error_None in Hi. lia. }
    set (p2 := store i (Rmax (nth i fd 0) (nth i p 0)) p).
    assert (Hp2 : length p2 = n) by (subst p2; now rewrite store_length).
    destruct (Nat.eq_dec j i) as [->|Hne].
    + assert (H2 : nth_error p2 i = Some (Rmax (nth i fd 0) v)).
      { subst p2. rewrite nth_error_store_eq by lia.
        now rewrite (nth_error_nth_R p i v Hj). }
      clear IH. revert H2. generalize (Rmax (nth i fd 0) v) as m.
      assert (Hgen : forall k' i' q m, (i < i')%nat ->
                length q = n -> (i' + k' <= n)%nat ->
                nth_error q i = Some m ->
                nth_error (peak_for k' i' n fd q) i = Some m).
      { induction k' as [|k' IHk]; intros i' q m Hlt Hlen Hb Hq; cbn [peak_for]; auto.
        destruct (nth_error q i') eqn:Hqi.
        2:{ apply nth_error_None in Hqi. lia. }
        apply IHk; [lia | now rewrite store_length | lia |].
        now rewrite nth_error_store_neq by lia. }
      intros m Hm. apply Hgen; [lia | assumption | lia | assumption].
    + apply IH; [assumption | lia | lia |].
      subst p2. now rewrite nth_error_store_neq.
Qed.

Lemma drawSpectrum_peaks snapshot s :
  session_ok any_peaks s ->
  session_ok any_peaks (drawSpectrum snapshot s) /\
  peaks_le (peakBins s) (peakBins (drawSpectrum snapshot s)).
Proof.
  intros [[HN [HP HQ]] HG]. unfold drawSpectrum.
  destruct (visualAnalyser s) as [fft|] eqn:Hva.
  2:{ split; [exact (conj (conj HN (conj HP HQ)) HG)|].
      intros l i v Hl Hi. exists l, v. repeat split; auto; lra. }
  assert (Hfft : fft = FFT_SIZE).
  { destruct HN as [(_&_&_&H)|(_&_&_&H)]; congruence. }
  subst fft.
  remember (frequencyBinCount FFT_SIZE) as n eqn:Hn.
  split.
  - split; [split; [|split; [|exact I]]|].
    + exact HN.
    + intros p Hp. cbn in Hp. injection Hp as <-. split; [exact Hva|].
      rewrite <- Hn. apply peak_for_length.
      destruct (peakBins s) as [p0|]; [|apply repeat_length].
      destruct (Nat.eqb_spec (length p0) n); [assumption | apply repeat_length].
    + intros g src Hg Hc. exact (HG g src Hg Hc).
  - intros l i v Hl Hi. rewrite Hl.
    destruct (HP l Hl) as [_ Hlen]. rewrite <- Hn in Hlen.
    rewrite Hlen, Nat.eqb_refl.
    destruct (peak_for_ge n 0 n (map snapshot (seq 0 n)) l Hlen ltac:(lia) i v Hi)
      as (v' & Hv' & Hle).
    eexists _, v'. cbn. repeat split; eauto.
Qed.

Lemma drawLoop_peaks snapshot s :
  session_ok any_peaks s ->
  session_ok any_peaks (drawLoop snapshot s) /\
  peaks_le (peakBins s) (peakBins (drawLoop snapshot s)).
Proof.
  intros Hok. unfold drawLoop.
  assert (Hid : peaks_le (peakBins s) (peakBins s)).
  { intros l i v Hl Hi. exists l, v. repeat split; auto; lra. }
  destruct (audioCtx s); [|split; assumption].
  destruct (visualAnalyser s); [|split; assumption].
  now apply drawSpectrum_peaks.
Qed.

Lemma resetMaxPeaks_ok s : session_ok any_peaks s -> session_ok any_peaks (resetMaxPeaks s).
Proof.
  intros [[HN [HP HQ]] HG]. unfold resetMaxPeaks.
  destruct (peakBins s) as [p|] eqn:Hp; [|exact (conj (conj HN (conj HP HQ)) HG)].
  split; [split; [|split; [|exact I]]|].
  - exact HN.
  - intros q Hq. cbn in Hq. injection Hq as <-.
    destruct (HP p Hp) as [Hva Hlen]. split; [exact Hva|].
    now rewrite length_map.
  - intros g src Hg Hc. exact (HG g src Hg Hc).
Qed.

Lemma resetMaxPeaks_floor s p i v :
  peakBins (resetMaxPeaks s) = Some p -> nth_error p i = Some v -> v = floorDb.
Proof.
  unfold resetMaxPeaks. destruct (peakBins s) as [q|] eqn:Hq.
  - cbn. intros H; injection H as <-. intros Hi.
    apply nth_error_In, in_map_iff in Hi. destruct Hi as (_ & <- & _). reflexivity.
  - rewrite Hq. discriminate.
Qed.


(** ** Every event keeps the session well formed *)

Lemma initial_ok : session_ok any_peaks initial.
Proof.
  unfold_ok. unfold any_peaks. cbn.
  repeat split; intros; try discriminate. left. auto.
Qed.

Lemma step_ok E s e : session_ok any_peaks s -> session_ok any_peaks (step E s e).
Proof.
  intros Hok.
  destruct e;
    try (apply step_keeps; [reflexivity | discriminate | assumption]).
  - cbn [step]. unfold mousedown.
    match goal with |- context [if ?c then _ else _] => destruct c end;
      [|assumption].
    destruct button; [|assumption|now apply resetMaxPeaks_ok].
    apply (quiet_ok any_peaks s); [split; auto | assumption].
  - cbn [step]. now apply drawLoop_peaks.
Qed.

Lemma run_ok E es : forall s,
  session_ok any_peaks s -> session_ok any_peaks (run E s es).
Proof.
  induction es as [|e es IH]; intros s Hok; cbn; [assumption|].
  apply IH. now apply step_ok.
Qed.

Lemma reachable_ok E es : session_ok any_peaks (run E initial es).
Proof. apply run_ok, initial_ok. Qed.

Lemma session_ok_refine (s : Session) :
  session_ok any_peaks s -> session_ok (eq (peakBins s)) s.
Proof. intros [[HN [HP _]] HG]. exact (conj (conj HN (conj HP eq_refl)) HG). Qed.

(** Only animation frames and the reset gesture write the peak array. *)
Lemma step_peaks_kept E s e :
  session_ok any_peaks s ->
  is_reset e = false -> (forall f, e <> AnimationFrame f) ->
  peakBins (step E s e) = peakBins s.
Proof.
  intros Hok Hr Hf.
  pose proof (step_keeps (eq (peakBins s)) E s e Hr Hf (session_ok_refine s Hok))
    as [[_ [_ H]] _].
  symmetry. exact H.
Qed.

(** In a reachable state the gain node never exists without the filters
    and the analyser: what the rewiring theorems below assume of a state
    holds whenever the script got there by itself. *)
Lemma reachable_nodes E es :
  let s := run E initial es in
  gainOut s <> None ->
  highpass s <> None /\ lowpass s <> None /\ visualAnalyser s <> None.
Proof.
  intros s Hg. destruct (reachable_ok E es) as [[HN _] _]. fold s in HN.
  destruct HN as [(H & _)|(_ & Hh & Hl & Hv)]; [contradiction|].
  repeat split; try assumption. rewrite Hv. discriminate.
Qed.

(** ** The audio graph *)

Lemma SrcNode_eqb_refl n : SrcNode_eqb n n = true.
Proof. destruct n; cbn; apply Nat.eqb_refl. Qed.

Lemma Node_eqb_refl a : Node_eqb a a = true.
Proof. destruct a; cbn; auto using SrcNode_eqb_refl. Qed.

Lemma Node_eqb_eq a b : Node_eqb a b = true -> a = b.
Proof.
  destruct a as [[i|i]| | | | |], b as [[j|j]| | | | |]; cbn;
    try discriminate; try reflexivity;
    intros H; apply Nat.eqb_eq in H; congruence.
Qed.

Lemma Edge_eqb_eq e f : Edge_eqb e f = true -> e = f.
Proof.
  destruct e as [a b], f as [c d]. unfold Edge_eqb. cbn [fst snd].
  intros H. apply andb_true_iff in H. destruct H as [H1 H2].
  apply Node_eqb_eq in H1, H2. congruence.
Qed.

Lemma has_edge_add a b c d es :
  has_edge a b (add_edge c d es) = Edge_eqb (a, b) (c, d) || has_edge a b es.
Proof.
  unfold has_edge, add_edge.
  destruct (existsb (Edge_eqb (c, d)) es) eqn:Hcd.
  - destruct (Edge_eqb (a, b) (c, d)) eqn:Hab; cbn [orb]; [|reflexivity].
    apply Edge_eqb_eq in Hab. injection Hab as -> ->. exact Hcd.
  - rewrite existsb_app. cbn [existsb]. rewrite orb_false_r. apply orb_comm.
Qed.

Lemma has_edge_drop a b c es :
  has_edge a b (drop_edges c es) = negb (Node_eqb a c) && has_edge a b es.
Proof.
  unfold has_edge, drop_edges.
  induction es as [|[x y] t IH]; cbn [filter existsb fst].
  - now rewrite andb_false_r.
  - destruct (Node_eqb x c) eqn:Hxc; cbn [negb existsb]; rewrite IH;
      destruct (Node_eqb a c) eqn:Hac; cbn [negb andb]; try reflexivity.
    + unfold Edge_eqb. cbn [fst snd].
      destruct (Node_eqb a x) eqn:Hax; cbn [andb orb]; [|reflexivity].
      apply Node_eqb_eq in Hax, Hxc. subst.
      now rewrite Node_eqb_refl in Hac.
    + unfold Edge_eqb. cbn [fst snd].
      destruct (Node_eqb a x) eqn:Hax; cbn [andb orb]; [|reflexivity].
      apply Node_eqb_eq in Hax, Hac. subst.
      now rewrite Node_eqb_refl in Hxc.
Qed.

(** Past its guard, with the filters in place, connectAudioPipeline is
    [rewired]. *)
Lemma connectAudioPipeline_rewired s src :
  currentSourceNode s = Some src ->
  gainOut s <> None -> highpass s <> None -> lowpass s <> None ->
  visualAnalyser s <> None ->
  connectAudioPipeline s = Done (rewired src s).
Proof.
  explode s. unfold connectAudioPipeline, rewired, cleared. cbn.
  intros -> Hg Hh Hl Ha.
  destruct g_gainOut0; [|congruence].
  destruct g_highpass0; [|congruence].
  destruct g_lowpass0; [|congruence].
  destruct g_visualAnalyser0; [|congruence].
  destruct b_selectedBandHz0; reflexivity.
Qed.

(** Short of its guard it does nothing. *)
Lemma connectAudioPipeline_idle s :
  currentSourceNode s = None \/ gainOut s = None \/ visualAnalyser s = None ->
  connectAudioPipeline s = Done s.
Proof.
  unfold connectAudioPipeline. intros [H|[H|H]]; rewrite H;
    repeat match goal with
           | |- context [match ?x with _ => _ end] => destruct x
           end; reflexivity.
Qed.

(** It writes the graph and nothing else. *)
Lemma connectAudioPipeline_frame s :
  let s' := state_of (connectAudioPipeline s) in
  platform s' = platform s /\ sources s' = sources s /\
  transport s' = transport s /\ band s' = band s /\ output s' = output s.
Proof.
  explode s. unfold connectAudioPipeline. cbn.
  destruct s_currentSourceNode0, g_gainOut0, g_visualAnalyser0; cbn; auto.
  destruct b_selectedBandHz0, g_highpass0, g_lowpass0; cbn; auto.
Qed.

(** ** Sources are started before they are recorded as playing

    Every handler but playFile is [steady]; playFile records a source and
    starts it in the same breath. *)

Ltac steady_step :=
  unfold steady; repeat split;
  first [ reflexivity | apply le_n | left; reflexivity | right; reflexivity
        | right;
          cbn [currentTimelineProgress set_currentTimelineProgress
               upd_transport transport t_currentTimelineProgress
               fileDuration set_fileDuration upd_sources sources s_fileDuration];
          lra
        | idtac ].

Lemma steady_refl s : steady s s.
Proof. steady_step. Qed.

Lemma steady_trans s1 s2 s3 : steady s1 s2 -> steady s2 s3 -> steady s1 s3.
Proof.
  intros (A1 & A2 & A3 & A4 & A5 & A6 & A7) (B1 & B2 & B3 & B4 & B5 & B6 & B7).
  unfold steady. repeat split; try congruence.
  - lia.
  - destruct B3 as [B3|B3]; [rewrite B3; exact A3 | right; exact B3].
  - destruct B4 as [B4|B4]; [rewrite B4; exact A4 | right; exact B4].
  - destruct B5 as [B5|B5]; [rewrite B5; exact A5 | right; exact B5].
Qed.

Lemma still_steady s s' :
  platform s' = platform s -> sources s' = sources s ->
  transport s' = transport s -> steady s s'.
Proof.
  intros Hp Hs Ht.
  unfold steady, started, nextId, fileSourceNode, currentTimelineProgress,
    fileDuration, playStartTime, pausedTime.
  rewrite Hp, Hs, Ht. repeat split; auto.
Qed.

Lemma steady_well_timed t s s' : steady s s' -> well_timed t s -> well_timed t s'.
Proof.
  intros (A1 & A2 & A3 & A4 & A5 & A6 & A7) (J1 & J2 & J3 & J4 & J5 & J6).
  unfold well_timed, was_started in *. rewrite A1, A6, A7.
  repeat split; try assumption.
  - intros n Hn. destruct A3 as [A3|A3]; [|congruence].
    apply J1. congruence.
  - intros p Hp. specialize (J2 p Hp). lia.
  - destruct A4 as [A4|A4]; [rewrite A4|]; assumption.
  - destruct A5 as [A5|A5]; [rewrite A5|]; assumption.
Qed.

Ltac either m H :=
  let s1 := fresh "s1" in
  let Hs := fresh "Hs" in
  destruct m as [s1|s1] eqn:Hs; try rewrite Hs in H;
  cbn [bind state_of try_catch] in *.

(** *** The steady handlers *)

Lemma steady_stop E id s : steady s (state_of (stop E id s)).
Proof.
  unfold stop. destruct (negb (was_started id s) || stopThrows E id);
    [apply steady_refl | steady_step].
Qed.

Lemma steady_stopTimeUpdate s : steady s (stopTimeUpdate s).
Proof.
  unfold stopTimeUpdate. destruct (timeUpdateInterval s);
    [steady_step | apply steady_refl].
Qed.

Lemma steady_teardown E n s :
  steady s (set_fileSourceNode None
              (state_of (stop E n (disconnect (Src (BufferSource n)) s)))).
Proof.
  apply (steady_trans _ (state_of (stop E n (disconnect (Src (BufferSource n)) s)))).
  - apply (steady_trans _ (disconnect (Src (BufferSource n)) s));
      [steady_step | apply steady_stop].
  - steady_step.
Qed.

Lemma steady_stopCurrentInput E s : steady s (state_of (stopCurrentInput E s)).
Proof.
  unfold stopCurrentInput.
  destruct (inputMode s); cbn [bind state_of]; try (steady_step; fail).
  - destruct (realtimeSourceNode s); cbn [bind state_of]; [|steady_step].
    destruct (mediaStream s); steady_step.
  - destruct (fileSourceNode s) as [n|] eqn:Hn; cbn [bind state_of].
    + destruct (realtimeSourceNode s);
        (pose proof (steady_stop E n (disconnect (Src (BufferSource n)) s)) as Hq;
         either (stop E n (disconnect (Src (BufferSource n)) s)) Hq;
         [ apply (steady_trans _ s1);
           [ apply (steady_trans _ (disconnect (Src (BufferSource n)) s));
             [steady_step | exact Hq]
           | steady_step ]
         | apply (steady_trans _ (disconnect (Src (BufferSource n)) s));
           [steady_step | exact Hq] ]).
    + destruct (realtimeSourceNode s); steady_step.
Qed.

Lemma steady_pauseFile E s : steady s (pauseFile E s).
Proof.
  unfold pauseFile. destruct (fileSourceNode s) as [n|]; [|apply steady_refl].
  destruct (isPlaying s); [|apply steady_refl].
  eapply steady_trans; [apply (steady_teardown E n)|].
  eapply steady_trans; [|apply steady_stopTimeUpdate]. steady_step.
Qed.

Lemma steady_stopFile E s : steady s (stopFile E s).
Proof.
  unfold stopFile.
  eapply steady_trans; [|apply steady_stopTimeUpdate].
  destruct (fileSourceNode s) as [n|].
  - eapply steady_trans; [apply (steady_teardown E n)|].
    unfold drawTimelineGauge. steady_step.
  - unfold drawTimelineGauge. steady_step.
Qed.

Lemma steady_onendedHandler E s : steady s (onendedHandler E s).
Proof.
  unfold onendedHandler. destruct (negb (isRepeating s));
    [apply steady_pauseFile | apply steady_refl].
Qed.

Lemma steady_seekToPosition E p s : 0 <= p -> steady s (seekToPosition E p s).
Proof.
  intros Hp. unfold seekToPosition, drawTimelineGauge.
  destruct (inputMode s); try apply steady_refl.
  destruct (fileBuffer s); [|apply steady_refl].
  destruct (isPlaying s).
  - eapply steady_trans; [apply (steady_pauseFile E)|]. steady_step.
  - steady_step.
Qed.

Lemma steady_timelineClick E x w s : steady s (timelineClick E x w s).
Proof.
  unfold timelineClick.
  match goal with |- context [if ?c then _ else _] => destruct c end;
    [|apply steady_refl].
  pose proof (Rmax_l 0 (Rmin 100 (x / w * 100))) as Hp.
  eapply steady_trans; [|apply steady_seekToPosition; exact Hp].
  unfold drawTimelineGauge. steady_step.
Qed.

Lemma steady_stopAudio E s : steady s (state_of (stopAudio E s)).
Proof.
  unfold stopAudio.
  destruct (inputMode s); cbn [bind state_of]; try (steady_step; fail).
  pose proof (steady_stopCurrentInput E s) as Hq.
  either (stopCurrentInput E s) Hq; [|exact Hq].
  eapply steady_trans; [exact Hq | steady_step].
Qed.

Lemma steady_syncGain s :
  steady s (state_of (match gainOut s with
                      | Some _ => Done (set_gainOut (Some (gainFor s)) s)
                      | None => Done s
                      end)).
Proof. destruct (gainOut s); steady_step. Qed.

Lemma steady_switchToRealtimeMode E s :
  steady s (state_of (switchToRealtimeMode E s)).
Proof.
  unfold switchToRealtimeMode.
  set (s0 := if isPlaying s && Mode_eqb (inputMode s) ModeFile then _ else s).
  assert (H0 : steady s s0).
  { subst s0. destruct (isPlaying s && Mode_eqb (inputMode s) ModeFile);
      [|apply steady_refl].
    eapply steady_trans; [|apply steady_stopTimeUpdate].
    destruct (fileSourceNode s) as [n|].
    - eapply steady_trans; [apply (steady_teardown E n)|]. steady_step.
    - steady_step. }
  clearbody s0.
  destruct (negb (Mode_eqb (inputMode s0) ModeRealtime)); cbn [bind].
  - pose proof (steady_stopCurrentInput E s0) as Hq.
    either (stopCurrentInput E s0) Hq.
    + eapply steady_trans; [exact H0|].
      eapply steady_trans; [exact Hq|].
      eapply steady_trans; [|apply steady_syncGain]. steady_step.
    + eapply steady_trans; eassumption.
  - eapply steady_trans; [exact H0 | apply steady_syncGain].
Qed.

Lemma steady_switchToFileMode E s :
  steady s (state_of (switchToFileMode E s)).
Proof.
  unfold switchToFileMode.
  set (m0 := if isRealtimeActive s && Mode_eqb (inputMode s) ModeRealtime
             then stopAudio E s else Done s).
  assert (H0 : steady s (state_of m0)).
  { subst m0. destruct (isRealtimeActive s && Mode_eqb (inputMode s) ModeRealtime);
      [apply steady_stopAudio | apply steady_refl]. }
  clearbody m0. destruct m0 as [s0|s0]; cbn [bind state_of] in *; [|assumption].
  apply (steady_trans _ s0); [assumption|]. clear H0 s.
  destruct (fileBuffer s0).
  - destruct (negb (Mode_eqb (inputMode s0) ModeFile)); cbn [bind].
    + pose proof (steady_stopCurrentInput E s0) as Hq.
      either (stopCurrentInput E s0) Hq; [|exact Hq].
      eapply steady_trans; [exact Hq|].
      eapply steady_trans; [|apply steady_syncGain]. steady_step.
    + eapply steady_trans; [|apply steady_syncGain]. steady_step.
  - cbn [state_of]. steady_step.
Qed.

Lemma still_initializeAudioNodes s :
  platform (initializeAudioNodes s) = platform s /\
  sources (initializeAudioNodes s) = sources s /\
  transport (initializeAudioNodes s) = transport s.
Proof.
  explode s. unfold initializeAudioNodes. cbn.
  destruct g_gainOut0, g_highpass0, g_lowpass0, g_visualAnalyser0; cbn; auto.
Qed.

Lemma steady_initializeAudioNodes s : steady s (initializeAudioNodes s).
Proof.
  destruct (still_initializeAudioNodes s) as (H1 & H2 & H3).
  now apply still_steady.
Qed.

Lemma steady_connectAudioPipeline s : steady s (state_of (connectAudioPipeline s)).
Proof.
  destruct (connectAudioPipeline_frame s) as (H1 & H2 & H3 & _).
  now apply still_steady.
Qed.

Lemma steady_startAudio E granted s : steady s (state_of (startAudio E granted s)).
Proof.
  unfold startAudio.
  pose proof (steady_stopCurrentInput E s) as Hq.
  either (stopCurrentInput E s) Hq.
  2:{ eapply steady_trans; [exact Hq | apply steady_stopCurrentInput]. }
  apply (steady_trans _ s1); [exact Hq|]. clear Hq Hs s.
  destruct granted.
  2:{ cbn [try_catch]. apply steady_stopCurrentInput. }
  cbn [fresh].
  match goal with
  | |- context [connectAudioPipeline ?x] => set (s2 := x)
  end.
  assert (H2 : steady s1 s2).
  { subst s2.
    match goal with
    | |- context [initializeAudioNodes ?x] =>
        apply (steady_trans _ x);
        [|apply (steady_trans _ (initializeAudioNodes x));
          [apply steady_initializeAudioNodes|]]
    end.
    - unfold steady. repeat split; auto. cbn. lia.
    - steady_step. }
  pose proof (steady_connectAudioPipeline s2) as H3.
  either (connectAudioPipeline s2) H3.
  2:{ eapply steady_trans; [exact H2|].
      eapply steady_trans; [exact H3 | apply steady_stopCurrentInput]. }
  unfold switchToRealtimeInput.
  pose proof (steady_switchToRealtimeMode E s0) as H4.
  either (switchToRealtimeMode E s0) H4.
  - eapply steady_trans; [exact H2|].
    eapply steady_trans; [exact H3|].
    eapply steady_trans; [exact H4 | steady_step].
  - eapply steady_trans; [exact H2|].
    eapply steady_trans; [exact H3|].
    eapply steady_trans; [exact H4 | apply steady_stopCurrentInput].
Qed.

Lemma steady_loadFile E decoded s :
  (forall d, decoded = Some d -> 0 < d) -> steady s (loadFile E decoded s).
Proof.
  intros Hd. unfold loadFile.
  pose proof (steady_stopCurrentInput E s) as Hq.
  either (stopCurrentInput E s) Hq; [|exact Hq].
  apply (steady_trans _ s1); [exact Hq|]. clear Hq Hs s.
  destruct decoded as [d|]; cbn [state_of]; [|steady_step].
  specialize (Hd d eq_refl).
  match goal with
  | |- context [switchToFileMode E ?x] => set (s2 := x)
  end.
  assert (H2 : steady s1 s2).
  { subst s2.
    match goal with
    | |- context [initializeAudioNodes ?x] =>
        apply (steady_trans _ x); [|apply steady_initializeAudioNodes]
    end.
    unfold steady. repeat split; auto. right. cbn. lra. }
  pose proof (steady_switchToFileMode E s2) as H3.
  either (switchToFileMode E s2) H3.
  - eapply steady_trans; [exact H2|].
    eapply steady_trans; [exact H3|].
    unfold drawTimelineGauge. steady_step.
  - eapply steady_trans; eassumption.
Qed.

Lemma steady_updateCurrentVolume s : steady s (updateCurrentVolume s).
Proof.
  unfold updateCurrentVolume.
  destruct (gainOut s), (currentSourceNode s); steady_step.
Qed.

Lemma steady_clearBand s : steady s (state_of (clearBand s)).
Proof.
  unfold clearBand, connectGraph.
  eapply steady_trans; [|apply steady_connectAudioPipeline]. steady_step.
Qed.

Lemma steady_mouseup w s : steady s (state_of (mouseup w s)).
Proof.
  unfold mouseup. destruct (dragging s); [|apply steady_refl].
  apply (steady_trans _ (set_dragging false s)); [steady_step|].
  generalize (set_dragging false s). clear s. intros s.
  destruct (dragStartX s) as [a|]; [destruct (dragEndX s) as [b|]|];
    cbn [bind state_of]; try (steady_step; fail).
  match goal with |- context [if ?c then _ else _] => destruct c end.
  - unfold connectGraph.
    match goal with
    | |- context [connectAudioPipeline ?x] =>
        pose proof (steady_connectAudioPipeline x) as H3;
        apply (steady_trans _ x); [steady_step|];
        either (connectAudioPipeline x) H3; [|exact H3]
    end.
    eapply steady_trans; [exact H3 | steady_step].
  - pose proof (steady_clearBand s) as H3.
    either (clearBand s) H3; [|exact H3].
    eapply steady_trans; [exact H3 | steady_step].
Qed.

Lemma steady_mousedown x w b s : steady s (mousedown x w b s).
Proof.
  unfold mousedown, resetMaxPeaks.
  match goal with |- context [if ?c then _ else _] => destruct c end;
    [|apply steady_refl].
  destruct b; [steady_step | apply steady_refl |].
  destruct (peakBins s); steady_step.
Qed.

Lemma steady_drawLoop f s : steady s (drawLoop f s).
Proof.
  unfold drawLoop, drawSpectrum.
  destruct (audioCtx s); [|apply steady_refl].
  destruct (visualAnalyser s); steady_step.
Qed.

(** *** The poller and playFile *)

Lemma quotient_nonneg a b : 0 <= a -> 0 <= b -> 0 <= a / b.
Proof.
  intros Ha Hb. destruct (Req_dec_T b 0) as [->|Hne].
  - unfold Rdiv. rewrite Rinv_0. lra.
  - apply Rmult_le_pos; [exact Ha|].
    left. apply Rinv_0_lt_compat. lra.
Qed.

Lemma steady_timeUpdateTick E t now s :
  well_timed t s -> t <= now -> steady s (timeUpdateTick E now s).
Proof.
  intros (_ & _ & J3 & J4 & J5 & J6) Hnow. unfold timeUpdateTick.
  destruct (isPlaying s && audioCtx s); [|apply steady_refl].
  assert (Hq : 0 <= (now - playStartTime s + pausedTime s) / fileDuration s)
    by (apply quotient_nonneg; lra).
  assert (Hp : 0 <= Rmin ((now - playStartTime s + pausedTime s) / fileDuration s) 1
                    * 100).
  { apply Rmult_le_pos; [apply Rmin_glb; lra | lra]. }
  match goal with |- context [if ?c then _ else _] => destruct c end.
  - eapply steady_trans; [|apply steady_stopFile].
    unfold drawTimelineGauge, steady. repeat split; auto.
  - unfold drawTimelineGauge, steady. repeat split; auto.
Qed.

Lemma start_begins id off s :
  0 <= off -> was_started id s = false ->
  start id off s = Done (set_started (started s ++ [(id, off)]) s).
Proof.
  intros Hoff Hid. unfold start. now rewrite Rltb_false, Hid by lra.
Qed.

Lemma playFile_well_timed E t now s :
  conforming E -> session_ok any_peaks s -> well_timed t s -> t <= now ->
  well_timed now (playFile E now s).
Proof.
  intros [_ Hslider] Hok HJ Hnow.
  assert (Hkeep : well_timed now s).
  { destruct HJ as (J1 & J2 & J3 & J4 & J5 & J6).
    repeat split; try assumption. lra. }
  unfold playFile.
  destruct (fileBuffer s); [|exact Hkeep].
  destruct (audioCtx s); [|exact Hkeep].
  cbn [fresh].
  match goal with
  | |- context [set_nextId _ ?x] => set (s' := x)
  end.
  assert (Hs' : steady s s').
  { subst s'. destruct (fileSourceNode s) as [n|]; [|apply steady_refl].
    apply (steady_teardown E n). }
  assert (Hw' : wired_ok any_peaks s').
  { subst s'. destruct (fileSourceNode s) as [n|]; [|apply Hok].
    apply (quiet_wired any_peaks s); [apply (quiet_teardown E n) | apply Hok]. }
  pose proof (steady_well_timed now s s' Hs' Hkeep) as HJ'.
  clearbody s'. clear Hs' Hkeep HJ Hok s.
  match goal with
  | |- context [connectAudioPipeline ?x] => set (s2 := x)
  end.
  assert (Hw2 : wired_ok any_peaks s2)
    by (apply (gobs_wired any_peaks s'); [reflexivity | assumption]).
  destruct (connectAudioPipeline_ok any_peaks s2 Hw2) as (s3 & H3 & _).
  pose proof (connectAudioPipeline_frame s2) as F. rewrite H3 in F.
  cbv zeta in F. cbn [state_of] in F. destruct F as (Fp & Fs & Ft & _).
  rewrite H3. cbn [bind].
  destruct HJ' as (J1 & J2 & J3 & J4 & J5 & J6).
  assert (Hoff : 0 <= getCurrentTimelineProgress s3 / 100 * fileDuration s3).
  { unfold getCurrentTimelineProgress, currentTimelineProgress, fileDuration.
    rewrite Ft, Fs.
    change (0 <= currentTimelineProgress s' / 100 * fileDuration s'). nra. }
  assert (Hfresh : was_started (nextId s') s3 = false).
  { unfold was_started, started. rewrite Fp.
    change (existsb (fun p => Nat.eqb (fst p) (nextId s')) (started s') = false).
    apply not_true_is_false. intros Hex.
    apply existsb_exists in Hex. destruct Hex as (p & Hin & Heq).
    apply Nat.eqb_eq in Heq. specialize (J2 p Hin). lia. }
  rewrite (start_begins _ _ _ Hoff Hfresh). cbn [bind].
  set (off := getCurrentTimelineProgress s3 / 100 * fileDuration s3) in *.
  assert (Hst : forall x, In x (started s3 ++ [(nextId s', off)]) ->
                          (fst x < S (nextId s'))%nat).
  { intros x Hx. apply in_app_or in Hx. destruct Hx as [Hx|[<-|[]]].
    - unfold started in Hx. rewrite Fp in Hx. specialize (J2 x Hx). lia.
    - cbn. lia. }
  assert (Hwas : existsb (fun p => Nat.eqb (fst p) (nextId s'))
                   (started s3 ++ [(nextId s', off)]) = true).
  { rewrite existsb_app. cbn. rewrite Nat.eqb_refl. apply orb_true_r. }
  assert (Hs3 : started s3 = started s')
    by (unfold started; rewrite Fp; reflexivity).
  rewrite Hs3 in Hst, Hwas.
  unfold startTimeUpdate.
  destruct (timelineSlider E) as [v|] eqn:Hv; cbn [bind state_of fresh].
  - specialize (Hslider v eq_refl).
    unfold well_timed, was_started, fileSourceNode, started, nextId,
      currentTimelineProgress, fileDuration, playStartTime, pausedTime.
    cbn. rewrite ?Fs, ?Fp, ?Ft. cbn.
    change (p_nextId (platform s')) with (nextId s').
    change (p_started (platform s')) with (started s') in *.
    repeat split.
    + intros n Hn. injection Hn as <-. exact Hwas.
    + intros x Hx. specialize (Hst x Hx). lia.
    + exact J3.
    + exact J4.
    + lra.
    + change (0 <= v / 100 * fileDuration s'). 
      apply Rmult_le_pos; [lra | exact J4].
  - unfold well_timed, was_started, fileSourceNode, started, nextId,
      currentTimelineProgress, fileDuration, playStartTime, pausedTime.
    cbn. rewrite ?Fs, ?Fp, ?Ft. cbn.
    change (p_nextId (platform s')) with (nextId s').
    change (p_started (platform s')) with (started s') in *.
    repeat split.
    + intros n Hn. injection Hn as <-. exact Hwas.
    + intros x Hx. specialize (Hst x Hx). lia.
    + exact J3.
    + exact J4.
    + lra.
    + exact J6.
Qed.

(** *** Every receivable run *)

Lemma well_timed_later t t' s : t <= t' -> well_timed t s -> well_timed t' s.
Proof.
  intros Ht (J1 & J2 & J3 & J4 & J5 & J6).
  repeat split; try assumption. lra.
Qed.

Lemma run_well_timed E :
  conforming E ->
  forall es t s,
    receivable t es -> session_ok any_peaks s -> well_timed t s ->
    exists t', well_timed t' (run E s es).
Proof.
  intros HE. induction es as [|e es IH]; intros t s Hr Hok HJ.
  - exists t. exact HJ.
  - change (run E s (e :: es)) with (run E (step E s e) es).
    pose proof (step_ok E s e Hok) as Hok'.
    assert (Hsteady : forall s', steady s s' -> well_timed t s')
      by (intros s' H; exact (steady_well_timed t s s' H HJ)).
    destruct e; cbn [receivable] in Hr; cbn [step] in *.
    + apply (IH t); [assumption | assumption |].
      apply Hsteady, steady_startAudio.
    + apply (IH t); [assumption | assumption |].
      apply Hsteady, steady_stopAudio.
    + apply (IH t); [assumption | assumption |].
      apply Hsteady, steady_switchToRealtimeMode.
    + apply (IH t); [assumption | assumption |].
      apply Hsteady, steady_switchToFileMode.
    + destruct decoded as [d|].
      * destruct Hr as [Hd Hr]. apply (IH t); [assumption | assumption |].
        apply Hsteady, steady_loadFile. intros d' Hd'. congruence.
      * apply (IH t); [assumption | assumption |].
        apply Hsteady, steady_loadFile. intros d' Hd'. discriminate.
    + destruct Hr as [Hnow Hr]. apply (IH now); [assumption | assumption |].
      now apply (playFile_well_timed E t).
    + apply (IH t); [assumption | assumption |].
      apply Hsteady, steady_pauseFile.
    + apply (IH t); [assumption | assumption |].
      apply Hsteady, steady_stopFile.
    + apply (IH t); [assumption | assumption |].
      apply Hsteady. unfold toggleRepeat. steady_step.
    + destruct Hr as [_ Hr]. apply (IH t); [assumption | assumption |].
      apply Hsteady, steady_timelineClick.
    + destruct Hr as [Hnow Hr]. apply (IH now); [assumption | assumption |].
      apply (well_timed_later t); [assumption|].
      destruct (existsb (Nat.eqb id) (intervals s)); [|assumption].
      apply Hsteady. now apply (steady_timeUpdateTick E t).
    + apply (IH t); [assumption | assumption |].
      destruct (existsb (Nat.eqb id) (onended s)); [|assumption].
      apply Hsteady, steady_onendedHandler.
    + apply (IH t); [assumption | assumption |].
      apply Hsteady. unfold outputClick.
      eapply steady_trans; [|apply steady_updateCurrentVolume]. steady_step.
    + apply (IH t); [assumption | assumption |].
      apply Hsteady. unfold updateVolume.
      eapply steady_trans; [|apply steady_updateCurrentVolume]. steady_step.
    + apply (IH t); [assumption | assumption |].
      apply Hsteady, steady_clearBand.
    + apply (IH t); [assumption | assumption |].
      apply Hsteady, steady_mousedown.
    + apply (IH t); [assumption | assumption |].
      apply Hsteady. unfold mousemove. destruct (dragging s); steady_step.
    + apply (IH t); [assumption | assumption |].
      apply Hsteady, steady_mouseup.
    + apply (IH t); [assumption | assumption |].
      apply Hsteady, steady_drawLoop.
Qed.

Lemma initial_well_timed : well_timed 0 initial.
Proof.
  unfold well_timed. cbn. repeat split; try lra; try discriminate.
  intros p [].
Qed.

(** In a receivable run on a conforming browser the recorded file source
    has always been started. *)
Lemma reachable_sources_started E evs :
  conforming E -> receivable 0 evs ->
  forall n, fileSourceNode (run E initial evs) = Some n ->
            was_started n (run E initial evs) = true.
Proof.
  intros HE Hr.
  destruct (run_well_timed E HE evs 0 initial Hr initial_ok initial_well_timed)
    as (t' & J1 & _).
  exact J1.
Qed.

(** stopCurrentInput, which has no [try] around [stop()], completes when
    that call does not raise. *)
Lemma stopCurrentInput_completes E s :
  (forall id, stopThrows E id = false) ->
  (forall n, fileSourceNode s = Some n -> was_started n s = true) ->
  exists s1, stopCurrentInput E s = Done s1 /\
    inputMode s1 = ModeNone /\ currentSourceNode s1 = None /\
    (inputMode s = ModeFile -> fileSourceNode s1 = None) /\
    (inputMode s = ModeRealtime -> realtimeSourceNode s1 = None).
Proof.
  explode s. unfold stopCurrentInput, stop, disconnect, was_started. cbn.
  intros Hstop Hst.
  destruct s_inputMode0, s_realtimeSourceNode0 as [m|],
    s_fileSourceNode0 as [k|], s_mediaStream0; cbn;
    try rewrite (Hst k eq_refl), Hstop; cbn;
    eexists; repeat split; intros; first [reflexivity | congruence].
Qed.

(** ** Evaluating the script on concrete inputs *)

Arguments Rleb : simpl never.
Arguments Rltb : simpl never.
Arguments Reqb : simpl never.
Arguments Rmax : simpl never.
Arguments Rmin : simpl never.

Ltac rcmp :=
  repeat first
    [ rewrite Rleb_true by lra | rewrite Rleb_false by lra
    | rewrite Rltb_true by lra | rewrite Rltb_false by lra
    | rewrite Reqb_true by lra | rewrite Reqb_false by lra
    | rewrite Rmin_left by lra | rewrite Rmin_right by lra
    | rewrite Rmax_left by lra | rewrite Rmax_right by lra ].

(** Normalise, deciding each comparison of numerals as it comes up. *)
Ltac rnorm :=
  repeat (progress
            (lazy -[IZR Rdiv Rminus Rplus Rmult Ropp Rinv
                    Rltb Rleb Reqb Rmax Rmin
                    formatTime FrequencyMap.canvasXToHz];
             rcmp)).

(** Evaluate the innermost event of a run to an explicit state. *)
Ltac step1 :=
  match goal with
  | |- context [step ?E ?s ?e] =>
      lazymatch s with
      | context [step] => fail
      | _ => let H := fresh in
             eassert (H : step E s e = _);
             [ rnorm; reflexivity | rewrite H; clear H ]
      end
  end.

Ltac rrun := unfold run; cbn [fold_left]; repeat step1; rnorm.

(** ** Band filters (C4) *)

(** C4. Whenever a band {lo, hi} is selected and connectAudioPipeline
    rewires the graph (a current source and the processing nodes exist),
    the highpass cutoff becomes max(10, lo) and the lowpass cutoff
    max(highpass cutoff + 10, hi); so lowpass >= highpass + 10 for every
    selection, lo = hi included. *)
Theorem band_filter_cutoffs (s : Session) (src : SrcNode) (b : BandHz) :
  currentSourceNode s = Some src ->
  gainOut s <> None -> highpass s <> None -> lowpass s <> None ->
  visualAnalyser s <> None ->
  selectedBandHz s = Some b ->
  exists s' hp lp,
    connectAudioPipeline s = Done s' /\
    highpass s' = Some hp /\ lowpass s' = Some lp /\
    hp = Rmax 10 (lo b) /\ lp = Rmax (hp + 10) (hi b) /\
    hp + 10 <= lp.
Proof.
  intros Hc Hg Hh Hl Ha Hb.
  exists (rewired src s), (Rmax 10 (lo b)), (Rmax (Rmax 10 (lo b) + 10) (hi b)).
  split; [now apply connectAudioPipeline_rewired|].
  unfold rewired. rewrite Hb. cbn.
  repeat split; try reflexivity. apply Rmax_l.
Qed.

Lemma band_filter_cutoffs_witness :
  let s := set_selectedBandHz (Some (mkBandHz 300 300))
             (run bareEnv initial [StartClick true]) in
  exists s' hp lp,
    connectAudioPipeline s = Done s' /\
    highpass s' = Some hp /\ lowpass s' = Some lp /\
    hp = Rmax 10 300 /\ lp = Rmax (hp + 10) 300 /\ hp + 10 <= lp.
Proof.
  cbv zeta.
  apply (band_filter_cutoffs _ (MicSource 1) (mkBandHz 300 300));
    try reflexivity; cbn; discriminate.
Defined.

(** ** Analysis tap (C8) *)

(** C8. After every rewire the current source is connected to the
    analyser, with or without a band; no filter and no gain node feeds
    the analyser; and the connections connectAudioPipeline makes are the
    same whatever outputEnabled and volumeLevel are, as are the
    connections after an output toggle or a volume change. *)
Theorem analysis_tap_bypasses_gain (s : Session) (src : SrcNode) :
  currentSourceNode s = Some src ->
  gainOut s <> None -> highpass s <> None -> lowpass s <> None ->
  visualAnalyser s <> None ->
  exists s',
    connectAudioPipeline s = Done s' /\
    has_edge (Src src) Analyser (edges s') = true /\
    has_edge Highpass Analyser (edges s') = false /\
    has_edge Lowpass Analyser (edges s') = false /\
    has_edge GainOut Analyser (edges s') = false /\
    (forall en lv,
       edges (state_of (connectAudioPipeline
                          (set_volumeLevel lv (set_outputEnabled en s)))) =
       edges s') /\
    edges (outputClick s') = edges s' /\
    (forall v, edges (updateVolume v s') = edges s').
Proof.
  intros Hc Hg Hh Hl Ha.
  exists (rewired src s).
  split; [now apply connectAudioPipeline_rewired|].
  assert (Hedges : forall a, a = Highpass \/ a = Lowpass \/ a = GainOut ->
            has_edge a Analyser (edges (rewired src s)) = false).
  { intros a Hcase. unfold rewired, cleared.
    destruct (selectedBandHz s); cbn [edges set_edges upd_graph graph g_edges];
      rewrite !has_edge_add, !has_edge_drop;
      destruct Hcase as [->|[->| ->]]; cbn; reflexivity. }
  split; [|split; [|split; [|split; [|split; [|split]]]]].
  - unfold rewired. destruct (selectedBandHz s);
      cbn [edges set_edges upd_graph graph g_edges];
      rewrite has_edge_add; unfold Edge_eqb; cbn [fst snd Node_eqb];
      now rewrite SrcNode_eqb_refl.
  - apply Hedges; auto.
  - apply Hedges; auto.
  - apply Hedges; auto.
  - intros en lv.
    rewrite (connectAudioPipeline_rewired _ src); try assumption.
    cbn [state_of]. unfold rewired, selectedBandHz, edges, gainFor.
    cbn. destruct (b_selectedBandHz (band s)); reflexivity.
  - unfold outputClick, updateCurrentVolume.
    repeat match goal with
           | |- context [match ?x with _ => _ end] => destruct x
           end; reflexivity.
  - intros v. unfold updateVolume, updateCurrentVolume.
    repeat match goal with
           | |- context [match ?x with _ => _ end] => destruct x
           end; reflexivity.
Qed.

Lemma analysis_tap_bypasses_gain_witness :
  let s := run bareEnv initial [StartClick true] in
  exists s',
    connectAudioPipeline s = Done s' /\
    has_edge (Src (MicSource 1)) Analyser (edges s') = true /\
    has_edge Highpass Analyser (edges s') = false /\
    has_edge Lowpass Analyser (edges s') = false /\
    has_edge GainOut Analyser (edges s') = false /\
    (forall en lv,
       edges (state_of (connectAudioPipeline
                          (set_volumeLevel lv (set_outputEnabled en s)))) =
       edges s') /\
    edges (outputClick s') = edges s' /\
    (forall v, edges (updateVolume v s') = edges s').
Proof.
  cbv zeta.
  apply (analysis_tap_bypasses_gain _ (MicSource 1));
    try reflexivity; cbn; discriminate.
Defined.

(** ** Band selection (C10) *)

Lemma connectAudioPipeline_band s :
  band (state_of (connectAudioPipeline s)) = band s.
Proof. apply (connectAudioPipeline_frame s). Qed.

Lemma pass_through_edges src es :
  let es' := add_edge (Src src) Analyser
               (add_edge GainOut Destination
                  (add_edge (Src src) GainOut (cleared src es))) in
  has_edge (Src src) GainOut es' = true /\
  has_edge GainOut Destination es' = true /\
  has_edge (Src src) Highpass es' = false /\
  has_edge Highpass Lowpass es' = false /\
  has_edge Lowpass GainOut es' = false.
Proof.
  cbv zeta. unfold cleared.
  rewrite !has_edge_add, !has_edge_drop. unfold Edge_eqb. cbn [fst snd Node_eqb].
  rewrite !SrcNode_eqb_refl. cbn. auto.
Qed.

(** C10. A completed drag commits a band selection exactly when both
    endpoints lie inside the plot area and the span is at least 5 pixels;
    every other completed drag (a long one reaching outside the plot area
    included) clears the selection and, when a source is wired, leaves the
    graph in pass-through: source -> gain -> destination, no filter on the
    way. *)
Theorem drag_commit_rule (s : Session) (w a b : R) :
  dragging s = true -> dragStartX s = Some a -> dragEndX s = Some b ->
  let x1 := Rmin a b in
  let x2 := Rmax a b in
  let inside := plotX <= x1 /\ x2 <= plotX + plotWidth w /\ 5 <= x2 - x1 in
  let s' := state_of (mouseup w s) in
  dragging s' = false /\
  (inside ->
     selectedBandPixels s' = Some (mkBandPixels x1 x2) /\
     selectedBandHz s' =
       Some (mkBandHz (FrequencyMap.canvasXToHz (x1 - plotX) (plotWidth w))
                      (FrequencyMap.canvasXToHz (x2 - plotX) (plotWidth w)))) /\
  (~ inside ->
     selectedBandHz s' = None /\ selectedBandPixels s' = None /\
     forall src,
       currentSourceNode s = Some src ->
       gainOut s <> None -> highpass s <> None -> lowpass s <> None ->
       visualAnalyser s <> None ->
       has_edge (Src src) GainOut (edges s') = true /\
       has_edge GainOut Destination (edges s') = true /\
       has_edge (Src src) Highpass (edges s') = false /\
       has_edge Highpass Lowpass (edges s') = false /\
       has_edge Lowpass GainOut (edges s') = false).
Proof.
  intros Hd Ha Hb x1 x2 inside s'.
  subst s'. unfold mouseup. rewrite Hd.
  assert (Ha' : dragStartX (set_dragging false s) = Some a) by exact Ha.
  assert (Hb' : dragEndX (set_dragging false s) = Some b) by exact Hb.
  rewrite Ha', Hb'. fold x1 x2.
  destruct (Rleb plotX x1 && Rleb x2 (plotX + plotWidth w) && Rleb 5 (x2 - x1))
    eqn:Htest.
  - apply andb_true_iff in Htest. destruct Htest as [Htest H3].
    apply andb_true_iff in Htest. destruct Htest as [H1 H2].
    apply Rleb_spec in H1, H2, H3.
    unfold connectGraph.
    match goal with
    | |- context [connectAudioPipeline ?x] =>
        pose proof (connectAudioPipeline_frame x) as Hf; cbv zeta in Hf;
        destruct (connectAudioPipeline x) as [s3|s3]
    end; cbn [bind state_of] in *;
      destruct Hf as (_ & _ & _ & Hband & _).
    + split; [|split].
      * unfold dragging. cbn. now rewrite Hband.
      * intros _. split.
        -- unfold selectedBandPixels. cbn. now rewrite Hband.
        -- unfold selectedBandHz. cbn. now rewrite Hband.
      * intros Hn. exfalso. apply Hn. unfold inside. auto.
    + split; [|split].
      * unfold dragging. now rewrite Hband.
      * intros _. split.
        -- unfold selectedBandPixels. now rewrite Hband.
        -- unfold selectedBandHz. now rewrite Hband.
      * intros Hn. exfalso. apply Hn. unfold inside. auto.
  - assert (Hnot : ~ inside).
    { unfold inside. intros (H1 & H2 & H3).
      rewrite !Rleb_true in Htest by assumption. discriminate. }
    unfold clearBand, connectGraph.
    match goal with
    | |- context [connectAudioPipeline ?x] => set (s2 := x)
    end.
    pose proof (connectAudioPipeline_frame s2) as Hf. cbv zeta in Hf.
    destruct Hf as (_ & _ & _ & Hband & _).
    assert (Hgraph : forall src,
              currentSourceNode s = Some src ->
              gainOut s <> None -> highpass s <> None -> lowpass s <> None ->
              visualAnalyser s <> None ->
              connectAudioPipeline s2 = Done (rewired src s2)).
    { intros src Hc Hg Hh Hl Hv.
      apply connectAudioPipeline_rewired; assumption. }
    split; [|split].
    + destruct (connectAudioPipeline s2) as [s3|s3]; cbn [bind state_of] in *;
        unfold dragging; cbn; now rewrite Hband.
    + intros Hin. contradiction.
    + intros _.
      split; [|split].
      * destruct (connectAudioPipeline s2) as [s3|s3]; cbn [bind state_of] in *;
          unfold selectedBandHz; cbn; now rewrite Hband.
      * destruct (connectAudioPipeline s2) as [s3|s3]; cbn [bind state_of] in *;
          unfold selectedBandPixels; cbn; now rewrite Hband.
      * intros src Hc Hg Hh Hl Hv.
        rewrite (Hgraph src Hc Hg Hh Hl Hv). cbn [bind state_of].
        unfold rewired. subst s2. cbn.
        apply pass_through_edges.
Qed.

Lemma drag_commit_rule_witness :
  let s := run bareEnv initial
             [StartClick true; MouseDown 100 410 LeftButton; MouseMove 200 410] in
  let s' := state_of (mouseup 410 s) in
  dragging s' = false /\
  selectedBandPixels s' = Some (mkBandPixels (Rmin 100 200) (Rmax 100 200)).
Proof.
  cbv zeta.
  assert (Hs : run bareEnv initial
                 [StartClick true; MouseDown 100 410 LeftButton; MouseMove 200 410]
               = set_dragEndX (Some 200)
                   (set_dragStartX (Some 100)
                      (set_dragging true (run bareEnv initial [StartClick true])))).
  { unfold run. cbn [fold_left]. cbn [step].
    unfold mousemove, mousedown, plotX, plotWidth. rcmp. cbn [andb].
    cbn [dragging set_dragEndX set_dragStartX set_dragging upd_band band b_dragging].
    rcmp. reflexivity. }
  rewrite Hs.
  pose proof (drag_commit_rule
                (set_dragEndX (Some 200)
                   (set_dragStartX (Some 100)
                      (set_dragging true (run bareEnv initial [StartClick true]))))
                410 100 200 eq_refl eq_refl eq_refl) as H.
  cbv zeta in H. destruct H as (Hd & Hin & _).
  split; [exact Hd|].
  apply Hin. unfold plotX, plotWidth. rcmp. lra.
Defined.

(** The claim as worded fails: Start, drag a band, stop the microphone,
    then complete a drag with no movement.  The release clears the
    selection, but no current source is set any more, so
    connectAudioPipeline returns at its guard and rewires nothing: the
    microphone source is still connected through both filters to the gain
    node, and has no direct connection to it. *)
Lemma cleared_band_stays_wired_without_source :
  let s := run bareEnv initial
             [StartClick true;
              MouseDown 100 410 LeftButton; MouseMove 200 410; MouseUp 410;
              StopRealtimeClick;
              MouseDown 100 410 LeftButton; MouseUp 410] in
  selectedBandHz s = None /\ dragging s = false /\
  currentSourceNode s = None /\
  has_edge (Src (MicSource 1)) Highpass (edges s) = true /\
  has_edge Highpass Lowpass (edges s) = true /\
  has_edge Lowpass GainOut (edges s) = true /\
  has_edge GainOut Destination (edges s) = true /\
  has_edge (Src (MicSource 1)) GainOut (edges s) = false /\
  ~ (has_edge (Src (MicSource 1)) GainOut (edges s) = true /\
     has_edge (Src (MicSource 1)) Highpass (edges s) = false).
Proof.
  cbv zeta. rrun.
  repeat split; try reflexivity.
  intros [H _]. discriminate H.
Qed.

(** A committed drag reaches the filters: with a source wired, the
    cutoffs after mouseup are those of C4 for the band just selected. *)
Lemma committed_drag_sets_filters (s : Session) (w a b : R) (src : SrcNode) :
  dragging s = true -> dragStartX s = Some a -> dragEndX s = Some b ->
  currentSourceNode s = Some src ->
  gainOut s <> None -> highpass s <> None -> lowpass s <> None ->
  visualAnalyser s <> None ->
  plotX <= Rmin a b -> Rmax a b <= plotX + plotWidth w ->
  5 <= Rmax a b - Rmin a b ->
  let s' := state_of (mouseup w s) in
  let lo := FrequencyMap.canvasXToHz (Rmin a b - plotX) (plotWidth w) in
  let hi := FrequencyMap.canvasXToHz (Rmax a b - plotX) (plotWidth w) in
  highpass s' = Some (Rmax 10 lo) /\
  lowpass s' = Some (Rmax (Rmax 10 lo + 10) hi) /\
  has_edge (Src src) Highpass (edges s') = true /\
  has_edge Highpass Lowpass (edges s') = true /\
  has_edge Lowpass GainOut (edges s') = true.
Proof.
  intros Hd Ha Hb Hc Hg Hh Hl Hv H1 H2 H3. cbv zeta.
  unfold mouseup. rewrite Hd.
  assert (Ha' : dragStartX (set_dragging false s) = Some a) by exact Ha.
  assert (Hb' : dragEndX (set_dragging false s) = Some b) by exact Hb.
  rewrite Ha', Hb'. rewrite !Rleb_true by assumption. cbn [andb].
  unfold connectGraph.
  match goal with
  | |- context [connectAudioPipeline ?x] => set (s2 := x)
  end.
  rewrite (connectAudioPipeline_rewired s2 src) by assumption.
  cbn [bind state_of]. unfold rewired.
  assert (Hsel : selectedBandHz s2 =
                 Some (mkBandHz
                         (FrequencyMap.canvasXToHz (Rmin a b - plotX) (plotWidth w))
                         (FrequencyMap.canvasXToHz (Rmax a b - plotX) (plotWidth w))))
    by reflexivity.
  rewrite Hsel. cbv zeta. cbn [lo hi].
  split; [reflexivity|]. split; [reflexivity|].
  match goal with
  | |- context [set_edges ?e ?t] =>
      change (edges (set_dragEndX None (set_dragStartX None (set_edges e t))))
        with e
  end.
  rewrite !has_edge_add. unfold Edge_eqb. cbn [fst snd Node_eqb].
  rewrite !SrcNode_eqb_refl. cbn [andb orb]. repeat split; reflexivity.
Qed.

(** ** Peak hold (C6) *)

Lemma peaks_le_refl p : peaks_le p p.
Proof. intros l i v Hl Hi. exists l, v. repeat split; auto; lra. Qed.

(** C6. In every state the script can reach, no event other than the
    reset gesture lowers a peak-hold bin: each bin that exists keeps
    existing and does not decrease (an animation frame raises it to the
    larger of sample and old peak, every other event leaves the array as it
    is); and right after resetMaxPeaks every bin is exactly -120. *)
Theorem peak_hold_monotone_until_reset (E : Env) (evs : list event) (e : event) :
  is_reset e = false ->
  let s := run E initial evs in
  peaks_le (peakBins s) (peakBins (step E s e)) /\
  (forall p i v,
     peakBins (resetMaxPeaks s) = Some p -> nth_error p i = Some v -> v = -120) /\
  (forall p, peakBins s = Some p ->
     exists q, peakBins (resetMaxPeaks s) = Some q /\ length q = length p).
Proof.
  intros Hr s.
  pose proof (reachable_ok E evs) as Hok. fold s in Hok.
  split; [|split].
  - destruct e; try (rewrite step_peaks_kept;
                     [apply peaks_le_refl | assumption | assumption | discriminate]).
    cbn [step]. now apply drawLoop_peaks.
  - intros p i v Hp Hi. apply (resetMaxPeaks_floor s p i v Hp Hi).
  - intros p Hp. unfold resetMaxPeaks. rewrite Hp. cbn.
    eexists; split; [reflexivity | apply length_map].
Qed.

Lemma peak_hold_monotone_witness :
  let s := run bareEnv initial [StartClick true; AnimationFrame (fun _ => -50)] in
  peaks_le (peakBins s) (peakBins (step bareEnv s (AnimationFrame (fun _ => -40)))).
Proof.
  cbv zeta.
  apply (peak_hold_monotone_until_reset bareEnv
           [StartClick true; AnimationFrame (fun _ => -50)]
           (AnimationFrame (fun _ => -40)) eq_refl).
Defined.

(** What a frame stores: the larger of the sample and the old peak. *)
Lemma frame_stores_max (E : Env) (evs : list event) snapshot p i v :
  let s := run E initial evs in
  audioCtx s = true ->
  peakBins s = Some p -> nth_error p i = Some v ->
  exists q, peakBins (step E s (AnimationFrame snapshot)) = Some q /\
            nth_error q i = Some (Rmax (snapshot i) v).
Proof.
  intros s Hctx Hp Hi.
  destruct (reachable_ok E evs) as [[HN [HP _]] _]. fold s in HN, HP.
  destruct (HP p Hp) as [Hva Hlen].
  cbn [step]. unfold drawLoop, drawSpectrum. rewrite Hctx, Hva, Hp.
  remember (frequencyBinCount FFT_SIZE) as n eqn:Hn.
  rewrite Hlen, Nat.eqb_refl. cbn.
  eexists; split; [reflexivity|].
  assert (Hin : (i < n)%nat).
  { rewrite <- Hlen. apply nth_error_Some. congruence. }
  rewrite (peak_for_max n 0 n _ p Hlen ltac:(lia) i v ltac:(lia) Hi).
  f_equal. f_equal.
  rewrite (nth_indep _ 0 (snapshot 0%nat)) by (now rewrite length_map, length_seq).
  rewrite map_nth, seq_nth by assumption. reflexivity.
Qed.

(** ** Output gain (C2) *)

(** C2, as the script has it. In every state the script can reach in which
    the gain node exists and a current source is set, the gain value is
    outputEnabled ? volumeLevel : 0, whatever the input mode; an output
    toggle or a volume change in such a state sets the gain to the new
    value and leaves every connection as it was. *)
Theorem gain_follows_output_while_source_set (E : Env) (evs : list event)
    (g : R) (src : SrcNode) :
  let s := run E initial evs in
  gainOut s = Some g -> currentSourceNode s = Some src ->
  g = (if outputEnabled s then volumeLevel s else 0) /\
  gainOut (outputClick s) = Some (if outputEnabled s then 0 else volumeLevel s) /\
  edges (outputClick s) = edges s /\
  (forall v, gainOut (updateVolume v s) =
             Some (if outputEnabled s then v / 100 else 0) /\
             edges (updateVolume v s) = edges s).
Proof.
  intros s Hg Hc.
  destruct (reachable_ok E evs) as [_ HG]. fold s in HG.
  split; [exact (HG g src Hg Hc)|].
  revert Hg Hc. generalize s. clear. intros s Hg Hc.
  explode s. cbn in *. subst.
  unfold outputClick, updateVolume, updateCurrentVolume, gainFor. cbn.
  destruct o_outputEnabled0; cbn; auto.
Qed.

Lemma gain_follows_output_witness :
  let s := run bareEnv initial [StartClick true; OutputClick] in
  1 = (if outputEnabled s then volumeLevel s else 0).
Proof.
  cbv zeta.
  apply (gain_follows_output_while_source_set bareEnv
           [StartClick true; OutputClick] 1 (MicSource 1) eq_refl eq_refl).
Defined.

(** The claim as worded fails: Start, Stop, then Output ON leaves the gain
    node at 0 although output is enabled at level 1, with the old
    microphone source still connected through the gain node to the
    destination. *)
Lemma gain_stale_without_source :
  let s := run bareEnv initial [StartClick true; StopRealtimeClick; OutputClick] in
  gainOut s = Some 0 /\ outputEnabled s = true /\ volumeLevel s = 1 /\
  has_edge (Src (MicSource 1)) GainOut (edges s) = true /\
  has_edge GainOut Destination (edges s) = true /\
  ~ (forall g, gainOut s = Some g ->
               g = (if outputEnabled s then volumeLevel s else 0)).
Proof.
  cbv zeta. rrun.
  repeat split; try reflexivity.
  intros H. specialize (H 0 eq_refl). lra.
Qed.

(** The same with sound still flowing: a file started while the mode is
    realtime keeps playing after a refused Start, and Output ON does not
    reach the gain node. *)
Lemma gain_stale_while_file_plays :
  let s := run bareEnv initial
             [FileChosen (Some 10); ModeRealtimeClick; PlayClick 0;
              StartClick false; OutputClick] in
  gainOut s = Some 0 /\ outputEnabled s = true /\ volumeLevel s = 1 /\
  was_started 1 s = true /\ stopped s = [] /\
  has_edge (Src (BufferSource 1)) GainOut (edges s) = true /\
  has_edge GainOut Destination (edges s) = true.
Proof.
  cbv zeta. rrun. repeat split; reflexivity.
Qed.

(** ** Mutual exclusion of sources (C3) *)

(** C3 on the script. Start the microphone, switch to file mode, load a
    file and play: the microphone source (its tracks stopped) is still
    connected to the gain node next to the new buffer source, so two
    upstream sources are connected at once. *)
Theorem two_sources_connected :
  let s := run bareEnv initial
             [StartClick true; ModeFileClick; FileChosen (Some 10); PlayClick 0] in
  upstream_sources (edges s) = [MicSource 1; BufferSource 2] /\
  has_edge (Src (MicSource 1)) GainOut (edges s) = true /\
  has_edge (Src (BufferSource 2)) GainOut (edges s) = true /\
  endedStreams s = [1%nat] /\ currentSourceNode s = Some (BufferSource 2).
Proof.
  cbv zeta. rrun. repeat split; reflexivity.
Qed.

(** The same with both sources alive: with a file loaded and the mode back
    on realtime, Start connects the microphone, and a playFile that
    arrives then (the restart seekToPosition schedules, or the Play button)
    connects the buffer source next to it; no track was stopped. *)
Lemma two_live_sources_connected :
  let s := run bareEnv initial
             [FileChosen (Some 10); ModeRealtimeClick; StartClick true;
              PlayClick 0] in
  upstream_sources (edges s) = [MicSource 1; BufferSource 2] /\
  endedStreams s = [] /\ stopped s = [] /\
  was_started 2 s = true /\ isPlaying s = true /\ isRealtimeActive s = true.
Proof.
  cbv zeta. rrun. repeat split; reflexivity.
Qed.

(** ** File transport *)

(** What pauseFile does to a playing transport, whether or not [stop()]
    raises: the source is disconnected and forgotten, the transport is no
    longer playing, the poller is cancelled; nothing is recorded about
    time. *)
Lemma pauseFile_playing E s n :
  fileSourceNode s = Some n -> isPlaying s = true ->
  let s' := pauseFile E s in
  fileSourceNode s' = None /\ isPlaying s' = false /\
  timeUpdateInterval s' = None /\
  edges s' = drop_edges (Src (BufferSource n)) (edges s) /\
  btnPlay_disabled s' = false /\ btnPause_disabled s' = true /\
  btnStop_disabled s' = btnStop_disabled s /\
  currentTimelineProgress s' = currentTimelineProgress s /\
  currentTime s' = currentTime s /\
  pausedTime s' = pausedTime s /\ playStartTime s' = playStartTime s /\
  fileDuration s' = fileDuration s /\ fileBuffer s' = fileBuffer s /\
  audioCtx s' = audioCtx s /\ nextId s' = nextId s /\ started s' = started s /\
  gainOut s' = gainOut s /\ highpass s' = highpass s /\
  lowpass s' = lowpass s /\ visualAnalyser s' = visualAnalyser s.
Proof.
  explode s. cbn. intros -> ->.
  unfold pauseFile, stop, stopTimeUpdate, disconnect, was_started. cbn.
  match goal with |- context [if ?c then _ else _] => destruct c end; cbn;
    destruct t_timeUpdateInterval0; cbn; repeat split; reflexivity.
Qed.

(** The same for stopFile, which also puts the position back to 0. *)
Lemma stopFile_any E s :
  let s' := stopFile E s in
  fileSourceNode s' = None /\ isPlaying s' = false /\
  timeUpdateInterval s' = None /\
  btnStop_disabled s' = true /\
  currentTimelineProgress s' = 0 /\ currentTime s' = "00:00"%string.
Proof.
  explode s. unfold stopFile, stop, stopTimeUpdate, disconnect, was_started,
    drawTimelineGauge. cbn.
  destruct s_fileSourceNode0; cbn;
    repeat match goal with
           | |- context [if ?c then _ else _] => destruct c; cbn
           | |- context [match ?x with _ => _ end] => destruct x; cbn
           end; repeat split; reflexivity.
Qed.

(** ** Teardown (C9) *)

(** stopCurrentInput has no [try] around [stop()]: were the call to
    raise, the exception would leave the function with the node only
    disconnected. *)
Lemma stopCurrentInput_blocked E s n :
  inputMode s = ModeFile -> fileSourceNode s = Some n ->
  was_started n s = false \/ stopThrows E n = true ->
  exists s', stopCurrentInput E s = Threw s' /\
    fileSourceNode s' = Some n /\ isPlaying s' = isPlaying s /\
    currentSourceNode s' = currentSourceNode s /\ inputMode s' = ModeFile.
Proof.
  explode s. cbn. intros -> -> Hthrow.
  unfold stopCurrentInput, stop, disconnect, was_started in *. cbn in *.
  assert (Hc : negb (existsb (fun p => (fst p =? n)%nat) p_started0) ||
               stopThrows E n = true).
  { destruct Hthrow as [-> | ->]; [reflexivity | apply orb_true_r]. }
  destruct s_realtimeSourceNode0; rewrite Hc; cbn;
    eexists; repeat split; reflexivity.
Qed.

(** Stop operations with nothing active do nothing harmful. *)
Lemma teardown_idle E :
  stopCurrentInput E initial = Done initial /\
  stopAudio E initial = Done initial /\
  pauseFile E initial = initial /\
  threw (switchToRealtimeMode E initial) = false.
Proof. repeat split; reflexivity. Qed.

(** The same in a browser made to raise on every [stop()], which no
    browser does on a started source: stopCurrentInput is left by the
    exception right after the disconnect, while pauseFile in the same
    state finishes its cleanup. *)
Lemma stopCurrentInput_unguarded :
  let s := run stopFailsEnv initial [FileChosen (Some 10); PlayClick 0] in
  let s' := step stopFailsEnv s (FileChosen (Some 20)) in
  threw (stopCurrentInput stopFailsEnv s) = true /\
  fileSourceNode s' = Some 1%nat /\ isPlaying s' = true /\
  currentSourceNode s' = Some (BufferSource 1) /\ inputMode s' = ModeFile /\
  fileBuffer s' = Some 10 /\
  has_edge (Src (BufferSource 1)) GainOut (edges s') = false /\
  fileSourceNode (pauseFile stopFailsEnv s) = None /\
  isPlaying (pauseFile stopFailsEnv s) = false.
Proof.
  cbv zeta. rrun. repeat split; reflexivity.
Qed.

Lemma stopAudio_completes E s :
  (forall id, stopThrows E id = false) ->
  (forall n, fileSourceNode s = Some n -> was_started n s = true) ->
  exists s2, stopAudio E s = Done s2 /\ isRealtimeActive s2 = false /\
    (inputMode s = ModeRealtime ->
     inputMode s2 = ModeNone /\ currentSourceNode s2 = None /\
     realtimeSourceNode s2 = None).
Proof.
  intros Hstop Hst. unfold stopAudio.
  destruct (inputMode s) eqn:Hm; cbn [bind];
    try (eexists; split; [reflexivity|]; split; [reflexivity|];
         intros; discriminate).
  destruct (stopCurrentInput_completes E s Hstop Hst)
    as (s1 & -> & H1 & H2 & _ & H4).
  cbn [bind]. eexists. split; [reflexivity|]. split; [reflexivity|].
  intros _. specialize (H4 Hm).
  clear - H1 H2 H4. explode s1. cbn in *. subst. repeat split; reflexivity.
Qed.

Lemma idle_tolerated E s :
  inputMode s = ModeNone ->
  threw (stopCurrentInput E s) = false /\ threw (stopAudio E s) = false.
Proof.
  intros Hm. unfold stopAudio, stopCurrentInput. rewrite Hm.
  split; reflexivity.
Qed.



(** ** Natural end of playback (C1) *)

(** C1, as the script has it. When the [ended] event of a source that
    carries the handler arrives while a non-repeating transport is playing
    (Stop enabled, as playFile leaves it), the transport becomes Paused and
    the reported position stays where the poller last put it: the handler
    neither resets it to 0 nor moves it to the duration. *)
Theorem ended_pauses_at_polled_position (E : Env) (s : Session) (id n : nat) :
  existsb (Nat.eqb id) (onended s) = true ->
  fileSourceNode s = Some n -> isPlaying s = true ->
  isRepeating s = false -> btnStop_disabled s = false ->
  let s' := step E s (EndedEvent id) in
  transportState s' = Paused /\
  currentTimelineProgress s' = currentTimelineProgress s /\
  reportedPosition s' = reportedPosition s /\
  currentTime s' = currentTime s /\
  fileSourceNode s' = None /\ timeUpdateInterval s' = None.
Proof.
  intros Hh Hn Hp Hr Hb. cbn [step]. rewrite Hh.
  unfold onendedHandler. rewrite Hr. cbn [negb].
  destruct (pauseFile_playing E s n Hn Hp)
    as (H1 & H2 & H3 & _ & _ & _ & H7 & H8 & H9 & _ & _ & H12 & _).
  unfold transportState, reportedPosition.
  rewrite H2, H7, Hb, H8, H12.
  repeat split; assumption.
Qed.

Lemma ended_pauses_witness :
  let s := run sliderEnv initial
             [FileChosen (Some 10); PlayClick 0; IntervalTick 2 (99 / 10)] in
  transportState (step sliderEnv s (EndedEvent 1)) = Paused.
Proof.
  cbv zeta.
  refine (proj1 (ended_pauses_at_polled_position sliderEnv _ 1 1 _ _ _ _ _));
    rrun; reflexivity.
Defined.

(** The claim as worded fails: the poller last ran at 9.9 s of a 10 s
    file, the [ended] event pauses the transport, and the position stays
    at 9.9 s, not at the duration. *)
Lemma natural_end_position_not_duration :
  let s := run sliderEnv initial
             [FileChosen (Some 10); PlayClick 0; IntervalTick 2 (99 / 10);
              EndedEvent 1] in
  transportState s = Paused /\ fileDuration s = 10 /\
  reportedPosition s = 99 / 10 /\
  ~ (transportState s = Paused /\ reportedPosition s = fileDuration s).
Proof.
  cbv zeta. rrun.
  split; [reflexivity|]. split; [reflexivity|]. split; [lra|].
  intros [_ H]. lra.
Qed.

(** Two more endings the script has.  A poll that sees the whole duration
    elapsed before the [ended] event is handled calls stopFile: Stopped,
    position 0. *)
Lemma natural_end_poller_stops :
  let s := run sliderEnv initial
             [FileChosen (Some 10); PlayClick 0; IntervalTick 2 10] in
  transportState s = Stopped /\ currentTimelineProgress s = 0 /\
  reportedPosition s = 0.
Proof.
  cbv zeta. rrun. repeat split; try reflexivity; lra.
Qed.

(** Where [timelineSlider] does not resolve, playFile is cut short before
    it installs the poller and the [ended] handler: the transport stays
    Playing for ever. *)
Lemma natural_end_unwatched :
  let s := run bareEnv initial
             [FileChosen (Some 10); PlayClick 0; EndedEvent 1] in
  transportState s = Playing /\ onended s = [] /\ intervals s = [].
Proof.
  cbv zeta. rrun. repeat split; reflexivity.
Qed.

(** What a poll writes while the playback has not run out: the elapsed
    time itself. *)
Lemma poll_reports_elapsed E now s :
  isPlaying s = true -> audioCtx s = true -> 0 < fileDuration s ->
  let elapsed := now - playStartTime s + pausedTime s in
  elapsed < fileDuration s ->
  reportedPosition (timeUpdateTick E now s) = elapsed /\
  isPlaying (timeUpdateTick E now s) = true.
Proof.
  intros Hp Hc Hd elapsed He.
  unfold timeUpdateTick. rewrite Hp, Hc. cbn [andb]. fold elapsed.
  assert (Hr : elapsed / fileDuration s < 1).
  { apply (Rmult_lt_reg_r (fileDuration s)); [assumption|].
    unfold Rdiv. rewrite Rmult_assoc, Rinv_l by lra. lra. }
  rewrite Rmin_left by lra.
  assert (Hf : fileDuration
                 (set_currentTime (formatTime elapsed)
                    (drawTimelineGauge (elapsed / fileDuration s * 100) s)) =
               fileDuration s) by reflexivity.
  rewrite Hf. rewrite Rleb_false by assumption. cbn [andb].
  split; [|exact Hp].
  unfold reportedPosition, currentTimelineProgress. cbn [set_currentTime
    drawTimelineGauge set_currentTimelineProgress upd_transport transport
    t_currentTimelineProgress].
  rewrite Hf. field. lra.
Qed.

(** ** Pause and resume (C7) *)

Lemma start_ok id off s :
  0 <= off -> was_started id s = false ->
  start id off s = Done (set_started (started s ++ [(id, off)]) s).
Proof.
  intros Hoff Hid. unfold start. now rewrite Rltb_false, Hid.
Qed.

Lemma connectAudioPipeline_done s :
  nodes_ok s -> exists s', connectAudioPipeline s = Done s'.
Proof.
  explode s. unfold connectAudioPipeline, nodes_ok. cbn.
  intros [(-> & -> & -> & ->)|(Hg & Hh & Hl & ->)].
  - destruct s_currentSourceNode0; eexists; reflexivity.
  - destruct g_gainOut0; [|congruence].
    destruct g_highpass0; [|congruence].
    destruct g_lowpass0; [|congruence].
    destruct s_currentSourceNode0, b_selectedBandHz0; eexists; reflexivity.
Qed.

(** playFile on a transport with no live source: a fresh buffer source is
    started at the offset the timeline gauge shows, whatever the poller and
    the slider do afterwards. *)
Lemma playFile_starts E now s d :
  fileSourceNode s = None -> fileBuffer s = Some d -> audioCtx s = true ->
  nodes_ok s -> 0 <= reportedPosition s ->
  was_started (nextId s) s = false ->
  let s2 := playFile E now s in
  fileSourceNode s2 = Some (nextId s) /\
  currentSourceNode s2 = Some (BufferSource (nextId s)) /\
  started s2 = started s ++ [(nextId s, reportedPosition s)] /\
  isPlaying s2 = true /\ playStartTime s2 = now.
Proof.
  intros Hn Hb Hctx HN Hpos Hfresh. cbv zeta.
  unfold playFile. rewrite Hb, Hctx, Hn. cbn [fresh].
  match goal with
  | |- context [connectAudioPipeline ?x] => set (s0 := x)
  end.
  destruct (connectAudioPipeline_done s0 HN) as [s3 H3].
  pose proof (connectAudioPipeline_frame s0) as F. rewrite H3 in F.
  cbv zeta in F. cbn [state_of] in F. destruct F as (Fp & Fs & Ft & _).
  rewrite H3. cbn [bind].
  assert (Hoff : getCurrentTimelineProgress s3 / 100 * fileDuration s3 =
                 reportedPosition s).
  { unfold getCurrentTimelineProgress, currentTimelineProgress, fileDuration,
      reportedPosition. rewrite Ft, Fs. reflexivity. }
  rewrite Hoff.
  rewrite start_ok;
    [|exact Hpos
     |unfold was_started, started; rewrite Fp; exact Hfresh].
  cbn [bind]. unfold startTimeUpdate.
  destruct (timelineSlider E); cbn [bind state_of fresh];
    unfold fileSourceNode, currentSourceNode, started, isPlaying, playStartTime;
    cbn; rewrite ?Fs, ?Fp, ?Ft; repeat split; reflexivity.
Qed.

(** C7, as the script has it. pauseFile records nothing about time: the
    timeline progress, the anchor playStartTime and pausedTime are what
    they were.  A following playFile starts a fresh source at offset
    (currentTimelineProgress / 100) * fileDuration, the position the
    poller (or a seek, or stopFile) wrote last, so it resumes where the
    last poll before the pause saw the playback, not at 0. *)
Theorem resume_starts_at_polled_position
    (E : Env) (now : R) (s : Session) (n : nat) (d : R) :
  fileSourceNode s = Some n -> isPlaying s = true ->
  fileBuffer s = Some d -> audioCtx s = true -> nodes_ok s ->
  0 <= reportedPosition s -> was_started (nextId s) s = false ->
  let s1 := pauseFile E s in
  let s2 := playFile E now s1 in
  currentTimelineProgress s1 = currentTimelineProgress s /\
  playStartTime s1 = playStartTime s /\ pausedTime s1 = pausedTime s /\
  fileSourceNode s2 = Some (nextId s) /\
  started s2 = started s ++ [(nextId s, reportedPosition s)] /\
  isPlaying s2 = true.
Proof.
  intros Hn Hp Hb Hctx HN Hpos Hfresh s1 s2.
  destruct (pauseFile_playing E s n Hn Hp)
    as (H1 & H2 & H3 & H4 & H5 & H6 & H7 & H8 & H9 & H10 & H11 & H12 & H13
        & H14 & H15 & H16 & H17 & H18 & H19 & H20).
  fold s1 in H1, H2, H3, H4, H5, H6, H7, H8, H9, H10, H11, H12, H13, H14,
    H15, H16, H17, H18, H19, H20.
  assert (Hpos1 : reportedPosition s1 = reportedPosition s)
    by (unfold reportedPosition; now rewrite H8, H12).
  assert (HN1 : nodes_ok s1)
    by (unfold nodes_ok; now rewrite H17, H18, H19, H20).
  assert (Hfresh1 : was_started (nextId s1) s1 = false)
    by (unfold was_started in *; now rewrite H15, H16).
  destruct (playFile_starts E now s1 d H1 (eq_trans H13 Hb) (eq_trans H14 Hctx)
              HN1 ltac:(rewrite Hpos1; exact Hpos) Hfresh1)
    as (P1 & _ & P3 & P4 & _).
  fold s2 in P1, P3, P4.
  rewrite H15 in P1, P3. rewrite H16, Hpos1 in P3.
  repeat split; assumption.
Qed.

Lemma resume_starts_witness :
  let s := run sliderEnv initial
             [FileChosen (Some 10); PlayClick 0; IntervalTick 2 (29 / 10)] in
  let s2 := playFile sliderEnv 3 (pauseFile sliderEnv s) in
  started s2 = started s ++ [(nextId s, reportedPosition s)].
Proof.
  cbv zeta.
  refine (proj1 (proj2 (proj2 (proj2 (proj2
            (resume_starts_at_polled_position sliderEnv 3 _ 1 10 _ _ _ _ _ _ _))))));
    unfold nodes_ok, reportedPosition; rrun;
    try reflexivity; try lra.
  right. repeat split; discriminate || reflexivity.
Defined.

(** The claim as worded fails.  Play from 0; the poller runs at 2.9 s;
    pause arrives at 3.0 s of the audio clock.  pauseFile leaves
    pausedTime at 0 instead of (3.0 - anchor) + pausedTime = 3.0, and the
    resumed source starts at the polled 2.9 s. *)
Lemma pause_records_no_elapsed :
  let s := run sliderEnv initial
             [FileChosen (Some 10); PlayClick 0; IntervalTick 2 (29 / 10)] in
  let clock := 3 in
  let s1 := step sliderEnv s PauseClick in
  let s2 := step sliderEnv s1 (PlayClick 4) in
  pausedTime s1 = 0 /\ playStartTime s = 0 /\ pausedTime s = 0 /\
  (exists off, started s2 = [(1%nat, 0); (3%nat, off)] /\ off = 29 / 10) /\
  ~ (pausedTime s1 = (clock - playStartTime s) + pausedTime s).
Proof.
  cbv zeta. rrun.
  split; [lra|]. split; [reflexivity|]. split; [lra|]. split.
  - eexists. split; [|reflexivity]. f_equal; [f_equal; lra|].
    f_equal. f_equal. lra.
  - lra.
Qed.

(** Where [timelineSlider] does not resolve there is no poller at all, and
    the resumed source starts at 0. *)
Lemma resume_from_zero_unwatched :
  let s := run bareEnv initial
             [FileChosen (Some 10); PlayClick 0; PauseClick; PlayClick 3] in
  exists a b, started s = [(1%nat, a); (2%nat, b)] /\ a = 0 /\ b = 0.
Proof.
  cbv zeta. rrun. eexists _, _. split; [reflexivity|]. split; lra.
Qed.

(* ================================================================== *)
(** * Further properties of the script                                 *)
(* ================================================================== *)

(** ** FrequencyMap, both directions *)

Section FrequencyMapMore.
Import FrequencyMap.

Lemma INR14 : INR 14 = 14.
Proof. simpl. lra. Qed.

Lemma edge_mono i j w : 0 <= w -> (i <= j)%nat -> edge i w <= edge j w.
Proof.
  intros Hw Hij. unfold edge. rewrite INR14.
  apply le_INR in Hij. nra.
Qed.

Lemma edge_lt i j w : 0 < w -> (i < j)%nat -> edge i w < edge j w.
Proof.
  intros Hw Hij. unfold edge. rewrite INR14.
  apply lt_INR in Hij. nra.
Qed.

Lemma edge_range i w : 0 <= w -> (i <= 14)%nat -> 0 <= edge i w <= w.
Proof.
  intros Hw Hi.
  pose proof (edge_mono 0 i w Hw ltac:(lia)) as H0.
  pose proof (edge_mono i 14 w Hw Hi) as H1.
  rewrite edge_0 in H0. rewrite edge_14 in H1. lra.
Qed.

Lemma logFreqs_nonneg i : (i <= 14)%nat -> 0 <= nth i logFreqs 0.
Proof.
  intros Hi. pose proof (logFreqs_mono 0 i ltac:(lia) Hi) as H.
  now rewrite logFreqs_first in H.
Qed.

Lemma pow10_log10 hz : 0 < hz -> pow10 (log10 hz) = hz.
Proof.
  intros H. unfold pow10, log10, Rpower.
  replace (ln hz / ln 10 * ln 10) with (ln hz)
    by (field; pose proof ln10_pos; lra).
  now apply exp_ln.
Qed.

Lemma pow10_incr a b : a < b -> pow10 a < pow10 b.
Proof.
  intros H. unfold pow10, Rpower. apply exp_increasing.
  pose proof ln10_pos. nra.
Qed.

Lemma pow10_0 : pow10 0 = 1.
Proof. unfold pow10, Rpower. rewrite Rmult_0_l. apply exp_0. Qed.

Lemma log10_le a b : 0 < a -> a <= b -> log10 a <= log10 b.
Proof.
  intros Ha [Hlt| ->]; [|lra]. left. now apply log10_incr.
Qed.

Lemma hz_for_below k : forall i l w,
  (i + k <= 14)%nat -> l < 0 -> hz_for k i l w = 0.
Proof.
  induction k as [|k IH]; intros i l w Hik Hl; cbn [hz_for]; [reflexivity|].
  pose proof (logFreqs_nonneg i ltac:(lia)).
  rewrite (Rleb_false (nth i logFreqs 0) l) by lra. cbn [andb].
  apply IH; [lia | assumption].
Qed.

Lemma hz_for_zero w : hz_for 14 0 0 w = 0.
Proof.
  cbn [hz_for]. rewrite segments.
  change (nth (0 + 1) logFreqs 0) with (nth 1 logFreqs 0).
  rewrite logFreqs_first.
  pose proof (logFreqs_incr 0 ltac:(lia)) as H. rewrite logFreqs_first in H.
  rewrite !Rleb_true by lra. cbn [andb].
  rewrite INR14. simpl INR. unfold Rdiv. ring.
Qed.

Lemma find_seg k : forall i l,
  (i + k = 14)%nat -> nth i logFreqs 0 < l -> l <= nth 14 logFreqs 0 ->
  exists j, (i <= j < 14)%nat /\ nth j logFreqs 0 < l <= nth (j + 1) logFreqs 0.
Proof.
  induction k as [|k IH]; intros i l Hik Hlo Hhi.
  - replace i with 14%nat in Hlo by lia. lra.
  - destruct (Rle_dec l (nth (i + 1) logFreqs 0)) as [Hle|Hgt].
    + exists i. split; [lia | lra].
    + destruct (IH (S i) l ltac:(lia)) as (j & Hj & Hl); try assumption.
      * rewrite <- Nat.add_1_r. lra.
      * exists j. split; [lia | assumption].
Qed.

Lemma seg_ratio j l :
  (j < 14)%nat -> nth j logFreqs 0 < l <= nth (j + 1) logFreqs 0 ->
  0 < (l - nth j logFreqs 0) / (nth (j + 1) logFreqs 0 - nth j logFreqs 0) <= 1.
Proof.
  intros Hj Hl.
  pose proof (logFreqs_incr j Hj) as Hinc. rewrite <- Nat.add_1_r in Hinc.
  split.
  - apply Rdiv_lt_0_compat; lra.
  - apply (Rmult_le_reg_r (nth (j + 1) logFreqs 0 - nth j logFreqs 0)); [lra|].
    unfold Rdiv. rewrite Rmult_assoc, Rinv_l by lra. lra.
Qed.

Lemma seg_unique j1 j2 l :
  (j1 < 14)%nat -> (j2 < 14)%nat ->
  nth j1 logFreqs 0 < l <= nth (j1 + 1) logFreqs 0 ->
  nth j2 logFreqs 0 < l <= nth (j2 + 1) logFreqs 0 ->
  j1 = j2.
Proof.
  intros H1 H2 L1 L2.
  destruct (Nat.lt_trichotomy j1 j2) as [Hlt|[Heq|Hgt]]; [|assumption|].
  - pose proof (logFreqs_mono (j1 + 1) j2 ltac:(lia) ltac:(lia)). lra.
  - pose proof (logFreqs_mono (j2 + 1) j1 ltac:(lia) ltac:(lia)). lra.
Qed.

(** hzToCanvasX between the clamps. *)
Lemma hzToCanvasX_mid hz w :
  0 < hz -> hz < 10000 -> hzToCanvasX hz w = hz_for 14 0 (log10 hz) w.
Proof.
  intros H0 H1. unfold hzToCanvasX.
  cbn [values nth length Nat.sub].
  rewrite !Rleb_false by lra. rewrite Reqb_false by lra.
  now rewrite segments.
Qed.

Lemma log10_below_last hz : 0 < hz -> hz < 10000 -> log10 hz < nth 14 logFreqs 0.
Proof.
  intros H0 H1. rewrite logFreqs_last. now apply log10_incr.
Qed.

Lemma hzToCanvasX_low hz w : hz <= 1 -> hzToCanvasX hz w = 0.
Proof.
  intros H1. destruct (Rle_dec hz 0) as [H0|H0].
  - unfold hzToCanvasX. cbn [values nth]. now rewrite Rleb_true.
  - rewrite hzToCanvasX_mid by lra.
    destruct H1 as [Hlt| ->].
    + apply hz_for_below; [lia|].
      rewrite <- log10_1. apply log10_incr; lra.
    + rewrite log10_1. apply hz_for_zero.
Qed.

Lemma hzToCanvasX_seg hz w :
  1 < hz -> hz < 10000 ->
  exists j, (j < 14)%nat /\
    nth j logFreqs 0 < log10 hz <= nth (j + 1) logFreqs 0 /\
    hzToCanvasX hz w =
      edge j w + (log10 hz - nth j logFreqs 0) /
                 (nth (j + 1) logFreqs 0 - nth j logFreqs 0) *
                 (edge (j + 1) w - edge j w).
Proof.
  intros H1 H2.
  assert (Hl0 : 0 < log10 hz) by (rewrite <- log10_1; apply log10_incr; lra).
  pose proof (log10_below_last hz ltac:(lra) H2) as Hl14.
  destruct (find_seg 14 0 (log10 hz) eq_refl) as (j & Hj & Hl);
    [rewrite logFreqs_first; lra | lra |].
  exists j. split; [lia|]. split; [assumption|].
  rewrite hzToCanvasX_mid by lra.
  apply hz_for_spec; [reflexivity | lia | assumption].
Qed.

Lemma hzToCanvasX_bounds hz w : 0 <= w -> 0 <= hzToCanvasX hz w <= w.
Proof.
  intros Hw.
  destruct (Rle_dec hz 1) as [H1|H1].
  { rewrite hzToCanvasX_low by assumption. lra. }
  destruct (Rle_dec 10000 hz) as [H2|H2].
  { unfold hzToCanvasX. cbn [values nth length Nat.sub].
    rewrite Rleb_false by lra. rewrite Rleb_true by assumption. lra. }
  destruct (hzToCanvasX_seg hz w) as (j & Hj & Hl & ->); try lra.
  pose proof (seg_ratio j _ Hj Hl) as Hr.
  pose proof (edge_range j w Hw ltac:(lia)).
  pose proof (edge_range (j + 1) w Hw ltac:(lia)).
  pose proof (edge_mono j (j + 1) w Hw ltac:(lia)).
  split; nra.
Qed.

Lemma hzToCanvasX_mono hz1 hz2 w :
  0 <= w -> hz1 <= hz2 -> hzToCanvasX hz1 w <= hzToCanvasX hz2 w.
Proof.
  intros Hw Hle.
  destruct (Rle_dec hz1 1) as [H1|H1].
  { rewrite (hzToCanvasX_low hz1) by assumption.
    apply hzToCanvasX_bounds; assumption. }
  destruct (Rle_dec 10000 hz2) as [H2|H2].
  { assert (Hw2 : hzToCanvasX hz2 w = w).
    { unfold hzToCanvasX. cbn [values nth length Nat.sub].
      rewrite Rleb_false by lra. now rewrite Rleb_true. }
    rewrite Hw2. apply hzToCanvasX_bounds; assumption. }
  destruct (hzToCanvasX_seg hz1 w) as (j1 & Hj1 & Hl1 & ->); try lra.
  destruct (hzToCanvasX_seg hz2 w) as (j2 & Hj2 & Hl2 & ->); try lra.
  pose proof (log10_le hz1 hz2 ltac:(lra) Hle) as Hlog.
  pose proof (seg_ratio j1 _ Hj1 Hl1) as Hr1.
  pose proof (seg_ratio j2 _ Hj2 Hl2) as Hr2.
  pose proof (edge_mono j1 (j1 + 1) w Hw ltac:(lia)) as Hd1.
  pose proof (edge_mono j2 (j2 + 1) w Hw ltac:(lia)) as Hd2.
  destruct (Nat.lt_trichotomy j1 j2) as [Hlt|[Heq|Hgt]].
  - pose proof (edge_mono (j1 + 1) j2 w Hw ltac:(lia)). nra.
  - subst j2.
    pose proof (logFreqs_incr j1 Hj1) as Hinc. rewrite <- Nat.add_1_r in Hinc.
    assert (Hrr : (log10 hz1 - nth j1 logFreqs 0) /
                  (nth (j1 + 1) logFreqs 0 - nth j1 logFreqs 0) <=
                  (log10 hz2 - nth j1 logFreqs 0) /
                  (nth (j1 + 1) logFreqs 0 - nth j1 logFreqs 0)).
    { unfold Rdiv. apply Rmult_le_compat_r; [|lra].
      left. apply Rinv_0_lt_compat. lra. }
    nra.
  - exfalso.
    pose proof (logFreqs_mono (j2 + 1) j1 ltac:(lia) ltac:(lia)). lra.
Qed.

Lemma hzToCanvasX_high hz w : 10000 <= hz -> hzToCanvasX hz w = w.
Proof.
  intros H. unfold hzToCanvasX. cbn [values nth length Nat.sub].
  rewrite Rleb_false by lra. now rewrite Rleb_true.
Qed.

Ltac breakpoint' :=
  cbn [logFreqs values map nth];
  repeat (rewrite Reqb_true by reflexivity);
  repeat (rewrite Reqb_false by lra).

Lemma value_log i :
  (1 <= i <= 14)%nat ->
  nth i logFreqs 0 = log10 (nth i values 0) /\ 1 < nth i values 0 <= 10000.
Proof.
  intros Hi. destruct i as [|i]; [lia|].
  do 14 (destruct i as [|i];
         [breakpoint'; cbn [values nth]; split; [reflexivity | lra]|]).
  lia.
Qed.

Lemma hz_for_at_breakpoint i w :
  (1 <= i <= 14)%nat -> hz_for 14 0 (nth i logFreqs 0) w = edge i w.
Proof.
  intros Hi.
  pose proof (logFreqs_incr (i - 1) ltac:(lia)) as Hinc.
  replace (S (i - 1)) with i in Hinc by lia.
  rewrite (hz_for_spec 14 0 (i - 1) _ w eq_refl ltac:(lia)).
  - replace (i - 1 + 1)%nat with i by lia. field. lra.
  - replace (i - 1 + 1)%nat with i by lia. lra.
Qed.

Lemma hzToCanvasX_at_breakpoint i w :
  (i <= 14)%nat -> hzToCanvasX (nth i values 0) w = edge i w.
Proof.
  intros Hi. destruct (Nat.eq_dec i 0) as [->|H0].
  { rewrite edge_0. apply hzToCanvasX_low. cbn [values nth]. lra. }
  destruct (value_log i ltac:(lia)) as [Hlog Hv].
  destruct (Nat.eq_dec i 14) as [->|H14].
  { rewrite edge_14. apply hzToCanvasX_high. cbn [values nth]. lra. }
  assert (Hlt : nth i values 0 < 10000).
  { pose proof (logFreqs_incr 13 ltac:(lia)) as H13.
    pose proof (logFreqs_mono i 13 ltac:(lia) ltac:(lia)) as Hm.
    rewrite logFreqs_last, Hlog in *.
    destruct (Rlt_dec (nth i values 0) 10000) as [|Hn]; [assumption|].
    exfalso. assert (Heq : nth i values 0 = 10000) by lra.
    rewrite Heq in Hm. lra. }
  rewrite hzToCanvasX_mid by lra. rewrite <- Hlog.
  apply hz_for_at_breakpoint. lia.
Qed.

(** canvasXToHz of the coordinate hzToCanvasX gives, between the clamps. *)
Lemma canvasXToHz_hzToCanvasX hz w :
  0 < w -> 1 < hz -> hz < 10000 ->
  canvasXToHz (hzToCanvasX hz w) w = hz.
Proof.
  intros Hw H1 H2.
  destruct (hzToCanvasX_seg hz w H1 H2) as (j & Hj & Hl & Hx).
  pose proof (seg_ratio j _ Hj Hl) as Hr.
  set (rho := (log10 hz - nth j logFreqs 0) /
              (nth (j + 1) logFreqs 0 - nth j logFreqs 0)) in *.
  pose proof (edge_S j w Hw) as Hd.
  pose proof (edge_range j w ltac:(lra) ltac:(lia)) as He.
  pose proof (edge_range (j + 1) w ltac:(lra) ltac:(lia)) as He1.
  pose proof (logFreqs_incr j Hj) as Hinc. rewrite <- Nat.add_1_r in Hinc.
  assert (Hrho : log10 hz = nth j logFreqs 0 +
                 rho * (nth (j + 1) logFreqs 0 - nth j logFreqs 0)).
  { unfold rho. field. lra. }
  assert (Hxw : 0 < hzToCanvasX hz w < w).
  { rewrite Hx. split; [nra|].
    destruct (Nat.eq_dec j 13) as [->|Hne].
    - pose proof (log10_below_last hz ltac:(lra) H2) as Hlast.
      assert (Hrho1 : rho < 1).
      { destruct (Rlt_dec rho 1) as [|Hn]; [assumption|]. exfalso.
        assert (rho = 1) by lra.
        change (13 + 1)%nat with 14%nat in *. nra. }
      change (13 + 1)%nat with 14%nat in *. rewrite edge_14 in *. nra.
    - pose proof (edge_lt (j + 1) 14 w Hw ltac:(lia)) as Hlt.
      rewrite edge_14 in Hlt. nra. }
  destruct (canvasXToHz_interior _ w Hw Hxw)
    as (j' & r' & Hj' & Hr' & Hxe & _ & ->).
  pose proof (edge_S j' w Hw) as Hd'.
  assert (Hjj : j' = j).
  { destruct (Nat.lt_trichotomy j' j) as [Hlt|[Heq|Hgt]]; [|assumption|].
    - pose proof (edge_mono (j' + 1) j w ltac:(lra) ltac:(lia)).
      rewrite Hx in Hxe. nra.
    - pose proof (edge_mono (j + 1) j' w ltac:(lra) ltac:(lia)).
      rewrite Hx in Hxe. nra. }
  subst j'.
  assert (Hrr : r' = rho).
  { rewrite Hx in Hxe.
    assert (Heq : (r' - rho) * (edge (j + 1) w - edge j w) = 0) by lra.
    apply Rmult_integral in Heq. destruct Heq; lra. }
  rewrite Hrr, <- Hrho. apply pow10_log10. lra.
Qed.

Lemma canvasXToHz_clamps x w :
  (x <= 0 -> canvasXToHz x w = 0) /\
  (0 < x -> w <= x -> canvasXToHz x w = 10000).
Proof.
  unfold canvasXToHz. cbn [values nth length Nat.sub]. split.
  - intros H. now rewrite Rleb_true.
  - intros H0 H1. rewrite Rleb_false by lra. now rewrite Rleb_true.
Qed.

(** The exponent canvasXToHz raises 10 to grows with the coordinate. *)
Lemma canvasXToHz_interior_lt x y w :
  0 < w -> 0 < x -> x < y -> y < w ->
  1 < canvasXToHz x w /\ canvasXToHz x w < canvasXToHz y w /\
  canvasXToHz y w < 10000.
Proof.
  intros Hw Hx Hxy Hy.
  destruct (canvasXToHz_interior x w Hw ltac:(lra))
    as (j1 & r1 & Hj1 & Hr1 & Hx1 & _ & ->).
  destruct (canvasXToHz_interior y w Hw ltac:(lra))
    as (j2 & r2 & Hj2 & Hr2 & Hx2 & Hlast & ->).
  pose proof (logFreqs_incr j1 Hj1) as Hi1. rewrite <- Nat.add_1_r in Hi1.
  pose proof (logFreqs_incr j2 Hj2) as Hi2. rewrite <- Nat.add_1_r in Hi2.
  pose proof (edge_S j1 w Hw) as Hd1.
  pose proof (edge_S j2 w Hw) as Hd2.
  pose proof (logFreqs_nonneg j1 ltac:(lia)) as Hn1.
  split; [|split].
  - rewrite <- pow10_0. apply pow10_incr. nra.
  - apply pow10_incr.
    destruct (Nat.lt_trichotomy j1 j2) as [Hlt|[Heq|Hgt]].
    + pose proof (logFreqs_mono (j1 + 1) j2 ltac:(lia) ltac:(lia)). nra.
    + subst j2.
      assert (Hr : r1 < r2).
      { destruct (Rlt_dec r1 r2) as [|Hn]; [assumption|]. exfalso.
        assert (r2 <= r1) by lra. nra. }
      nra.
    + exfalso.
      pose proof (edge_mono (j2 + 1) j1 w ltac:(lra) ltac:(lia)). nra.
  - apply pow10_below_last.
    destruct Hlast as [Hr|Hj].
    + pose proof (logFreqs_mono (j2 + 1) 14 ltac:(lia) ltac:(lia)). nra.
    + pose proof (logFreqs_mono (j2 + 1) 13 ltac:(lia) ltac:(lia)).
      pose proof (logFreqs_incr 13 ltac:(lia)). nra.
Qed.

Lemma canvasXToHz_interior_range x w :
  0 < w -> 0 < x -> x < w -> 1 < canvasXToHz x w < 10000.
Proof.
  intros Hw Hx Hxw.
  destruct (canvasXToHz_interior x w Hw ltac:(lra))
    as (j & r & Hj & Hr & Hxe & Hlast & ->).
  pose proof (logFreqs_incr j Hj) as Hi. rewrite <- Nat.add_1_r in Hi.
  pose proof (logFreqs_nonneg j ltac:(lia)) as Hn.
  split.
  - rewrite <- pow10_0. apply pow10_incr. nra.
  - apply pow10_below_last.
    destruct Hlast as [Hr1|Hj1].
    + pose proof (logFreqs_mono (j + 1) 14 ltac:(lia) ltac:(lia)). nra.
    + pose proof (logFreqs_mono (j + 1) 13 ltac:(lia) ltac:(lia)).
      pose proof (logFreqs_incr 13 ltac:(lia)). nra.
Qed.

Lemma canvasXToHz_strict x y w :
  0 < w -> 0 <= x -> x < y -> y <= w ->
  0 <= canvasXToHz x w /\ canvasXToHz x w < canvasXToHz y w /\
  canvasXToHz y w <= 10000.
Proof.
  intros Hw Hx Hxy Hy.
  destruct (canvasXToHz_clamps x w) as [Cx0 _].
  destruct (canvasXToHz_clamps y w) as [_ Cyw].
  destruct (Req_dec_T x 0) as [->|Hx0]; destruct (Req_dec_T y w) as [->|Hyw].
  - rewrite Cx0, Cyw by lra. lra.
  - rewrite Cx0 by lra.
    pose proof (canvasXToHz_interior_range y w Hw ltac:(lra) ltac:(lra)). lra.
  - rewrite Cyw by lra.
    pose proof (canvasXToHz_interior_range x w Hw ltac:(lra) ltac:(lra)). lra.
  - pose proof (canvasXToHz_interior_lt x y w Hw ltac:(lra) Hxy ltac:(lra)). lra.
Qed.

End FrequencyMapMore.

(** ** Frequency axis: placement *)

(** X1. hzToCanvasX puts every frequency inside the plot, between 0 and
    the width, and never moves left as the frequency grows (width >= 0). *)
Theorem hzToCanvasX_monotone_within_plot (hz1 hz2 w : R) :
  0 <= w -> hz1 <= hz2 ->
  0 <= FrequencyMap.hzToCanvasX hz1 w /\
  FrequencyMap.hzToCanvasX hz1 w <= FrequencyMap.hzToCanvasX hz2 w /\
  FrequencyMap.hzToCanvasX hz2 w <= w.
Proof.
  intros Hw Hle.
  pose proof (hzToCanvasX_bounds hz1 w Hw).
  pose proof (hzToCanvasX_bounds hz2 w Hw).
  pose proof (hzToCanvasX_mono hz1 hz2 w Hw Hle).
  lra.
Qed.

Lemma hzToCanvasX_monotone_witness :
  0 <= FrequencyMap.hzToCanvasX 50 140 /\
  FrequencyMap.hzToCanvasX 50 140 <= FrequencyMap.hzToCanvasX 500 140 /\
  FrequencyMap.hzToCanvasX 500 140 <= 140.
Proof. apply (hzToCanvasX_monotone_within_plot 50 500 140); lra. Defined.

(** X2. With a Nyquist frequency of at least 10 kHz (any sample rate from
    20 kHz up, the 48 kHz default included) getGridFrequencyValues keeps
    all fifteen configured frequencies, and hzToCanvasX places the i-th of
    them at i/14 of the width: the grid lines are evenly spaced. *)
Theorem grid_lines_evenly_spaced (sampleRate : option R) (w : R) (i : nat) :
  10000 <= nyquist sampleRate -> (i < 15)%nat ->
  getGridFrequencyValues sampleRate = FrequencyMap.values /\
  FrequencyMap.hzToCanvasX (nth i (getGridFrequencyValues sampleRate) 0) w =
    INR i / 14 * w.
Proof.
  intros Hny Hi.
  assert (Hall : getGridFrequencyValues sampleRate = FrequencyMap.values).
  { unfold getGridFrequencyValues, FrequencyMap.values. cbn [filter].
    rewrite !Rleb_true by lra. reflexivity. }
  split; [exact Hall|].
  rewrite Hall, hzToCanvasX_at_breakpoint by lia.
  unfold edge. now rewrite INR14.
Qed.

Lemma grid_lines_evenly_spaced_witness :
  getGridFrequencyValues None = FrequencyMap.values /\
  FrequencyMap.hzToCanvasX (nth 7 (getGridFrequencyValues None) 0) 280 =
    INR 7 / 14 * 280.
Proof.
  apply (grid_lines_evenly_spaced None 280 7); [unfold nyquist; lra | lia].
Defined.

(** X3. Going from a frequency to its x coordinate and back: frequencies
    above 1 Hz and up to 10 kHz come back unchanged, everything from
    10 kHz up comes back as 10 kHz, and everything up to 1 Hz (1 Hz itself
    included) comes back as 0. *)
Theorem canvasXToHz_after_hzToCanvasX (hz w : R) :
  0 < w ->
  FrequencyMap.canvasXToHz (FrequencyMap.hzToCanvasX hz w) w =
    if Rleb hz 1 then 0 else Rmin hz 10000.
Proof.
  intros Hw. destruct (Rle_dec hz 1) as [H1|H1].
  - rewrite Rleb_true by assumption. rewrite hzToCanvasX_low by assumption.
    apply canvasXToHz_clamps. lra.
  - rewrite Rleb_false by lra. destruct (Rlt_dec hz 10000) as [H2|H2].
    + rewrite Rmin_left by lra. apply canvasXToHz_hzToCanvasX; lra.
    + rewrite Rmin_right by lra. rewrite hzToCanvasX_high by lra.
      apply canvasXToHz_clamps; lra.
Qed.

Lemma canvasXToHz_after_hzToCanvasX_witness :
  FrequencyMap.canvasXToHz (FrequencyMap.hzToCanvasX 440 140) 140 =
    if Rleb 440 1 then 0 else Rmin 440 10000.
Proof. apply (canvasXToHz_after_hzToCanvasX 440 140). lra. Defined.

(** X4. Across the plot canvasXToHz is strictly increasing and stays
    between 0 and 10 kHz: two different x coordinates never give the same
    frequency. *)
Theorem canvasXToHz_strictly_increasing (x y w : R) :
  0 < w -> 0 <= x -> x < y -> y <= w ->
  0 <= FrequencyMap.canvasXToHz x w /\
  FrequencyMap.canvasXToHz x w < FrequencyMap.canvasXToHz y w /\
  FrequencyMap.canvasXToHz y w <= 10000.
Proof. apply canvasXToHz_strict. Qed.

Lemma canvasXToHz_strictly_increasing_witness :
  0 <= FrequencyMap.canvasXToHz 10 140 /\
  FrequencyMap.canvasXToHz 10 140 < FrequencyMap.canvasXToHz 20 140 /\
  FrequencyMap.canvasXToHz 20 140 <= 10000.
Proof. apply (canvasXToHz_strictly_increasing 10 20 140); lra. Defined.

(** X5. hzToCanvasXFromBin, given at least one bin: bin 0 is drawn at
    x = 0, later bins are never drawn left of earlier ones, and no bin
    leaves the plot. *)
Theorem hzToCanvasXFromBin_ordered
    (sampleRate : option R) (i j totalBins : nat) (w : R) :
  0 <= w -> (0 < totalBins)%nat -> 0 <= nyquist sampleRate -> (i <= j)%nat ->
  hzToCanvasXFromBin sampleRate 0 totalBins w = 0 /\
  0 <= hzToCanvasXFromBin sampleRate i totalBins w /\
  hzToCanvasXFromBin sampleRate i totalBins w <=
    hzToCanvasXFromBin sampleRate j totalBins w /\
  hzToCanvasXFromBin sampleRate j totalBins w <= w.
Proof.
  intros Hw Hn Hny Hij. unfold hzToCanvasXFromBin. cbv zeta.
  assert (HN : 0 < INR totalBins) by (apply lt_0_INR; lia).
  assert (Hle : INR i <= INR j) by (apply le_INR; lia).
  assert (Hinv : 0 < / INR totalBins) by (apply Rinv_0_lt_compat; exact HN).
  split; [|split; [|split]].
  - apply hzToCanvasX_low. cbn [INR]. unfold Rdiv. rewrite !Rmult_0_l. lra.
  - apply hzToCanvasX_bounds. exact Hw.
  - apply hzToCanvasX_mono; [exact Hw|]. unfold Rdiv.
    apply Rmult_le_compat_r; [exact Hny|].
    apply Rmult_le_compat_r; [lra | exact Hle].
  - apply hzToCanvasX_bounds. exact Hw.
Qed.

Lemma hzToCanvasXFromBin_ordered_witness :
  hzToCanvasXFromBin None 0 1024 140 = 0 /\
  0 <= hzToCanvasXFromBin None 3 1024 140 /\
  hzToCanvasXFromBin None 3 1024 140 <= hzToCanvasXFromBin None 4 1024 140 /\
  hzToCanvasXFromBin None 4 1024 140 <= 140.
Proof.
  apply (hzToCanvasXFromBin_ordered None 3 4 1024 140);
    [lra | lia | unfold nyquist; lra | lia].
Defined.

(** ** Level axis and volume gauge *)

Lemma clamp_range a b x : a <= b -> a <= Rmax a (Rmin b x) <= b.
Proof.
  intros Hab. unfold Rmin. destruct (Rle_dec b x);
    unfold Rmax; destruct (Rle_dec a _); lra.
Qed.

Lemma clamp_mono a b x y :
  a <= b -> x <= y -> Rmax a (Rmin b x) <= Rmax a (Rmin b y).
Proof.
  intros Hab Hxy. unfold Rmin. destruct (Rle_dec b x), (Rle_dec b y);
    unfold Rmax; repeat destruct (Rle_dec a _); lra.
Qed.

Lemma clamp_id a b x : a <= x <= b -> Rmax a (Rmin b x) = x.
Proof.
  intros H. unfold Rmin. destruct (Rle_dec b x);
    unfold Rmax; destruct (Rle_dec a _); lra.
Qed.

Lemma dbToY_floor db h : db <= -120 -> dbToY db h = h.
Proof.
  intros H. unfold dbToY. cbv zeta.
  assert (Hn : (db - -120) / (0 - -120) <= 0).
  { unfold Rdiv. replace (/ (0 - -120)) with (/ 120) by (f_equal; lra). lra. }
  rewrite Rmin_right by lra. rewrite Rmax_left by lra. lra.
Qed.

Lemma calculateVolumeFromY_range y h : 0 <= calculateVolumeFromY y h <= 1000.
Proof.
  unfold calculateVolumeFromY. cbv zeta.
  destruct (Rleb (1 - y / h) 0.5).
  - pose proof (clamp_range 0 100 ((1 - y / h) * 2 * 100)). lra.
  - destruct (Rleb (1 - y / h) 0.75).
    + pose proof (clamp_range 100 500 (100 + (1 - y / h - 0.5) / 0.25 * 400)). lra.
    + pose proof (clamp_range 500 1000 (500 + (1 - y / h - 0.75) / 0.25 * 500)). lra.
Qed.

Lemma calculateVolumeFromY_antitone y1 y2 h :
  0 < h -> y1 <= y2 -> calculateVolumeFromY y2 h <= calculateVolumeFromY y1 h.
Proof.
  intros Hh Hy.
  assert (Hn : 1 - y2 / h <= 1 - y1 / h).
  { assert (y1 / h <= y2 / h); [|lra].
    unfold Rdiv. apply Rmult_le_compat_r; [|exact Hy].
    left. now apply Rinv_0_lt_compat. }
  unfold calculateVolumeFromY. cbv zeta.
  set (n1 := 1 - y1 / h) in *. set (n2 := 1 - y2 / h) in *.
  pose proof (clamp_range 0 100 (n1 * 2 * 100)).
  pose proof (clamp_range 0 100 (n2 * 2 * 100)).
  pose proof (clamp_range 100 500 (100 + (n1 - 0.5) / 0.25 * 400)).
  pose proof (clamp_range 100 500 (100 + (n2 - 0.5) / 0.25 * 400)).
  pose proof (clamp_range 500 1000 (500 + (n1 - 0.75) / 0.25 * 500)).
  pose proof (clamp_range 500 1000 (500 + (n2 - 0.75) / 0.25 * 500)).
  destruct (Rle_dec n1 0.5) as [A1|A1]; destruct (Rle_dec n2 0.5) as [A2|A2];
    [rewrite !(Rleb_true _ 0.5) by assumption
    |exfalso; lra
    |rewrite (Rleb_false n1 0.5), (Rleb_true n2 0.5) by lra
    |rewrite !(Rleb_false _ 0.5) by lra].
  - apply clamp_mono; lra.
  - destruct (Rleb n1 0.75); lra.
  - destruct (Rle_dec n1 0.75) as [B1|B1]; destruct (Rle_dec n2 0.75) as [B2|B2];
      [rewrite !(Rleb_true _ 0.75) by assumption
      |exfalso; lra
      |rewrite (Rleb_false n1 0.75), (Rleb_true n2 0.75) by lra
      |rewrite !(Rleb_false _ 0.75) by lra].
    + apply clamp_mono; lra.
    + lra.
    + apply clamp_mono; lra.
Qed.

(** X6. dbToY keeps every level on the canvas, between 0 and the height,
    and draws louder levels higher up (smaller y), for a height >= 0. *)
Theorem dbToY_on_canvas_and_ordered (db1 db2 h : R) :
  0 <= h -> db1 <= db2 ->
  0 <= dbToY db2 h /\ dbToY db2 h <= dbToY db1 h /\ dbToY db1 h <= h.
Proof.
  intros Hh Hdb. unfold dbToY. cbv zeta.
  pose proof (clamp_range 0 1 ((db1 - -120) / (0 - -120)) ltac:(lra)) as H1.
  pose proof (clamp_range 0 1 ((db2 - -120) / (0 - -120)) ltac:(lra)) as H2.
  pose proof (clamp_mono 0 1 ((db1 - -120) / (0 - -120))
                ((db2 - -120) / (0 - -120)) ltac:(lra)) as Hm.
  assert (Hle : (db1 - -120) / (0 - -120) <= (db2 - -120) / (0 - -120)).
  { unfold Rdiv. apply Rmult_le_compat_r; [|lra].
    left. apply Rinv_0_lt_compat. lra. }
  specialize (Hm Hle).
  set (c1 := Rmax 0 (Rmin 1 ((db1 - -120) / (0 - -120)))) in *.
  set (c2 := Rmax 0 (Rmin 1 ((db2 - -120) / (0 - -120)))) in *.
  nra.
Qed.

Lemma dbToY_on_canvas_witness :
  0 <= dbToY (-30) 200 /\ dbToY (-30) 200 <= dbToY (-60) 200 /\
  dbToY (-60) 200 <= 200.
Proof. apply (dbToY_on_canvas_and_ordered (-60) (-30) 200); lra. Defined.

(** X7. Right after resetMaxPeaks every peak bin is drawn on the bottom
    edge of the plot: dbToY of the stored value is the height. *)
Theorem reset_peaks_drawn_at_bottom (s : Session) (p : list R) (i : nat) (v h : R) :
  peakBins (resetMaxPeaks s) = Some p -> nth_error p i = Some v ->
  dbToY v h = h.
Proof.
  intros Hp Hi. apply dbToY_floor.
  pose proof (resetMaxPeaks_floor s p i v Hp Hi) as Hv.
  unfold floorDb in Hv. lra.
Qed.

Lemma reset_peaks_drawn_at_bottom_witness : dbToY floorDb 200 = 200.
Proof.
  apply (reset_peaks_drawn_at_bottom
           (set_peakBins (Some [-30; -40]) initial) [floorDb; floorDb] 1 floorDb 200);
    reflexivity.
Defined.

(** X8. calculateVolumeFromY answers with a percentage between 0 and 1000
    wherever the pointer is, and a pointer further down the gauge never
    gives a larger percentage (gauge height > 0). *)
Theorem calculateVolumeFromY_bounded_antitone (y1 y2 h : R) :
  0 < h -> y1 <= y2 ->
  0 <= calculateVolumeFromY y2 h /\
  calculateVolumeFromY y2 h <= calculateVolumeFromY y1 h /\
  calculateVolumeFromY y1 h <= 1000.
Proof.
  intros Hh Hy.
  pose proof (calculateVolumeFromY_range y1 h).
  pose proof (calculateVolumeFromY_range y2 h).
  pose proof (calculateVolumeFromY_antitone y1 y2 h Hh Hy).
  lra.
Qed.

Lemma calculateVolumeFromY_bounded_witness :
  0 <= calculateVolumeFromY 150 200 /\
  calculateVolumeFromY 150 200 <= calculateVolumeFromY 20 200 /\
  calculateVolumeFromY 20 200 <= 1000.
Proof. apply (calculateVolumeFromY_bounded_antitone 20 150 200); lra. Defined.

(** X9. The gauge is filled up to the pointer: for a pointer at y inside a
    gauge of height h, the fill height drawVolumeGauge computes for the
    percentage calculateVolumeFromY returns is h - y. *)
Theorem gauge_fill_reaches_pointer (y h : R) :
  0 < h -> 0 <= y <= h ->
  gaugeFillHeight (calculateVolumeFromY y h) h = h - y.
Proof.
  intros Hh Hy.
  assert (Hq : 0 <= y / h <= 1).
  { split.
    - apply Rmult_le_pos; [lra | left; now apply Rinv_0_lt_compat].
    - apply (Rmult_le_reg_r h); [exact Hh|].
      unfold Rdiv. rewrite Rmult_assoc, Rinv_l by lra. lra. }
  assert (Hyh : y = y / h * h) by (field; lra).
  unfold calculateVolumeFromY, gaugeFillHeight. cbv zeta.
  set (n := 1 - y / h) in *.
  assert (Hn : h - y = n * h) by (unfold n; lra).
  assert (Hn01 : 0 <= n <= 1) by (unfold n; lra).
  rewrite Hn. clearbody n. clear Hn Hyh.
  destruct (Rle_dec n 0.5) as [A|A].
  - rewrite (Rleb_true n) by assumption.
    rewrite clamp_id by lra.
    rewrite Rleb_true by lra. field.
  - rewrite (Rleb_false n 0.5) by lra.
    destruct (Rle_dec n 0.75) as [B|B].
    + rewrite (Rleb_true n) by assumption.
      rewrite clamp_id by lra.
      rewrite Rleb_false by lra. rewrite Rleb_true by lra.
      replace 0.5 with (1 / 2) by lra. replace 0.25 with (1 / 4) by lra. field.
    + rewrite (Rleb_false n 0.75) by lra.
      rewrite clamp_id by lra.
      rewrite Rleb_false by lra. rewrite Rleb_false by lra.
      replace 0.75 with (3 / 4) by lra. replace 0.25 with (1 / 4) by lra. field.
Qed.

Lemma gauge_fill_reaches_pointer_witness :
  gaugeFillHeight (calculateVolumeFromY 30 200) 200 = 200 - 30.
Proof. apply (gauge_fill_reaches_pointer 30 200); lra. Defined.

(** X10. The other way round: for a percentage v between 0 and 1000,
    pointing at the top of the fill drawVolumeGauge draws for v gives v
    back. *)
Theorem pointer_at_fill_gives_volume (v h : R) :
  0 < h -> 0 <= v <= 1000 ->
  calculateVolumeFromY (h - gaugeFillHeight v h) h = v.
Proof.
  intros Hh Hv.
  unfold calculateVolumeFromY, gaugeFillHeight. cbv zeta.
  destruct (Rle_dec v 100) as [A|A].
  - rewrite (Rleb_true v) by assumption.
    replace (1 - (h - v / 100 * (h / 2)) / h) with (v / 200) by (field; lra).
    rewrite Rleb_true by lra. rewrite clamp_id by lra. field.
  - rewrite (Rleb_false v 100) by lra.
    destruct (Rle_dec v 500) as [B|B].
    + rewrite (Rleb_true v) by assumption.
      replace (1 - (h - (h / 2 + (v - 100) / 400 * (h / 4))) / h)
        with (1 / 2 + (v - 100) / 1600) by (field; lra).
      rewrite Rleb_false by lra. rewrite Rleb_true by lra.
      rewrite clamp_id by lra.
      replace 0.5 with (1 / 2) by lra. replace 0.25 with (1 / 4) by lra. field.
    + rewrite (Rleb_false v 500) by lra.
      replace (1 - (h - (h * 3 / 4 + (v - 500) / 500 * (h / 4))) / h)
        with (3 / 4 + (v - 500) / 2000) by (field; lra).
      rewrite Rleb_false by lra. rewrite Rleb_false by lra.
      rewrite clamp_id by lra.
      replace 0.75 with (3 / 4) by lra. replace 0.25 with (1 / 4) by lra. field.
Qed.

Lemma pointer_at_fill_gives_volume_witness :
  calculateVolumeFromY (200 - gaugeFillHeight 250 200) 200 = 250.
Proof. apply (pointer_at_fill_gives_volume 250 200); lra. Defined.

(** X11. Setting the volume from the gauge: whatever the pointer position,
    volumeLevel ends between 0 and 10; and when a gain node and a current
    source exist, the gain is that level with the output enabled and 0
    with it disabled. *)
Theorem gauge_volume_level_bounded (y h : R) (s : Session) :
  0 < h ->
  let s' := updateVolume (calculateVolumeFromY y h) s in
  0 <= volumeLevel s' <= 10 /\
  outputEnabled s' = outputEnabled s /\
  (gainOut s <> None -> currentSourceNode s <> None ->
   gainOut s' = Some (if outputEnabled s then volumeLevel s' else 0)).
Proof.
  intros Hh. cbv zeta.
  pose proof (calculateVolumeFromY_range y h) as Hr.
  explode s. unfold updateVolume, updateCurrentVolume, gainFor. cbn.
  destruct g_gainOut0, s_currentSourceNode0; cbn;
    (split; [lra | split; [reflexivity|]]); intros; congruence.
Qed.

Lemma gauge_volume_level_bounded_witness :
  0 <= volumeLevel (updateVolume (calculateVolumeFromY 30 200) initial) <= 10.
Proof. apply (gauge_volume_level_bounded 30 200 initial). lra. Defined.

(** ** Peak hold: allocation, floor and running maximum *)

Lemma nth_snapshot (snapshot : nat -> R) n i :
  (i < n)%nat -> nth i (map snapshot (seq 0 n)) 0 = snapshot i.
Proof.
  intros Hi.
  rewrite (nth_indep _ 0 (snapshot 0%nat)) by (now rewrite length_map, length_seq).
  rewrite map_nth, seq_nth by assumption. reflexivity.
Qed.

Lemma nth_error_floor n i : (i < n)%nat -> nth_error (repeat floorDb n) i = Some floorDb.
Proof.
  revert i. induction n as [|n IH]; intros [|i] Hi; cbn; try lia; auto.
  apply IH. lia.
Qed.

(** One frame on an array of the right length. *)
Lemma drawLoop_bin snapshot s fft p i v :
  audioCtx s = true -> visualAnalyser s = Some fft ->
  peakBins s = Some p -> length p = frequencyBinCount fft ->
  nth_error p i = Some v ->
  exists q, peakBins (drawLoop snapshot s) = Some q /\
            length q = frequencyBinCount fft /\
            nth_error q i = Some (Rmax (snapshot i) v) /\
            audioCtx (drawLoop snapshot s) = true /\
            visualAnalyser (drawLoop snapshot s) = Some fft.
Proof.
  intros Hctx Hva Hp Hlen Hi.
  unfold drawLoop, drawSpectrum. rewrite Hctx, Hva, Hp.
  remember (frequencyBinCount fft) as n eqn:Hn.
  rewrite Hlen, Nat.eqb_refl.
  assert (Hin : (i < n)%nat).
  { rewrite <- Hlen. apply nth_error_Some. congruence. }
  eexists. split; [reflexivity|]. split; [|split; [|split]].
  - now apply peak_for_length.
  - rewrite (peak_for_max n 0 n _ p Hlen ltac:(lia) i v ltac:(lia) Hi).
    now rewrite nth_snapshot.
  - exact Hctx.
  - exact Hva.
Qed.

Lemma Forall_store (Q : R -> Prop) i v a :
  Forall Q a -> Q v -> Forall Q (store i v a).
Proof.
  intros Ha Hv. revert i.
  induction Ha as [|h t Hh Ht IH]; intros [|i]; cbn; auto.
Qed.

Lemma Forall_floor_repeat n : Forall (fun v => floorDb <= v) (repeat floorDb n).
Proof. induction n; cbn; constructor; auto. lra. Qed.

Lemma nth_floor p i :
  Forall (fun v => floorDb <= v) p -> floorDb <= nth i p 0.
Proof.
  intros Hp. destruct (nth_in_or_default i p 0) as [Hin| ->].
  - rewrite Forall_forall in Hp. now apply Hp.
  - unfold floorDb. lra.
Qed.

Lemma peak_for_floor k : forall i n fd p,
  Forall (fun v => floorDb <= v) p ->
  Forall (fun v => floorDb <= v) (peak_for k i n fd p).
Proof.
  induction k as [|k IH]; intros i n fd p Hp; cbn [peak_for]; [assumption|].
  apply IH.
  assert (Hp2 : Forall (fun v => floorDb <= v)
                  match nth_error p i with
                  | Some _ => p
                  | None => repeat floorDb n
                  end).
  { destruct (nth_error p i); [assumption | apply Forall_floor_repeat]. }
  apply Forall_store; [exact Hp2|].
  pose proof (nth_floor _ i Hp2) as Hn.
  eapply Rle_trans; [exact Hn | apply Rmax_r].
Qed.

Lemma drawLoop_floor snapshot s :
  floored (peakBins s) -> floored (peakBins (drawLoop snapshot s)).
Proof.
  intros Hf. unfold drawLoop.
  destruct (audioCtx s); [|assumption].
  destruct (visualAnalyser s) as [fft|] eqn:Hva; [|assumption].
  unfold drawSpectrum. rewrite Hva.
  intros q Hq. cbn in Hq. injection Hq as <-.
  apply peak_for_floor.
  destruct (peakBins s) as [p|] eqn:Hp; [|apply Forall_floor_repeat].
  destruct (Nat.eqb (length p) (frequencyBinCount fft));
    [now apply Hf | apply Forall_floor_repeat].
Qed.

Lemma step_floor E s e :
  session_ok any_peaks s -> floored (peakBins s) ->
  floored (peakBins (step E s e)).
Proof.
  intros Hok Hf.
  destruct (is_reset e) eqn:Hr.
  - destruct e; try discriminate. destruct button; try discriminate.
    cbn [step]. unfold mousedown.
    match goal with |- context [if ?c then _ else _] => destruct c end;
      [|assumption].
    unfold resetMaxPeaks. destruct (peakBins s) as [p|] eqn:Hp;
      [|now rewrite Hp].
    intros q Hq. cbn in Hq. injection Hq as <-.
    apply Forall_forall. intros x Hx. apply in_map_iff in Hx.
    destruct Hx as (_ & <- & _). lra.
  - destruct e;
      try (rewrite step_peaks_kept; [assumption | assumption | assumption | discriminate]).
    cbn [step]. now apply drawLoop_floor.
Qed.

Lemma run_floor E es : forall s,
  session_ok any_peaks s -> floored (peakBins s) ->
  floored (peakBins (run E s es)).
Proof.
  induction es as [|e es IH]; intros s Hok Hf; cbn; [assumption|].
  apply IH; [now apply step_ok | now apply step_floor].
Qed.

(** X12. In every state the script can reach, the peak-hold array, once it
    exists, has 1024 entries (half of the FFT size 2048) and no entry is
    below -120 dB. *)
Theorem reachable_peaks_sized_and_floored (E : Env) (evs : list event) (p : list R) :
  peakBins (run E initial evs) = Some p ->
  length p = 1024%nat /\ Forall (fun v => -120 <= v) p.
Proof.
  intros Hp. split.
  - destruct (reachable_ok E evs) as [[_ [HP _]] _].
    destruct (HP p Hp) as [_ Hlen]. exact Hlen.
  - assert (Hf : floored (peakBins (run E initial evs))).
    { apply run_floor; [apply initial_ok | intros q Hq; discriminate]. }
    exact (Hf p Hp).
Qed.

Lemma reachable_peaks_witness :
  let n := frequencyBinCount FFT_SIZE in
  let p := peak_for n 0 n (map (fun _ => -50) (seq 0 n)) (repeat floorDb n) in
  length p = 1024%nat /\ Forall (fun v => -120 <= v) p.
Proof.
  cbv zeta.
  apply (reachable_peaks_sized_and_floored bareEnv
           [StartClick true; AnimationFrame (fun _ => -50)]).
  unfold run. cbn [fold_left]. step1. reflexivity.
Defined.

(** X13. When there is no peak array yet, or its length is not the bin
    count of the analyser, drawSpectrum starts a fresh one: it has one
    entry per bin and bin i holds the larger of the frame's sample and
    -120; nothing of an old array survives. *)
Theorem drawSpectrum_starts_fresh_array
    (snapshot : nat -> R) (s : Session) (fft : nat) :
  visualAnalyser s = Some fft ->
  (forall p, peakBins s = Some p -> length p <> frequencyBinCount fft) ->
  exists q, peakBins (drawSpectrum snapshot s) = Some q /\
            length q = frequencyBinCount fft /\
            forall i, (i < frequencyBinCount fft)%nat ->
                      nth_error q i = Some (Rmax (snapshot i) (-120)).
Proof.
  intros Hva Hlen. unfold drawSpectrum. rewrite Hva.
  remember (frequencyBinCount fft) as n eqn:Hn.
  assert (Hfresh : match peakBins s with
                   | Some p => if Nat.eqb (length p) n then p else repeat floorDb n
                   | None => repeat floorDb n
                   end = repeat floorDb n).
  { destruct (peakBins s) as [p|]; [|reflexivity].
    destruct (Nat.eqb_spec (length p) n) as [Heq|]; [|reflexivity].
    exfalso. exact (Hlen p eq_refl Heq). }
  rewrite Hfresh. eexists. split; [reflexivity|]. split.
  - apply peak_for_length, repeat_length.
  - intros i Hi.
    rewrite (peak_for_max n 0 n _ (repeat floorDb n) (repeat_length _ _)
               ltac:(lia) i floorDb ltac:(lia) (nth_error_floor n i Hi)).
    now rewrite nth_snapshot.
Qed.

Lemma drawSpectrum_starts_fresh_witness :
  exists q,
    peakBins (drawSpectrum (fun _ => -50)
                (set_peakBins (Some [-10]) (set_visualAnalyser (Some 4%nat) initial)))
      = Some q /\
    length q = frequencyBinCount 4 /\
    forall i, (i < frequencyBinCount 4)%nat ->
              nth_error q i = Some (Rmax (-50) (-120)).
Proof.
  apply (drawSpectrum_starts_fresh_array (fun _ => -50)
           (set_peakBins (Some [-10]) (set_visualAnalyser (Some 4%nat) initial)) 4).
  - reflexivity.
  - intros p Hp. injection Hp as <-. discriminate.
Defined.

(** X14. Over any sequence of animation frames a peak bin holds the
    running maximum: starting from value v in bin i, after the frames it
    holds the largest of v and the samples the frames had for bin i. *)
Theorem peak_is_running_maximum
    (frames : list (nat -> R)) (s : Session) (fft : nat) (p : list R)
    (i : nat) (v : R) :
  audioCtx s = true -> visualAnalyser s = Some fft ->
  peakBins s = Some p -> length p = frequencyBinCount fft ->
  nth_error p i = Some v ->
  exists q,
    peakBins (fold_left (fun s f => drawLoop f s) frames s) = Some q /\
    nth_error q i = Some (fold_left (fun m f => Rmax (f i) m) frames v).
Proof.
  revert s p v.
  induction frames as [|f fs IH]; intros s p v Hctx Hva Hp Hlen Hi; cbn [fold_left].
  - exists p. split; assumption.
  - destruct (drawLoop_bin f s fft p i v Hctx Hva Hp Hlen Hi)
      as (q & Hq & Hql & Hqi & Hc & Ha).
    exact (IH (drawLoop f s) q (Rmax (f i) v) Hc Ha Hq Hql Hqi).
Qed.

Lemma peak_is_running_maximum_witness :
  let s := set_peakBins (Some [-100; -100])
             (set_visualAnalyser (Some 4%nat) (set_audioCtx true initial)) in
  exists q,
    peakBins (fold_left (fun s f => drawLoop f s)
                [(fun _ => -50); (fun _ => -70)] s) = Some q /\
    nth_error q 1 =
      Some (fold_left (fun m f => Rmax (f 1%nat) m)
              [(fun _ : nat => -50); (fun _ : nat => -70)] (-100)).
Proof.
  cbv zeta.
  apply (peak_is_running_maximum [(fun _ => -50); (fun _ => -70)] _ 4 [-100; -100]);
    reflexivity.
Defined.

(** ** The audio graph: what a rewire touches and what it leaves *)

Lemma Node_eqb_neq a b : a <> b -> Node_eqb a b = false.
Proof.
  intros H. destruct (Node_eqb a b) eqn:E; [|reflexivity].
  apply Node_eqb_eq in E. contradiction.
Qed.

Lemma drop_add_same a b es : drop_edges a (add_edge a b es) = drop_edges a es.
Proof.
  unfold add_edge, drop_edges.
  destruct (existsb (Edge_eqb (a, b)) es); [reflexivity|].
  rewrite filter_app. cbn [filter fst]. rewrite Node_eqb_refl. cbn [negb].
  apply app_nil_r.
Qed.

Lemma drop_add_other a b c es :
  Node_eqb a c = false ->
  drop_edges c (add_edge a b es) = add_edge a b (drop_edges c es).
Proof.
  intros Hac. unfold add_edge.
  change (existsb (Edge_eqb (a, b)) (drop_edges c es))
    with (has_edge a b (drop_edges c es)).
  rewrite has_edge_drop, Hac. cbn [negb andb]. unfold has_edge.
  destruct (existsb (Edge_eqb (a, b)) es); [reflexivity|].
  unfold drop_edges. rewrite filter_app. cbn [filter fst]. now rewrite Hac.
Qed.

Lemma drop_id a es :
  (forall e, In e es -> Node_eqb (fst e) a = false) -> drop_edges a es = es.
Proof.
  intros H. unfold drop_edges. induction es as [|e t IH]; cbn [filter]; [reflexivity|].
  rewrite (H e (or_introl eq_refl)). cbn [negb]. f_equal.
  apply IH. intros e' He'. apply H. now right.
Qed.

Lemma In_drop e a es : In e (drop_edges a es) -> Node_eqb (fst e) a = false /\ In e es.
Proof.
  unfold drop_edges. intros H. apply filter_In in H. destruct H as [Hin Hn].
  split; [|assumption]. now destruct (Node_eqb (fst e) a).
Qed.

(** Nothing leaves a managed node or the current source in [cleared]. *)
Lemma In_cleared e src es :
  In e (cleared src es) ->
  Node_eqb (fst e) (Src src) = false /\ Node_eqb (fst e) Analyser = false /\
  Node_eqb (fst e) GainOut = false /\ Node_eqb (fst e) Lowpass = false /\
  Node_eqb (fst e) Highpass = false.
Proof.
  unfold cleared. intros H.
  apply In_drop in H. destruct H as [H1 H].
  apply In_drop in H. destruct H as [H2 H].
  apply In_drop in H. destruct H as [H3 H].
  apply In_drop in H. destruct H as [H4 H].
  apply In_drop in H. destruct H as [H5 H].
  auto.
Qed.

Lemma cleared_idem src es : cleared src (cleared src es) = cleared src es.
Proof.
  unfold cleared at 1.
  rewrite (drop_id Highpass) by (intros e He; now apply In_cleared in He).
  rewrite (drop_id Lowpass) by (intros e He; now apply In_cleared in He).
  rewrite (drop_id GainOut) by (intros e He; now apply In_cleared in He).
  rewrite (drop_id Analyser) by (intros e He; now apply In_cleared in He).
  rewrite (drop_id (Src src)) by (intros e He; now apply In_cleared in He).
  reflexivity.
Qed.

Ltac push_drops :=
  repeat first
    [ rewrite drop_add_same
    | rewrite drop_add_other by reflexivity ].

Lemma cleared_pass_through src es :
  cleared src
    (add_edge (Src src) Analyser
       (add_edge GainOut Destination
          (add_edge (Src src) GainOut (cleared src es)))) = cleared src es.
Proof.
  rewrite <- (cleared_idem src es) at 2.
  unfold cleared at 1 3. push_drops. reflexivity.
Qed.

Lemma cleared_band src es :
  cleared src
    (add_edge (Src src) Analyser
       (add_edge GainOut Destination
          (add_edge Lowpass GainOut
             (add_edge Highpass Lowpass
                (add_edge (Src src) Highpass (cleared src es)))))) =
  cleared src es.
Proof.
  rewrite <- (cleared_idem src es) at 2.
  unfold cleared at 1 3. push_drops. reflexivity.
Qed.

Lemma rewired_idem src s : rewired src (rewired src s) = rewired src s.
Proof.
  explode s. unfold rewired, gainFor. cbn -[cleared add_edge].
  destruct b_selectedBandHz0 as [b|]; cbn -[cleared add_edge].
  - now rewrite cleared_band.
  - now rewrite cleared_pass_through.
Qed.

Lemma rewired_nodes src s :
  currentSourceNode s = Some src ->
  gainOut s <> None -> highpass s <> None -> lowpass s <> None ->
  visualAnalyser s <> None ->
  currentSourceNode (rewired src s) = Some src /\
  gainOut (rewired src s) <> None /\ highpass (rewired src s) <> None /\
  lowpass (rewired src s) <> None /\ visualAnalyser (rewired src s) <> None.
Proof.
  explode s. unfold rewired. cbn. intros -> Hg Hh Hl Ha.
  destruct b_selectedBandHz0; cbn; repeat split; try assumption; discriminate.
Qed.

Lemma has_edge_other_source other b s :
  currentSourceNode s <> Some other ->
  has_edge (Src other) b (edges (state_of (connectAudioPipeline s))) =
  has_edge (Src other) b (edges s).
Proof.
  intros Hne. explode s. unfold connectAudioPipeline, connect, disconnect.
  cbn -[has_edge add_edge drop_edges] in *.
  destruct s_currentSourceNode0 as [src|]; [|reflexivity].
  assert (Hs : SrcNode_eqb other src = false).
  { destruct (SrcNode_eqb other src) eqn:E; [|reflexivity].
    exfalso. apply Hne. f_equal.
    assert (Src other = Src src) by (apply Node_eqb_eq; exact E). congruence. }
  destruct g_gainOut0; [|reflexivity].
  destruct g_visualAnalyser0; [|reflexivity].
  destruct b_selectedBandHz0, g_highpass0, g_lowpass0;
    cbn -[has_edge add_edge drop_edges];
    rewrite ?has_edge_add, ?has_edge_drop; unfold Edge_eqb; cbn [fst snd Node_eqb];
    rewrite ?Hs; cbn [negb andb orb]; reflexivity.
Qed.

(** X15. connectAudioPipeline is idempotent: once it has wired a state
    that has a current source and the processing nodes, running it again
    changes nothing, neither a connection nor a node parameter. *)
Theorem rewire_twice_is_rewire_once (s : Session) (src : SrcNode) :
  currentSourceNode s = Some src ->
  gainOut s <> None -> highpass s <> None -> lowpass s <> None ->
  visualAnalyser s <> None ->
  exists s', connectAudioPipeline s = Done s' /\
             connectAudioPipeline s' = Done s'.
Proof.
  intros Hc Hg Hh Hl Ha. exists (rewired src s).
  split; [now apply connectAudioPipeline_rewired|].
  destruct (rewired_nodes src s Hc Hg Hh Hl Ha) as (Hc' & Hg' & Hh' & Hl' & Ha').
  rewrite (connectAudioPipeline_rewired _ src Hc' Hg' Hh' Hl' Ha').
  now rewrite rewired_idem.
Qed.

Lemma rewire_twice_witness :
  exists s', connectAudioPipeline (run bareEnv initial [StartClick true]) = Done s' /\
             connectAudioPipeline s' = Done s'.
Proof.
  apply (rewire_twice_is_rewire_once _ (MicSource 1));
    try reflexivity; cbn; discriminate.
Defined.

(** X16. connectAudioPipeline never touches the outgoing connections of a
    source node other than the current one: whatever such a node was
    connected to before the call, it is connected to afterwards, and
    nothing new. *)
Theorem rewire_leaves_other_sources (s : Session) (other : SrcNode) (b : Node) :
  currentSourceNode s <> Some other ->
  has_edge (Src other) b (edges (state_of (connectAudioPipeline s))) =
  has_edge (Src other) b (edges s).
Proof. apply has_edge_other_source. Qed.

Lemma rewire_leaves_other_sources_witness :
  let s := set_currentSourceNode (Some (BufferSource 7))
             (run bareEnv initial [StartClick true]) in
  has_edge (Src (MicSource 1)) GainOut (edges (state_of (connectAudioPipeline s))) =
  has_edge (Src (MicSource 1)) GainOut (edges s).
Proof.
  cbv zeta. apply (rewire_leaves_other_sources _ (MicSource 1) GainOut).
  cbn. discriminate.
Defined.

(** X17. initializeAudioNodes creates what is missing and nothing else:
    afterwards all four processing nodes exist; a node that existed keeps
    its parameter, a new one gets its default (gain from the output
    settings, highpass 20 Hz, lowpass 20 kHz, FFT size 2048); no
    connection changes; and a second call changes nothing. *)
Theorem initializeAudioNodes_creates_missing_only (s : Session) :
  let s' := initializeAudioNodes s in
  gainOut s' = Some (match gainOut s with Some g => g | None => gainFor s end) /\
  highpass s' = Some (match highpass s with Some f => f | None => 20 end) /\
  lowpass s' = Some (match lowpass s with Some f => f | None => 20000 end) /\
  visualAnalyser s' =
    Some (match visualAnalyser s with Some n => n | None => 2048%nat end) /\
  edges s' = edges s /\
  initializeAudioNodes s' = s'.
Proof.
  explode s. unfold initializeAudioNodes, gainFor. cbn.
  destruct g_gainOut0, g_highpass0, g_lowpass0, g_visualAnalyser0; cbn;
    repeat split; reflexivity.
Qed.

(** ** Switching between the microphone and a file *)

(** What stopCurrentInput leaves when it does not raise; on its own
    result it does nothing more. *)
Lemma stopCurrentInput_facts E s s1 :
  stopCurrentInput E s = Done s1 ->
  inputMode s1 = ModeNone /\ currentSourceNode s1 = None /\
  nextId s1 = nextId s /\ gobs s1 = gobs s /\ band s1 = band s /\
  audioCtx s1 = audioCtx s /\ fileBuffer s1 = fileBuffer s /\
  fileDuration s1 = fileDuration s /\
  isRealtimeActive s1 = isRealtimeActive s /\
  mediaStream s1 = mediaStream s /\
  (inputMode s <> ModeFile \/ fileSourceNode s = None -> edges s1 = edges s) /\
  stopCurrentInput E s1 = Done s1.
Proof.
  explode s. unfold stopCurrentInput, stop, disconnect, was_started. cbn.
  destruct s_inputMode0, s_realtimeSourceNode0, s_fileSourceNode0, s_mediaStream0;
    cbn;
    try match goal with |- context [if ?c then _ else _] => destruct c end;
    cbn; intros H; try discriminate; injection H as <-; cbn;
    repeat split; try reflexivity; intros [Hn|Hn]; congruence.
Qed.

Lemma stopCurrentInput_calm E s :
  inputMode s <> ModeFile \/ fileSourceNode s = None ->
  exists s1, stopCurrentInput E s = Done s1.
Proof.
  explode s. unfold stopCurrentInput. cbn.
  intros [H|H];
    destruct s_inputMode0, s_realtimeSourceNode0, s_fileSourceNode0;
    cbn; try congruence; eexists; reflexivity.
Qed.

(** startAudio and the file loader begin with stopCurrentInput; past it
    they go on from its result. *)
Lemma startAudio_after_stop E granted s s1 :
  stopCurrentInput E s = Done s1 ->
  startAudio E granted s = startAudio E granted s1.
Proof.
  intros H. destruct (stopCurrentInput_facts E s s1 H) as (_&_&_&_&_&_&_&_&_&_&_&H1).
  unfold startAudio. now rewrite H, H1.
Qed.

Lemma loadFile_after_stop E decoded s s1 :
  stopCurrentInput E s = Done s1 ->
  loadFile E decoded s = loadFile E decoded s1.
Proof.
  intros H. destruct (stopCurrentInput_facts E s s1 H) as (_&_&_&_&_&_&_&_&_&_&_&H1).
  unfold loadFile. now rewrite H, H1.
Qed.

Lemma initializeAudioNodes_frame s :
  let s' := initializeAudioNodes s in
  platform s' = platform s /\ sources s' = sources s /\
  transport s' = transport s /\ band s' = band s /\ output s' = output s /\
  edges s' = edges s /\
  gainOut s' <> None /\ highpass s' <> None /\ lowpass s' <> None /\
  visualAnalyser s' <> None.
Proof.
  explode s. unfold initializeAudioNodes. cbn.
  destruct g_gainOut0, g_highpass0, g_lowpass0, g_visualAnalyser0; cbn;
    repeat split; try reflexivity; discriminate.
Qed.

Lemma rewired_frame src s :
  platform (rewired src s) = platform s /\ sources (rewired src s) = sources s /\
  transport (rewired src s) = transport s /\ band (rewired src s) = band s /\
  output (rewired src s) = output s /\
  gainOut (rewired src s) = Some (gainFor s).
Proof.
  explode s. unfold rewired. cbn -[add_edge cleared].
  destruct b_selectedBandHz0; cbn -[add_edge cleared]; repeat split; reflexivity.
Qed.

Lemma rewired_edges src s :
  has_edge (Src src) Analyser (edges (rewired src s)) = true /\
  has_edge GainOut Destination (edges (rewired src s)) = true /\
  has_edge (Src src)
    (match selectedBandHz s with Some _ => Highpass | None => GainOut end)
    (edges (rewired src s)) = true.
Proof.
  unfold rewired.
  destruct (selectedBandHz s); cbn [edges set_edges upd_graph graph g_edges];
    rewrite !has_edge_add; unfold Edge_eqb; cbn [fst snd Node_eqb];
    rewrite !SrcNode_eqb_refl; cbn [andb orb]; repeat split; reflexivity.
Qed.

Lemma switchToRealtimeMode_in_realtime E s :
  inputMode s = ModeRealtime ->
  switchToRealtimeMode E s =
  Done (match gainOut s with
        | Some _ => set_gainOut (Some (gainFor s)) s
        | None => s
        end).
Proof.
  intros H. unfold switchToRealtimeMode. rewrite H. cbn [Mode_eqb negb].
  rewrite andb_false_r. rewrite H. cbn [Mode_eqb negb bind].
  destruct (gainOut s); reflexivity.
Qed.

Lemma startAudio_granted_core E s0 :
  stopCurrentInput E s0 = Done s0 ->
  let r := startAudio E true s0 in
  let s' := state_of r in
  let mic := MicSource (nextId s0) in
  threw r = false /\ inputMode s' = ModeRealtime /\ isRealtimeActive s' = true /\
  mediaStream s' = Some (nextId s0) /\ currentSourceNode s' = Some mic /\
  gainOut s' = Some (gainFor s0) /\
  has_edge (Src mic) Analyser (edges s') = true /\
  has_edge GainOut Destination (edges s') = true /\
  has_edge (Src mic)
    (match selectedBandHz s0 with Some _ => Highpass | None => GainOut end)
    (edges s') = true.
Proof.
  intros H. cbv zeta. unfold startAudio. rewrite H. cbn [bind].
  unfold fresh. cbv beta iota zeta.
  match goal with |- context [connectAudioPipeline ?x] => set (s2 := x) end.
  match goal with
  | s2 := context [initializeAudioNodes ?x] |- _ =>
      pose proof (initializeAudioNodes_frame x) as F; cbv zeta in F
  end.
  destruct F as (Fp & Fs & Ft & Fb & Fo & Fe & Fg & Fh & Fl & Fa).
  assert (Hc : currentSourceNode s2 = Some (MicSource (nextId s0))) by reflexivity.
  rewrite (connectAudioPipeline_rewired s2 _ Hc Fg Fh Fl Fa). cbn [bind].
  destruct (rewired_frame (MicSource (nextId s0)) s2) as (Rp & Rs & Rt & Rb & Ro & Rg).
  pose proof (rewired_edges (MicSource (nextId s0)) s2) as Re.
  assert (Hband : selectedBandHz s2 = selectedBandHz s0).
  { unfold selectedBandHz. change (band s2) with (band (initializeAudioNodes
      (set_audioCtx true (set_mediaStream (Some (nextId s0))
         (set_nextId (S (nextId s0)) s0))))). now rewrite Fb. }
  assert (Hgf : gainFor s2 = gainFor s0).
  { unfold gainFor, outputEnabled, volumeLevel.
    change (output s2) with (output (initializeAudioNodes
      (set_audioCtx true (set_mediaStream (Some (nextId s0))
         (set_nextId (S (nextId s0)) s0))))). now rewrite Fo. }
  rewrite Hband in Re. rewrite Hgf in Rg.
  assert (Hou : output (rewired (MicSource (nextId s0)) s2) = output s0).
  { rewrite Ro.
    change (output s2) with (output (initializeAudioNodes
      (set_audioCtx true (set_mediaStream (Some (nextId s0))
         (set_nextId (S (nextId s0)) s0))))). now rewrite Fo. }
  assert (Hsrc : sources s2 =
                 mkSources true (Some (nextId s0)) (Some (MicSource (nextId s0)))
                   (Some (nextId s0)) (fileSourceNode s0) ModeRealtime
                   (isRealtimeActive s0) (fileBuffer s0) (fileDuration s0)).
  { change (sources s2) with
      (mkSources
         (s_audioCtx (sources (initializeAudioNodes
            (set_audioCtx true (set_mediaStream (Some (nextId s0))
               (set_nextId (S (nextId s0)) s0))))))
         (s_mediaStream (sources (initializeAudioNodes
            (set_audioCtx true (set_mediaStream (Some (nextId s0))
               (set_nextId (S (nextId s0)) s0))))))
         (Some (MicSource (nextId s0))) (Some (nextId s0))
         (s_fileSourceNode (sources (initializeAudioNodes
            (set_audioCtx true (set_mediaStream (Some (nextId s0))
               (set_nextId (S (nextId s0)) s0))))))
         ModeRealtime
         (s_isRealtimeActive (sources (initializeAudioNodes
            (set_audioCtx true (set_mediaStream (Some (nextId s0))
               (set_nextId (S (nextId s0)) s0))))))
         (s_fileBuffer (sources (initializeAudioNodes
            (set_audioCtx true (set_mediaStream (Some (nextId s0))
               (set_nextId (S (nextId s0)) s0))))))
         (s_fileDuration (sources (initializeAudioNodes
            (set_audioCtx true (set_mediaStream (Some (nextId s0))
               (set_nextId (S (nextId s0)) s0))))))).
    rewrite Fs. reflexivity. }
  rewrite Hsrc in Rs.
  set (r := rewired (MicSource (nextId s0)) s2) in *.
  unfold switchToRealtimeInput.
  rewrite switchToRealtimeMode_in_realtime
    by (unfold inputMode; now rewrite Rs).
  rewrite Rg. cbn [bind try_catch state_of threw].
  clearbody r. clear - Rs Rg Re Hou.
  destruct r as [g pl so tr bd ou]. cbn in Rs, Hou. subst so ou.
  destruct g as [g1 g2 g3 g4 g5]. cbn -[has_edge] in *.
  destruct Re as (Re1 & Re2 & Re3).
  repeat split; try reflexivity; assumption.
Qed.

Lemma not_threw_done m : threw m = false -> exists s1, m = Done s1.
Proof. destruct m as [s1|s1]; [eexists; reflexivity | discriminate]. Qed.

Lemma gainFor_gobs s s' : gobs s' = gobs s -> gainFor s' = gainFor s.
Proof.
  unfold gobs, gainFor, outputEnabled, volumeLevel. intros H.
  injection H as _ _ _ _ ->. reflexivity.
Qed.

Lemma switchToFileMode_from_none E s d :
  inputMode s = ModeNone -> fileBuffer s = Some d ->
  exists s', switchToFileMode E s = Done s' /\
    inputMode s' = ModeFile /\ fileBuffer s' = Some d /\
    fileDuration s' = fileDuration s /\ audioCtx s' = audioCtx s /\
    currentSourceNode s' = option_map BufferSource (fileSourceNode s') /\
    btnPlay_disabled s' = false /\ btnPause_disabled s' = true /\
    btnStop_disabled s' = true.
Proof.
  explode s. cbn. intros -> ->.
  unfold switchToFileMode, stopCurrentInput. cbn.
  rewrite andb_false_r. cbn.
  destruct g_gainOut0; cbn; eexists; repeat split; reflexivity.
Qed.

(** X18. A granted microphone request, from any state whose current input
    can be stopped without an exception, ends in realtime mode and marked
    active, with the new stream's source as current source, wired to the
    analyser and (through the filters when a band is selected) to the gain
    node, which carries outputEnabled ? volumeLevel : 0 and feeds the
    destination. *)
Theorem startAudio_granted_goes_live (E : Env) (s : Session) :
  threw (stopCurrentInput E s) = false ->
  let r := startAudio E true s in
  let s' := state_of r in
  let mic := MicSource (nextId s) in
  threw r = false /\ inputMode s' = ModeRealtime /\ isRealtimeActive s' = true /\
  mediaStream s' = Some (nextId s) /\ currentSourceNode s' = Some mic /\
  gainOut s' = Some (gainFor s) /\
  has_edge (Src mic) Analyser (edges s') = true /\
  has_edge GainOut Destination (edges s') = true /\
  has_edge (Src mic)
    (match selectedBandHz s with Some _ => Highpass | None => GainOut end)
    (edges s') = true.
Proof.
  intros Hs. destruct (not_threw_done _ Hs) as [s1 H1]. cbv zeta.
  destruct (stopCurrentInput_facts E s s1 H1)
    as (_ & _ & Hid & Hg & Hb & _ & _ & _ & _ & _ & _ & Hfix).
  rewrite (startAudio_after_stop E true s s1 H1).
  pose proof (startAudio_granted_core E s1 Hfix) as C. cbv zeta in C.
  rewrite Hid, (gainFor_gobs s s1 Hg) in C.
  unfold selectedBandHz in *. rewrite Hb in C. exact C.
Qed.

Lemma startAudio_granted_witness :
  inputMode (state_of (startAudio bareEnv true initial)) = ModeRealtime.
Proof.
  refine (proj1 (proj2 (startAudio_granted_goes_live bareEnv initial _))).
  reflexivity.
Defined.

(** X19. A refused microphone request, from any state whose current input
    can be stopped without an exception, is caught: nothing is raised, no
    input mode and no current source remain, no stream or node is created,
    the processing nodes and output settings are untouched, and
    isRealtimeActive keeps the value it had. *)
Theorem startAudio_refused_leaves_no_input (E : Env) (s : Session) :
  threw (stopCurrentInput E s) = false ->
  let r := startAudio E false s in
  let s' := state_of r in
  threw r = false /\ inputMode s' = ModeNone /\ currentSourceNode s' = None /\
  isRealtimeActive s' = isRealtimeActive s /\
  mediaStream s' = mediaStream s /\ nextId s' = nextId s /\
  gobs s' = gobs s.
Proof.
  intros Hs. destruct (not_threw_done _ Hs) as [s1 H1]. cbv zeta.
  destruct (stopCurrentInput_facts E s s1 H1)
    as (Hm & Hc & Hid & Hg & _ & _ & _ & _ & Ha & Hms & _ & Hfix).
  rewrite (startAudio_after_stop E false s s1 H1).
  unfold startAudio. rewrite Hfix. cbn [bind try_catch]. rewrite Hfix.
  cbn [threw state_of]. repeat split; assumption.
Qed.

Lemma startAudio_refused_witness :
  let s := run bareEnv initial [StartClick true] in
  inputMode (state_of (startAudio bareEnv false s)) = ModeNone /\
  isRealtimeActive (state_of (startAudio bareEnv false s)) = true.
Proof.
  cbv zeta.
  pose proof (startAudio_refused_leaves_no_input bareEnv
                (run bareEnv initial [StartClick true]) eq_refl) as H.
  cbv zeta in H. destruct H as (_ & Hm & _ & Ha & _).
  split; [exact Hm|]. rewrite Ha. reflexivity.
Defined.

(** X20. Choosing a file, from any state whose current input can be
    stopped without an exception.  When decoding succeeds the script is in
    file mode with the new buffer and its duration, the timeline at 0,
    Play enabled, Pause and Stop disabled.  When decoding fails no input
    mode and no current source remain, while the buffer and duration of an
    earlier file stay in place. *)
Theorem loadFile_outcomes (E : Env) (decoded : option R) (s : Session) :
  threw (stopCurrentInput E s) = false ->
  let s' := loadFile E decoded s in
  audioCtx s' = true /\
  match decoded with
  | Some d =>
      inputMode s' = ModeFile /\ fileBuffer s' = Some d /\ fileDuration s' = d /\
      currentTimelineProgress s' = 0 /\ currentTime s' = "00:00"%string /\
      btnPlay_disabled s' = false /\ btnPause_disabled s' = true /\
      btnStop_disabled s' = true
  | None =>
      inputMode s' = ModeNone /\ currentSourceNode s' = None /\
      fileBuffer s' = fileBuffer s /\ fileDuration s' = fileDuration s
  end.
Proof.
  intros Hs. destruct (not_threw_done _ Hs) as [s1 H1]. cbv zeta.
  destruct (stopCurrentInput_facts E s s1 H1)
    as (Hm & Hc & _ & _ & _ & _ & Hfb & Hfd & _ & _ & _ & Hfix).
  rewrite (loadFile_after_stop E decoded s s1 H1).
  unfold loadFile. rewrite Hfix. cbn [bind].
  destruct decoded as [d|].
  - match goal with
    | |- context [switchToFileMode E ?x] => set (s3 := x)
    end.
    match goal with
    | s3 := initializeAudioNodes ?x |- _ =>
        pose proof (initializeAudioNodes_frame x) as F; cbv zeta in F
    end.
    destruct F as (_ & Fs & _).
    assert (Hm3 : inputMode s3 = ModeNone).
    { unfold inputMode, s3. rewrite Fs. exact Hm. }
    assert (Hb3 : fileBuffer s3 = Some d).
    { unfold fileBuffer, s3. rewrite Fs. reflexivity. }
    assert (Hd3 : fileDuration s3 = d).
    { unfold fileDuration, s3. rewrite Fs. reflexivity. }
    assert (Ha3 : audioCtx s3 = true).
    { unfold audioCtx, s3. rewrite Fs. reflexivity. }
    destruct (switchToFileMode_from_none E s3 d Hm3 Hb3)
      as (s4 & -> & H4m & H4b & H4d & H4a & _).
    cbn [bind state_of]. rewrite Hd3 in H4d. rewrite Ha3 in H4a.
    clearbody s3. clear - H4m H4b H4d H4a.
    explode s4. cbn in *. subst. repeat split; reflexivity.
  - cbn [state_of]. rewrite <- Hfb, <- Hfd.
    clear - Hm Hc. explode s1. cbn in *. subst. repeat split; reflexivity.
Qed.

Lemma loadFile_outcomes_witness :
  audioCtx (loadFile bareEnv (Some 10) initial) = true /\
  inputMode (loadFile bareEnv (Some 10) initial) = ModeFile.
Proof.
  pose proof (loadFile_outcomes bareEnv (Some 10) initial eq_refl) as H.
  cbv zeta in H. destruct H as (Ha & Hm & _). split; [exact Ha | exact Hm].
Defined.

(** X21. Switching to realtime mode while a file plays never raises, not
    even in a browser whose stop() does: the buffer source is cut from the
    graph and forgotten, playback and its poller end, the mode is
    realtime, and the current source is whatever microphone source was
    still recorded. *)
Theorem switchToRealtimeMode_ends_playing_file
    (E : Env) (s : Session) (n : nat) (b : Node) :
  inputMode s = ModeFile -> isPlaying s = true -> fileSourceNode s = Some n ->
  let r := switchToRealtimeMode E s in
  let s' := state_of r in
  threw r = false /\ inputMode s' = ModeRealtime /\ isPlaying s' = false /\
  fileSourceNode s' = None /\ timeUpdateInterval s' = None /\
  currentSourceNode s' = option_map MicSource (realtimeSourceNode s) /\
  has_edge (Src (BufferSource n)) b (edges s') = false.
Proof.
  explode s. cbn. intros -> -> ->.
  unfold switchToRealtimeMode, stopCurrentInput, stop, disconnect, stopTimeUpdate,
    was_started, gainFor.
  cbn -[has_edge drop_edges].
  match goal with
  | |- context [if negb ?a || ?c then _ else _] => destruct (negb a || c)
  end;
    cbn -[has_edge drop_edges];
    destruct t_timeUpdateInterval0, s_realtimeSourceNode0, g_gainOut0;
    cbn -[has_edge drop_edges];
    rewrite has_edge_drop; cbn [Node_eqb SrcNode_eqb]; rewrite Nat.eqb_refl;
    repeat split; reflexivity.
Qed.

Lemma switchToRealtimeMode_ends_playing_witness :
  let s := set_fileSourceNode (Some 1%nat)
             (set_isPlaying true (set_inputMode ModeFile initial)) in
  threw (switchToRealtimeMode stopFailsEnv s) = false /\
  inputMode (state_of (switchToRealtimeMode stopFailsEnv s)) = ModeRealtime.
Proof.
  cbv zeta.
  pose proof (switchToRealtimeMode_ends_playing_file stopFailsEnv
                (set_fileSourceNode (Some 1%nat)
                   (set_isPlaying true (set_inputMode ModeFile initial)))
                1 GainOut eq_refl eq_refl eq_refl) as H.
  cbv zeta in H. destruct H as (H1 & H2 & _).
  split; [exact H1 | exact H2].
Defined.

(** X22. Switching to file mode while the microphone is live stops the
    tracks of its stream and clears the realtime bookkeeping, but makes no
    change to the graph: the microphone source keeps every connection it
    had.  The mode becomes file when a buffer is loaded and none
    otherwise; Pause and Stop are disabled, Play is enabled exactly when a
    buffer is loaded. *)
Theorem switchToFileMode_from_live_microphone
    (E : Env) (s : Session) (n m : nat) :
  isRealtimeActive s = true -> inputMode s = ModeRealtime ->
  realtimeSourceNode s = Some n -> mediaStream s = Some m ->
  let r := switchToFileMode E s in
  let s' := state_of r in
  threw r = false /\ isRealtimeActive s' = false /\
  realtimeSourceNode s' = None /\ endedStreams s' = m :: endedStreams s /\
  edges s' = edges s /\
  inputMode s' =
    (match fileBuffer s with Some _ => ModeFile | None => ModeNone end) /\
  btnPlay_disabled s' =
    (match fileBuffer s with Some _ => false | None => true end) /\
  btnPause_disabled s' = true /\ btnStop_disabled s' = true.
Proof.
  explode s. cbn. intros -> -> -> ->.
  destruct s_fileBuffer0, s_fileSourceNode0, g_gainOut0;
    lazy; repeat split; reflexivity.
Qed.

Lemma switchToFileMode_from_live_witness :
  let s := run bareEnv initial [StartClick true] in
  threw (switchToFileMode bareEnv s) = false /\
  edges (state_of (switchToFileMode bareEnv s)) = edges s.
Proof.
  cbv zeta.
  pose proof (switchToFileMode_from_live_microphone bareEnv
                (run bareEnv initial [StartClick true]) 1 1
                eq_refl eq_refl eq_refl eq_refl) as H.
  cbv zeta in H. destruct H as (H1 & _ & _ & _ & H5 & _).
  split; [exact H1 | exact H5].
Defined.

(** ** File transport: seeking, polling, stopping *)

(** formatTime below one minute: zero minutes, and the whole seconds. *)
Lemma floor_spec x z : IZR z <= x < IZR z + 1 -> floor x = z.
Proof.
  intros H. unfold floor. symmetry. apply Int_part_spec. lra.
Qed.

Lemma formatTime_seconds x (k : Z) :
  (0 <= k < 60)%Z -> IZR k <= x < IZR k + 1 ->
  formatTime x =
  String.append "00:"%string (padStart 2 "0"%char (toString k)).
Proof.
  intros Hk Hx.
  assert (Hk0 : 0 <= IZR k) by (apply IZR_le; lia).
  assert (Hk60 : IZR k <= 59).
  { change 59 with (IZR 59). apply IZR_le. lia. }
  assert (Hq : 0 <= x / 60 < 1) by (split; lra).
  assert (Hm : floor (x / 60) = 0%Z) by (apply floor_spec; cbn; lra).
  assert (Ht : trunc (x / 60) = 0%Z).
  { unfold trunc. rewrite Rleb_true by lra. apply (floor_spec (x / 60)).
    cbn. lra. }
  unfold formatTime, remainder. cbv zeta. rewrite Hm, Ht.
  replace (x - 60 * 0) with x by (cbn; lra).
  rewrite (floor_spec x k Hx). reflexivity.
Qed.

(** What a click on the timeline leaves, in file mode with a file of
    positive duration. *)
Lemma timelineClick_facts E clickX w s :
  inputMode s = ModeFile -> 0 < fileDuration s ->
  let p := Rmax 0 (Rmin 100 (clickX / w * 100)) in
  let s' := timelineClick E clickX w s in
  currentTimelineProgress s' = p /\
  currentTime s' = formatTime (p / 100 * fileDuration s) /\
  fileDuration s' = fileDuration s /\ fileBuffer s' = fileBuffer s /\
  audioCtx s' = audioCtx s /\ inputMode s' = ModeFile /\
  started s' = started s /\ nextId s' = nextId s /\ gobs s' = gobs s /\
  (fileBuffer s <> None -> fileSourceNode s <> None -> isPlaying s' = false) /\
  (fileBuffer s <> None -> fileSourceNode s = None \/ isPlaying s = true ->
   fileSourceNode s' = None).
Proof.
  intros Hm Hd. cbv zeta. unfold timelineClick. rewrite Hm.
  rewrite Rltb_true by assumption. cbn [Mode_eqb andb].
  generalize (Rmax 0 (Rmin 100 (clickX / w * 100))). intros p.
  clear Hd. explode s. cbn in Hm. subst.
  unfold seekToPosition, pauseFile, stop, disconnect, stopTimeUpdate,
    drawTimelineGauge, was_started, gobs.
  cbn -[drop_edges].
  destruct s_fileBuffer0, t_isPlaying0, s_fileSourceNode0; cbn -[drop_edges];
    try match goal with
        | |- context [if negb ?a || ?c then _ else _] => destruct (negb a || c)
        end;
    cbn -[drop_edges];
    try destruct t_timeUpdateInterval0; cbn -[drop_edges];
    repeat split; try reflexivity; try congruence;
    intros; try congruence;
    match goal with H : _ \/ _ |- _ => destruct H; congruence end.
Qed.

Lemma nodes_ok_gobs s s' : gobs s' = gobs s -> nodes_ok s -> nodes_ok s'.
Proof.
  unfold gobs, nodes_ok. intros H. injection H as -> -> -> -> _. auto.
Qed.

(** X23. A click on the timeline, in file mode with a file of positive
    duration, seeks inside the file: the progress is the click position
    as a percentage clamped to 0..100, the reported position is that
    share of the duration (between 0 and the duration), the time label
    shows formatTime of that position, no source is started by the click
    itself, and a playing transport is paused. *)
Theorem timelineClick_seeks_within_file (E : Env) (clickX w : R) (s : Session) :
  inputMode s = ModeFile -> 0 < fileDuration s -> 0 < w ->
  let s' := timelineClick E clickX w s in
  currentTimelineProgress s' = Rmax 0 (Rmin 100 (clickX / w * 100)) /\
  0 <= currentTimelineProgress s' <= 100 /\
  0 <= reportedPosition s' <= fileDuration s /\
  currentTime s' = formatTime (reportedPosition s') /\
  started s' = started s /\
  (fileBuffer s <> None -> fileSourceNode s <> None -> isPlaying s' = false).
Proof.
  intros Hm Hd Hw. cbv zeta.
  destruct (timelineClick_facts E clickX w s Hm Hd)
    as (Hp & Ht & Hdur & _ & _ & _ & Hst & _ & _ & Hpl & _).
  pose proof (clamp_range 0 100 (clickX / w * 100) ltac:(lra)) as Hr.
  unfold reportedPosition. rewrite Hp, Ht, Hdur.
  repeat split; try assumption; try lra; try nra.
Qed.

Lemma timelineClick_seeks_witness :
  let s := run sliderEnv initial [FileChosen (Some 10)] in
  currentTimelineProgress (timelineClick sliderEnv 50 200 s) =
    Rmax 0 (Rmin 100 (50 / 200 * 100)) /\
  currentTime (timelineClick sliderEnv 50 200 s) = "00:02"%string.
Proof.
  cbv zeta.
  assert (Hd : fileDuration (run sliderEnv initial [FileChosen (Some 10)]) = 10)
    by (rrun; reflexivity).
  destruct (timelineClick_seeks_within_file sliderEnv 50 200
              (run sliderEnv initial [FileChosen (Some 10)]))
    as (Hp & _ & _ & Ht & _).
  - reflexivity.
  - rewrite Hd. lra.
  - lra.
  - split; [exact Hp|]. rewrite Ht.
    destruct (timelineClick_facts sliderEnv 50 200
                (run sliderEnv initial [FileChosen (Some 10)]) eq_refl
                ltac:(rewrite Hd; lra)) as (_ & _ & Hdur & _).
    unfold reportedPosition. rewrite Hp, Hdur, Hd.
    apply (formatTime_seconds _ 2); [lia|].
    rewrite Rmin_right by lra. rewrite Rmax_right by lra. lra.
Defined.

(** X24. Seek, then play: after a timeline click in file mode, the next
    playFile starts a fresh buffer source at the clicked share of the
    duration. *)
Theorem seek_then_play_starts_at_click
    (E : Env) (now clickX w d : R) (s : Session) :
  inputMode s = ModeFile -> fileBuffer s = Some d -> 0 < fileDuration s ->
  0 < w -> audioCtx s = true -> nodes_ok s ->
  fileSourceNode s = None \/ isPlaying s = true ->
  was_started (nextId s) s = false ->
  let s2 := playFile E now (timelineClick E clickX w s) in
  started s2 =
    started s ++
      [(nextId s, Rmax 0 (Rmin 100 (clickX / w * 100)) / 100 * fileDuration s)] /\
  fileSourceNode s2 = Some (nextId s) /\ isPlaying s2 = true.
Proof.
  intros Hm Hb Hd Hw Hctx HN Hsrc Hfresh. cbv zeta.
  destruct (timelineClick_facts E clickX w s Hm Hd)
    as (Hp & _ & Hdur & Hbuf & Hac & _ & Hst & Hid & Hg & _ & Hnone).
  pose proof (clamp_range 0 100 (clickX / w * 100) ltac:(lra)) as Hr.
  set (s1 := timelineClick E clickX w s) in *.
  assert (Hpos : reportedPosition s1 =
                 Rmax 0 (Rmin 100 (clickX / w * 100)) / 100 * fileDuration s).
  { unfold reportedPosition. now rewrite Hp, Hdur. }
  assert (Hn1 : fileSourceNode s1 = None).
  { apply Hnone; [rewrite Hb; discriminate | exact Hsrc]. }
  assert (Hf1 : was_started (nextId s1) s1 = false).
  { unfold was_started. rewrite Hid, Hst. exact Hfresh. }
  destruct (playFile_starts E now s1 d Hn1 ltac:(now rewrite Hbuf)
              ltac:(now rewrite Hac) (nodes_ok_gobs s s1 Hg HN)
              ltac:(rewrite Hpos; nra) Hf1)
    as (H1 & _ & H3 & H4 & _).
  rewrite H3, H1, Hst, Hid, Hpos. auto.
Qed.

Lemma seek_then_play_witness :
  let s := run sliderEnv initial [FileChosen (Some 10)] in
  isPlaying (playFile sliderEnv 0 (timelineClick sliderEnv 50 200 s)) = true.
Proof.
  cbv zeta.
  refine (proj2 (proj2 (seek_then_play_starts_at_click sliderEnv 0 50 200 10 _
                          _ _ _ _ _ _ _ _))).
  - reflexivity.
  - reflexivity.
  - rrun. lra.
  - lra.
  - reflexivity.
  - right. repeat split; try discriminate; reflexivity.
  - left. reflexivity.
  - reflexivity.
Defined.

(** X25. The poller keeps no history: as long as an earlier poll did not
    stop the transport (repeat is on, or the playback had not run out),
    the state after a later poll is the same as if the earlier poll had
    never happened. *)
Theorem later_poll_overrides_earlier (E : Env) (now1 now2 : R) (s : Session) :
  isRepeating s = true \/ now1 - playStartTime s + pausedTime s < fileDuration s ->
  timeUpdateTick E now2 (timeUpdateTick E now1 s) = timeUpdateTick E now2 s.
Proof.
  intros H. explode s. cbn in H.
  unfold timeUpdateTick. cbn.
  destruct t_isPlaying0, s_audioCtx0; cbn; try reflexivity.
  assert (Hc : Rleb s_fileDuration0 (now1 - t_playStartTime0 + t_pausedTime0)
               && negb t_isRepeating0 = false).
  { destruct H as [->|H]; [apply andb_false_r|].
    rewrite Rleb_false by assumption. reflexivity. }
  rewrite Hc. cbn.
  destruct (Rleb s_fileDuration0 (now2 - t_playStartTime0 + t_pausedTime0)
            && negb t_isRepeating0); reflexivity.
Qed.

Lemma later_poll_overrides_witness :
  let s := run sliderEnv initial [FileChosen (Some 10); PlayClick 0] in
  timeUpdateTick sliderEnv 5 (timeUpdateTick sliderEnv 2 s) =
  timeUpdateTick sliderEnv 5 s.
Proof.
  cbv zeta. apply later_poll_overrides_earlier. right. rrun. lra.
Defined.

(** Whether or not [stop()] raises, cutting a buffer source loose changes
    only the connections and the record of stopped sources. *)
Lemma teardown_shape E n s :
  exists P G,
    state_of (stop E n (disconnect (Src (BufferSource n)) s)) =
    mkSession
      (mkGraph (gainOut s) (highpass s) (lowpass s) (visualAnalyser s) G)
      (mkPlatform (nextId s) (started s) P (onended s) (endedStreams s)
         (intervals s))
      (sources s) (transport s) (band s) (output s).
Proof.
  explode s. unfold stop, disconnect, was_started. cbn -[drop_edges].
  match goal with |- context [if ?c then _ else _] => destruct c end;
    cbn -[drop_edges]; eexists _, _; reflexivity.
Qed.

Ltac transport_head :=
  lazy beta iota zeta delta
    [stopFile pauseFile fileSourceNode isPlaying sources transport
     s_fileSourceNode t_isPlaying].

Ltac transport_norm := lazy -[IZR filter Nat.eqb negb formatTime].

(** X26. Stop absorbs what came before it: stopping twice, or pausing and
    then stopping, leaves exactly the state of a single stop; pausing
    twice is pausing once. *)
Theorem stopFile_absorbs_pause_and_stop (E : Env) (s : Session) :
  stopFile E (stopFile E s) = stopFile E s /\
  stopFile E (pauseFile E s) = stopFile E s /\
  pauseFile E (pauseFile E s) = pauseFile E s.
Proof.
  destruct (fileSourceNode s) as [n|] eqn:Hn.
  - destruct (teardown_shape E n s) as (P & G & HT).
    explode s. cbn in Hn. subst.
    destruct t_isPlaying0, t_timeUpdateInterval0;
      (split; [|split]); transport_head; rewrite ?HT; transport_norm;
      reflexivity.
  - explode s. cbn in Hn. subst.
    destruct t_isPlaying0, t_timeUpdateInterval0;
      (split; [|split]); transport_norm; reflexivity.
Qed.

(** X27. A poll that finds the whole duration elapsed.  With repeat off
    it stops the transport: Stopped, position 0, time label 00:00, source
    forgotten, poller cancelled.  With repeat on it stops nothing: the
    transport keeps playing, the gauge stays at 100 and the time label
    shows formatTime of the elapsed time, past the duration; the [ended]
    handler does nothing either. *)
Theorem poll_after_the_end (E : Env) (now : R) (s : Session) :
  isPlaying s = true -> audioCtx s = true -> 0 < fileDuration s ->
  fileDuration s <= now - playStartTime s + pausedTime s ->
  let s' := timeUpdateTick E now s in
  if isRepeating s
  then isPlaying s' = true /\ currentTimelineProgress s' = 100 /\
       currentTime s' = formatTime (now - playStartTime s + pausedTime s) /\
       fileSourceNode s' = fileSourceNode s /\
       timeUpdateInterval s' = timeUpdateInterval s /\
       onendedHandler E s = s
  else transportState s' = Stopped /\ currentTimelineProgress s' = 0 /\
       currentTime s' = "00:00"%string /\ fileSourceNode s' = None /\
       timeUpdateInterval s' = None.
Proof.
  intros Hp Hc Hd He. cbv zeta.
  unfold timeUpdateTick. rewrite Hp, Hc. cbn [andb].
  assert (Hr : 1 <= (now - playStartTime s + pausedTime s) / fileDuration s).
  { apply (Rmult_le_reg_r (fileDuration s)); [assumption|].
    unfold Rdiv. rewrite Rmult_assoc, Rinv_l by lra. lra. }
  rewrite Rmin_right by assumption.
  match goal with
  | |- context [Rleb (fileDuration ?x) _] =>
      change (fileDuration x) with (fileDuration s);
      change (isRepeating x) with (isRepeating s)
  end.
  rewrite Rleb_true by assumption. cbn [andb].
  destruct (isRepeating s) eqn:Hrep; cbn [negb].
  - unfold onendedHandler. rewrite Hrep. cbn [negb].
    repeat split; try reflexivity; try assumption.
    unfold currentTimelineProgress. cbn. lra.
  - match goal with
    | |- context [stopFile E ?x] =>
        destruct (stopFile_any E x) as (H1 & H2 & H3 & H4 & H5 & H6)
    end.
    unfold transportState. rewrite H2, H4. auto.
Qed.

Lemma poll_after_the_end_witness :
  let s := set_fileDuration 10 (set_audioCtx true (set_isPlaying true initial)) in
  transportState (timeUpdateTick sliderEnv 12 s) = Stopped.
Proof.
  cbv zeta.
  refine (proj1 (poll_after_the_end sliderEnv 12
                   (set_fileDuration 10
                      (set_audioCtx true (set_isPlaying true initial)))
                   eq_refl eq_refl _ _)); rnorm; lra.
Defined.

(** ** A whole drag, the output toggle, and the nodes of a session *)

Lemma span_abs a b : Rmax a b - Rmin a b = Rabs (b - a).
Proof.
  unfold Rmax, Rmin, Rabs.
  destruct (Rle_dec a b), (Rcase_abs (b - a)); lra.
Qed.

(** While the button is held, moves keep the start of the drag and clamp
    its end into the plot. *)
Lemma moves_keep_drag w x0 moves :
  0 <= plotWidth w ->
  forall t e0,
    dragging t = true -> dragStartX t = Some x0 -> dragEndX t = Some e0 ->
    0 <= e0 <= plotWidth w ->
    exists e,
      dragging (fold_left (fun t x => mousemove x w t) moves t) = true /\
      dragStartX (fold_left (fun t x => mousemove x w t) moves t) = Some x0 /\
      dragEndX (fold_left (fun t x => mousemove x w t) moves t) = Some e /\
      0 <= e <= plotWidth w.
Proof.
  intros Hw. induction moves as [|x xs IH]; intros t e0 Hd Hs He Hr; cbn [fold_left].
  - exists e0. auto.
  - apply (IH (mousemove x w t) (Rmax plotX (Rmin (plotX + plotWidth w) x))).
    + unfold mousemove. now rewrite Hd.
    + unfold mousemove. now rewrite Hd.
    + unfold mousemove. now rewrite Hd.
    + pose proof (clamp_range plotX (plotX + plotWidth w) x) as Hc.
      unfold plotX in *. lra.
Qed.

(** The selection a release leaves. *)
Lemma mouseup_selection s w a b :
  dragging s = true -> dragStartX s = Some a -> dragEndX s = Some b ->
  selectedBandHz (state_of (mouseup w s)) =
  if Rleb plotX (Rmin a b) && Rleb (Rmax a b) (plotX + plotWidth w)
     && Rleb 5 (Rmax a b - Rmin a b)
  then Some (mkBandHz
               (FrequencyMap.canvasXToHz (Rmin a b - plotX) (plotWidth w))
               (FrequencyMap.canvasXToHz (Rmax a b - plotX) (plotWidth w)))
  else None.
Proof.
  intros Hd Ha Hb. unfold mouseup. rewrite Hd.
  assert (Ha' : dragStartX (set_dragging false s) = Some a) by exact Ha.
  assert (Hb' : dragEndX (set_dragging false s) = Some b) by exact Hb.
  rewrite Ha', Hb'.
  destruct (Rleb plotX (Rmin a b) && Rleb (Rmax a b) (plotX + plotWidth w)
            && Rleb 5 (Rmax a b - Rmin a b)).
  - unfold connectGraph.
    match goal with
    | |- context [connectAudioPipeline ?x] =>
        pose proof (connectAudioPipeline_band x) as Hband;
        destruct (connectAudioPipeline x) as [s3|s3]
    end; cbn [bind state_of] in *;
      unfold selectedBandHz; cbn; now rewrite Hband.
  - unfold clearBand, connectGraph.
    match goal with
    | |- context [connectAudioPipeline ?x] =>
        pose proof (connectAudioPipeline_band x) as Hband;
        destruct (connectAudioPipeline x) as [s3|s3]
    end; cbn [bind state_of] in *;
      unfold selectedBandHz; cbn; now rewrite Hband.
Qed.

(** X28. A whole drag: after a left press inside the plot and any number
    of moves, the drag still starts where the button went down and its end
    lies inside the plot; so the release commits a band exactly when the
    pointer ended at least 5 pixels from the start, and a committed band
    always has 0 <= lo < hi <= 10000 Hz. *)
Theorem drag_session_commits_ordered_band
    (s : Session) (w x0 : R) (moves : list R) :
  0 <= x0 <= plotWidth w ->
  let s1 := fold_left (fun t x => mousemove x w t) moves
              (mousedown x0 w LeftButton s) in
  exists e,
    dragStartX s1 = Some x0 /\ dragEndX s1 = Some e /\ 0 <= e <= plotWidth w /\
    (5 <= Rabs (e - x0) ->
     exists lo hi,
       selectedBandHz (state_of (mouseup w s1)) = Some (mkBandHz lo hi) /\
       0 <= lo /\ lo < hi /\ hi <= 10000) /\
    (Rabs (e - x0) < 5 -> selectedBandHz (state_of (mouseup w s1)) = None).
Proof.
  intros Hx. cbv zeta.
  assert (Hdown : mousedown x0 w LeftButton s =
                  set_dragEndX (Some x0)
                    (set_dragStartX (Some x0) (set_dragging true s))).
  { unfold mousedown, plotX. rewrite !Rleb_true by lra. reflexivity. }
  rewrite Hdown.
  destruct (moves_keep_drag w x0 moves ltac:(lra)
              (set_dragEndX (Some x0)
                 (set_dragStartX (Some x0) (set_dragging true s)))
              x0 eq_refl eq_refl eq_refl Hx)
    as (e & Hd & Hs & He & Hr).
  exists e. split; [exact Hs|]. split; [exact He|]. split; [exact Hr|].
  rewrite (mouseup_selection _ w x0 e Hd Hs He), span_abs.
  assert (Hmin : 0 <= Rmin x0 e) by (apply Rmin_glb; lra).
  assert (Hmax : Rmax x0 e <= plotWidth w) by (apply Rmax_lub; lra).
  unfold plotX. rewrite (Rleb_true 0) by exact Hmin.
  rewrite (Rleb_true (Rmax x0 e)) by lra. cbn [andb].
  split.
  - intros H5. rewrite Rleb_true by exact H5.
    eexists _, _. split; [reflexivity|].
    apply canvasXToHz_strict.
    + pose proof (span_abs x0 e). lra.
    + lra.
    + pose proof (span_abs x0 e). lra.
    + lra.
  - intros H5. now rewrite Rleb_false.
Qed.

Lemma drag_session_witness :
  let s1 := fold_left (fun t x => mousemove x 410 t) [150; 200]
              (mousedown 100 410 LeftButton initial) in
  exists e,
    dragStartX s1 = Some 100 /\ dragEndX s1 = Some e /\ 0 <= e <= plotWidth 410 /\
    (5 <= Rabs (e - 100) ->
     exists lo hi,
       selectedBandHz (state_of (mouseup 410 s1)) = Some (mkBandHz lo hi) /\
       0 <= lo /\ lo < hi /\ hi <= 10000) /\
    (Rabs (e - 100) < 5 -> selectedBandHz (state_of (mouseup 410 s1)) = None).
Proof.
  apply (drag_session_commits_ordered_band initial 410 100 [150; 200]).
  unfold plotWidth. lra.
Defined.

(** X29. In every state the script can reach, toggling the output twice
    brings back exactly the state before the first toggle, gain value
    included. *)
Theorem output_toggle_twice_restores (E : Env) (evs : list event) :
  outputClick (outputClick (run E initial evs)) = run E initial evs.
Proof.
  destruct (reachable_ok E evs) as [_ HG].
  revert HG. generalize (run E initial evs). intros s HG.
  unfold gain_ok, gainFor in HG. explode s.
  unfold outputClick, updateCurrentVolume, gainFor. cbn in *.
  destruct g_gainOut0 as [g|], s_currentSourceNode0 as [src|]; cbn;
    rewrite ?negb_involutive; try reflexivity.
  rewrite (HG g src eq_refl eq_refl). reflexivity.
Qed.

(** X30. In every state the script can reach, the gain node, the two
    filters and the analyser exist all together or not at all, and the
    analyser, once it exists, has FFT size 2048. *)
Theorem reachable_nodes_all_or_none (E : Env) (evs : list event) :
  let s := run E initial evs in
  (gainOut s = None /\ highpass s = None /\ lowpass s = None /\
   visualAnalyser s = None) \/
  (gainOut s <> None /\ highpass s <> None /\ lowpass s <> None /\
   visualAnalyser s = Some 2048%nat).
Proof.
  destruct (reachable_ok E evs) as [[HN _] _]. exact HN.
Qed.
